(** * work_with_files.py: sequence generators persisted as XML or JSON

    A shallow embedding of [work_with_files.py] and the properties of its
    codecs, equivalence checker, generators and persistence entry points.

    Conventions of the embedding:
    - Python objects that travel through a JSON document or a decoded record
      are values of [pyval]; floats are outside the model. A string is a
      sequence of characters with code points below 256.
    - An ElementTree is a value of [xml]; the text of a file is seen through
      its parser: empty, rejected by the parser, or the text an encoder
      wrote for a document. The text written for a tree is read by
      [reparse], which refuses the characters XML forbids and normalises
      line ends; files are written in UTF-8.
    - A call runs in the monad [M]: it threads the [world] (the two files
      and standard output) and either returns or raises. A raised exception
      keeps the effects performed before it, as in Python.
    - Instants are kept to the minute, the precision of [TIME_FORMAT]. *)

From Stdlib Require Import ZArith List String Ascii Bool Lia.
From Stdlib Require Import DecimalString DecimalZ DecimalPos.
Import ListNotations.

Local Open Scope string_scope.
Local Open Scope Z_scope.

(** ** Exceptions and results *)

Inductive exn : Type :=
| InvalidTypeError (message : string)
| InvalidSequenceLength (message : string)
| InvalidValueError (message : string)
| FibonacciError
| AttributeError
| TypeError
| ValueError
| KeyError
| ZeroDivisionError
| FileNotFoundError.

Inductive result (A : Type) : Type :=
| Ok (a : A)
| Raise (e : exn).

Arguments Ok {A} a.
Arguments Raise {A} e.

Definition rbind {A B} (r : result A) (k : A -> result B) : result B :=
  match r with
  | Ok a => k a
  | Raise e => Raise e
  end.

Declare Scope result_scope.
Delimit Scope result_scope with result.
Notation "x <- c ;; k" := (rbind c (fun x => k))
  (at level 61, c at next level, right associativity) : result_scope.

Fixpoint rmap {A B} (f : A -> result B) (l : list A) : result (list B) :=
  match l with
  | [] => Ok []
  | a :: l' =>
      (b <- f a ;;
       bs <- rmap f l' ;;
       Ok (b :: bs))%result
  end.

(** ** Python values *)

Local Set Warnings "-register-all".

Inductive pyval : Type :=
| PNone
| PBool (b : bool)
| PInt (z : Z)
| PStr (s : string)
| PList (items : list pyval)
| PDict (entries : list (string * pyval)).

(** What a generator's [get_sequence] hands back: a decoded value as it is,
    or the [tuple(...)] / [set(...)] built from it. A set keeps one copy of
    each element, here in order of first occurrence. *)
Inductive pyobj : Type :=
| Plain (v : pyval)
| Tuple (items : list pyval)
| PySet (items : list pyval).

(** [bool(v)] *)
Definition truthy (v : pyval) : bool :=
  match v with
  | PNone => false
  | PBool b => b
  | PInt z => negb (z =? 0)
  | PStr s => negb (s =? EmptyString)%string
  | PList items => match items with [] => false | _ => true end
  | PDict entries => match entries with [] => false | _ => true end
  end.

(** [bool] is a subclass of [int]: arithmetic and comparisons read it as
    0 or 1. *)
Definition as_int (v : pyval) : option Z :=
  match v with
  | PInt z => Some z
  | PBool b => Some (if b then 1 else 0)
  | _ => None
  end.

(** [v == s] for a string [s] *)
Definition eq_str (v : pyval) (s : string) : bool :=
  match v with
  | PStr t => (t =? s)%string
  | _ => false
  end.

(** [v == z] for an integer [z] *)
Definition eq_int (v : pyval) (z : Z) : bool :=
  match as_int v with
  | Some x => x =? z
  | None => false
  end.

(** [a - b] *)
Definition py_sub (a b : pyval) : result pyval :=
  match as_int a, as_int b with
  | Some x, Some y => Ok (PInt (x - y))
  | _, _ => Raise TypeError
  end.

(** [a // b]: floor division, as [Z.div] *)
Definition py_floordiv (a b : pyval) : result pyval :=
  match as_int a, as_int b with
  | Some x, Some y => if y =? 0 then Raise ZeroDivisionError else Ok (PInt (x / y))
  | _, _ => Raise TypeError
  end.

(** [a > z] for an integer [z] *)
Definition py_gt (a : pyval) (z : Z) : result bool :=
  match as_int a with
  | Some x => Ok (z <? x)
  | None => Raise TypeError
  end.

Fixpoint lookup (k : string) (entries : list (string * pyval)) : option pyval :=
  match entries with
  | [] => None
  | (k', v) :: rest => if (k' =? k)%string then Some v else lookup k rest
  end.

(** [d[k] = v] on a dict: an existing key keeps its position. *)
Fixpoint dict_set (k : string) (v : pyval) (entries : list (string * pyval))
  : list (string * pyval) :=
  match entries with
  | [] => [(k, v)]
  | (k', v') :: rest =>
      if (k' =? k)%string then (k, v) :: rest else (k', v') :: dict_set k v rest
  end.

(** [v.get(k)]: only a dict has the method. *)
Definition py_get (v : pyval) (k : string) : result pyval :=
  match v with
  | PDict entries =>
      Ok (match lookup k entries with Some x => x | None => PNone end)
  | _ => Raise AttributeError
  end.

(** [v[k]] with a string subscript *)
Definition py_getitem (v : pyval) (k : string) : result pyval :=
  match v with
  | PDict entries =>
      match lookup k entries with
      | Some x => Ok x
      | None => Raise KeyError
      end
  | _ => Raise TypeError
  end.

(** [k in v.keys()] *)
Definition py_has_key (v : pyval) (k : string) : result bool :=
  match v with
  | PDict entries =>
      Ok (match lookup k entries with Some _ => true | None => false end)
  | _ => Raise AttributeError
  end.

Definition chars (s : string) : list pyval :=
  map (fun c => PStr (String c EmptyString)) (list_ascii_of_string s).

(** [for i in v]: the items of a list, the keys of a dict, the characters
    of a string. *)
Definition py_iter (v : pyval) : result (list pyval) :=
  match v with
  | PList items => Ok items
  | PDict entries => Ok (map (fun kv => PStr (fst kv)) entries)
  | PStr s => Ok (chars s)
  | _ => Raise TypeError
  end.

(** [len(v)] *)
Definition py_len (v : pyval) : result Z :=
  match v with
  | PList items => Ok (Z.of_nat (List.length items))
  | PDict entries => Ok (Z.of_nat (List.length entries))
  | PStr s => Ok (Z.of_nat (String.length s))
  | _ => Raise TypeError
  end.

(** ** Text of integers: [str(z)] and [int(s)] *)

(** [str(z)]: an optional minus sign and the decimal digits. *)
Definition str_of_int (z : Z) : string := NilZero.string_of_int (Z.to_int z).

(** The blanks that [int] strips from both ends of its argument: the
    characters from tab to carriage return, the space, and the next-line
    and no-break-space characters. *)
Definition is_space (c : ascii) : bool :=
  let n := nat_of_ascii c in
  ((9 <=? n) && (n <=? 13) || (n =? 32) || (n =? 133) || (n =? 160))%nat.

Fixpoint lstrip (s : string) : string :=
  match s with
  | EmptyString => EmptyString
  | String c rest => if is_space c then lstrip rest else s
  end.

Fixpoint rstrip (s : string) : string :=
  match s with
  | EmptyString => EmptyString
  | String c rest =>
      match rstrip rest with
      | EmptyString => if is_space c then EmptyString else String c EmptyString
      | kept => String c kept
      end
  end.

Definition strip (s : string) : string := rstrip (lstrip s).

Definition underscore : ascii := ascii_of_nat 95.

(** A run in which single underscores may separate the characters, as
    [int] reads [1_000], with the underscores taken out; [None] for an
    underscore at either end or next to another. *)
Fixpoint ungroup (after_digit : bool) (s : string) : option string :=
  match s with
  | EmptyString => Some EmptyString
  | String c rest =>
      if Ascii.eqb c underscore then
        match after_digit, rest with
        | true, String _ _ => ungroup false rest
        | _, _ => None
        end
      else option_map (String c) (ungroup true rest)
  end.

(** A non-empty run of decimal digits, single underscores allowed between
    them. *)
Definition digits_value (s : string) : option Z :=
  match ungroup false s with
  | None | Some EmptyString => None
  | Some digits => option_map Z.of_uint (NilEmpty.uint_of_string digits)
  end.

(** [int(s)] for a string: blanks stripped, an optional sign, decimal
    digits; anything else is a [ValueError]. *)
Definition int_of_str (s : string) : result Z :=
  let parsed :=
    match strip s with
    | String "-" rest => option_map Z.opp (digits_value rest)
    | String "+" rest => digits_value rest
    | body => digits_value body
    end in
  match parsed with
  | Some z => Ok z
  | None => Raise ValueError
  end.

(** [int(text)] for the text of an XML element, which is [None] when the
    element has none. *)
Definition int_of_text (text : option string) : result Z :=
  match text with
  | None => Raise TypeError
  | Some s => int_of_str s
  end.

(** [int(v)] *)
Definition py_int (v : pyval) : result Z :=
  match v with
  | PInt z => Ok z
  | PBool b => Ok (if b then 1 else 0)
  | PStr s => int_of_str s
  | _ => Raise TypeError
  end.

(** ** [repr] and [str] *)

Definition dquote : ascii := ascii_of_nat 34.
Definition squote : ascii := ascii_of_nat 39.
Definition backslash : ascii := ascii_of_nat 92.

Definition contains (c : ascii) (s : string) : bool :=
  existsb (Ascii.eqb c) (list_ascii_of_string s).

Definition hex_digit (n : nat) : ascii :=
  if (n <? 10)%nat then ascii_of_nat (48 + n) else ascii_of_nat (87 + n).

Definition repr_char (quote c : ascii) : string :=
  let n := nat_of_ascii c in
  if Ascii.eqb c backslash then String backslash (String backslash EmptyString)
  else if Ascii.eqb c quote then String backslash (String quote EmptyString)
  else if (n =? 9)%nat then String backslash "t"
  else if (n =? 10)%nat then String backslash "n"
  else if (n =? 13)%nat then String backslash "r"
  else if ((n <? 32) || (n =? 127))%nat then
    String backslash
      (String "x" (String (hex_digit (n / 16)) (String (hex_digit (n mod 16)) EmptyString)))
  else String c EmptyString.

(** [repr(s)] for a string of ASCII characters: single quotes unless the
    string holds one and no double quote. *)
Definition repr_str (s : string) : string :=
  let quote := if contains squote s && negb (contains dquote s) then dquote else squote in
  String quote
    (String.concat EmptyString (map (repr_char quote) (list_ascii_of_string s))
     ++ String quote EmptyString).

Fixpoint py_repr (v : pyval) : string :=
  match v with
  | PNone => "None"
  | PBool b => if b then "True" else "False"
  | PInt z => str_of_int z
  | PStr s => repr_str s
  | PList items => "[" ++ String.concat ", " (map py_repr items) ++ "]"
  | PDict entries =>
      "{" ++ String.concat ", "
               (map (fun kv => repr_str (fst kv) ++ ": " ++ py_repr (snd kv)) entries)
          ++ "}"
  end.

(** [str(v)], also what [f'{v}'] renders. *)
Definition py_str (v : pyval) : string :=
  match v with
  | PStr s => s
  | _ => py_repr v
  end.

(** ** Instants *)

(** A [datetime] to the minute. *)
Record datetime : Type := {
  day : nat;
  month : nat;
  year : nat;
  hour : nat;
  minute : nat
}.

Definition TIME_FORMAT : string := "%d.%m.%Y %H:%M".

Fixpoint zeros (n : nat) : string :=
  match n with
  | O => EmptyString
  | S n' => String "0" (zeros n')
  end.

Definition padded (width n : nat) : string :=
  let s := NilZero.string_of_uint (Nat.to_uint n) in
  zeros (width - String.length s) ++ s.

(** [t.strftime(TIME_FORMAT)] *)
Definition strftime (t : datetime) : string :=
  padded 2 (day t) ++ "." ++ padded 2 (month t) ++ "." ++ padded 4 (year t)
  ++ " " ++ padded 2 (hour t) ++ ":" ++ padded 2 (minute t).

(** ** Element trees *)

Inductive xml : Type :=
| Element (tag : string) (attrib : list (string * string))
          (text : option string) (children : list xml).

Definition tag_of (e : xml) : string := let (t, _, _, _) := e in t.
Definition attrib_of (e : xml) : list (string * string) := let (_, a, _, _) := e in a.
Definition text_of (e : xml) : option string := let (_, _, t, _) := e in t.
Definition children_of (e : xml) : list xml := let (_, _, _, c) := e in c.

(** [ET.SubElement(parent, tag).text = text], as a node to append. *)
Definition SubElement (tag : string) (attrib : list (string * string)) (text : string) : xml :=
  Element tag attrib (Some text) [].

(** The characters that [ET.parse] reads back as [ET.tostring] wrote them,
    in a text and in the value of an attribute: tab, line feed and the
    ASCII characters from the space up. *)
Definition kept_char (c : ascii) : bool :=
  let n := nat_of_ascii c in
  ((n =? 9) || (n =? 10) || (32 <=? n) && (n <=? 127))%nat.

Definition carriage_return : ascii := ascii_of_nat 13.
Definition line_feed : ascii := ascii_of_nat 10.

(** Text the parser accepts: kept characters and carriage returns. Any
    other character is a [ParseError]: a control character is not allowed
    in XML, and under the encoding the document declares,
    [encoding='utf8'], the parser takes no character beyond ASCII. *)
Definition well_formed (s : string) : bool :=
  forallb (fun c => kept_char c || Ascii.eqb c carriage_return)
    (list_ascii_of_string s).

(** Line ends as the parser reports them in a text: a carriage return,
    with the line feed that follows it if there is one, is read as one line
    feed. *)
Fixpoint line_ends (s : string) : string :=
  match s with
  | EmptyString => EmptyString
  | String c rest =>
      if Ascii.eqb c carriage_return then
        match rest with
        | String c' _ =>
            if Ascii.eqb c' line_feed then line_ends rest
            else String line_feed (line_ends rest)
        | EmptyString => String line_feed EmptyString
        end
      else String c (line_ends rest)
  end.

(** The text of an element as it is read: an element written with an empty
    text is read without text. *)
Definition read_text (text : option string) : option string :=
  match text with
  | Some s =>
      match line_ends s with
      | EmptyString => None
      | read => Some read
      end
  | None => None
  end.

Definition text_accepted (text : option string) : bool :=
  match text with
  | Some s => well_formed s
  | None => true
  end.

(** What [ET.parse] gives back for the text [ET.tostring] wrote for a tree
    (whose tags and attribute names are XML names, as those of [encode]
    are); [None] when the parser raises [ParseError]. The value of an
    attribute is read as it was written, carriage returns included. *)
Fixpoint reparse (e : xml) : option xml :=
  match e with
  | Element t a text children =>
      let fix reparse_all (l : list xml) : option (list xml) :=
        match l with
        | [] => Some []
        | c :: rest =>
            match reparse c, reparse_all rest with
            | Some c', Some rest' => Some (c' :: rest')
            | _, _ => None
            end
        end in
      if text_accepted text && forallb (fun kv => well_formed (snd kv)) a then
        option_map (Element t a (read_text text)) (reparse_all children)
      else None
  end.

(** The same for the children of an element. *)
Fixpoint reparse_all (l : list xml) : option (list xml) :=
  match l with
  | [] => Some []
  | c :: rest =>
      match reparse c, reparse_all rest with
      | Some c', Some rest' => Some (c' :: rest')
      | _, _ => None
      end
  end.

Definition children_named (name : string) (e : xml) : list xml :=
  filter (fun c => (tag_of c =? name)%string) (children_of e).

(** [root.find('./a')] *)
Definition find1 (a : string) (root : xml) : option xml :=
  hd_error (children_named a root).

(** [root.findall('./a/b')] *)
Definition findall2 (a b : string) (root : xml) : list xml :=
  flat_map (children_named b) (children_named a root).

(** [root.find('./a/b')] *)
Definition find2 (a b : string) (root : xml) : option xml :=
  hd_error (findall2 a b root).

(** Truth value of what [find] returned: [None] is false, and so is an
    element without children. *)
Definition element_truthy (found : option xml) : bool :=
  match found with
  | None => false
  | Some e => match children_of e with [] => false | _ => true end
  end.

(** [found.text]: [None] has no such attribute. *)
Definition dot_text (found : option xml) : result (option string) :=
  match found with
  | None => Raise AttributeError
  | Some e => Ok (text_of e)
  end.

(** [text == s] for the text of an element and a string [s] *)
Definition text_is (text : option string) (s : string) : bool :=
  match text with
  | None => false
  | Some t => (t =? s)%string
  end.

Definition text_truthy (text : option string) : bool :=
  match text with
  | None => false
  | Some s => negb (s =? EmptyString)%string
  end.

Fixpoint assoc (k : string) (l : list (string * string)) : option string :=
  match l with
  | [] => None
  | (k', v) :: rest => if (k' =? k)%string then Some v else assoc k rest
  end.

(** ** Files, the world and the call monad *)

Inductive document : Type :=
| XmlDocument (root : xml)
| JsonDocument (data : pyval).

(** The text of a file, as its readers see it: nothing, text that neither
    parser accepts, or the text an encoder writes for a document (which
    the XML parser still refuses when the tree holds a character XML
    forbids, see [reparse]). *)
Inductive body : Type :=
| Empty
| Garbage (raw : string)
| Text (doc : document).

Record file : Type := {
  ctime : datetime;
  content : body
}.

(** The two paths of the program, ['data.json'] and ['data.xml']. *)
Inductive path : Type := JSON_PATH | XML_PATH.

(** What [os.path.getctime] reports: the creation of the file, or (POSIX)
    its last change. *)
Inductive ctime_meaning : Type := Creation | LastChange.

Inductive parser : Type := ElementTreeParser | JsonParser.

(** A line on standard output: the message of a parse error. *)
Inductive printed : Type :=
| ParseErrorMessage (by_parser : parser) (on : body).

Record world : Type := {
  getctime_reports : ctime_meaning;
  json_file : option file;
  xml_file : option file;
  stdout : list printed
}.

Definition file_at (p : path) (w : world) : option file :=
  match p with
  | JSON_PATH => json_file w
  | XML_PATH => xml_file w
  end.

Definition set_file (p : path) (f : option file) (w : world) : world :=
  match p with
  | JSON_PATH =>
      {| getctime_reports := getctime_reports w; json_file := f;
         xml_file := xml_file w; stdout := stdout w |}
  | XML_PATH =>
      {| getctime_reports := getctime_reports w; json_file := json_file w;
         xml_file := f; stdout := stdout w |}
  end.

Definition M (A : Type) : Type := world -> result A * world.

Definition ret {A} (a : A) : M A := fun w => (Ok a, w).
Definition raise {A} (e : exn) : M A := fun w => (Raise e, w).
Definition lift {A} (r : result A) : M A := fun w => (r, w).

Definition bind {A B} (m : M A) (k : A -> M B) : M B :=
  fun w =>
    match m w with
    | (Ok a, w') => k a w'
    | (Raise e, w') => (Raise e, w')
    end.

Declare Scope call_scope.
Delimit Scope call_scope with call.
Notation "x <- c ;; k" := (bind c (fun x => k))
  (at level 61, c at next level, right associativity) : call_scope.
Notation "c ;; k" := (bind c (fun _ => k))
  (at level 61, right associativity) : call_scope.

(** [os.path.exists(p)] *)
Definition path_exists (p : path) : M bool :=
  fun w => (Ok (match file_at p w with Some _ => true | None => false end), w).

(** [os.remove(p)] *)
Definition os_remove (p : path) : M unit :=
  fun w => (Ok tt, set_file p None w).

(** [open(p, 'a+')]: creates the file when it is missing. *)
Definition open_append (p : path) (now : datetime) : M unit :=
  fun w =>
    match file_at p w with
    | Some _ => (Ok tt, w)
    | None => (Ok tt, set_file p (Some {| ctime := now; content := Empty |}) w)
    end.

(** [os.path.getctime(p)] on a file that exists. *)
Definition getctime (p : path) : M datetime :=
  fun w =>
    match file_at p w with
    | Some f => (Ok (ctime f), w)
    | None => (Raise FileNotFoundError, w)
    end.

(** [os.path.getsize(p) != 0] on a file that exists. *)
Definition nonempty (p : path) : M bool :=
  fun w =>
    match file_at p w with
    | Some f => (Ok (match content f with Empty => false | _ => true end), w)
    | None => (Raise FileNotFoundError, w)
    end.

Definition read (p : path) : M body :=
  fun w =>
    match file_at p w with
    | Some f => (Ok (content f), w)
    | None => (Raise FileNotFoundError, w)
    end.

Definition touched (w : world) (f : file) (now : datetime) : datetime :=
  match getctime_reports w with
  | Creation => ctime f
  | LastChange => now
  end.

(** Replaces the text of an open file: [file.truncate(0)] with [Empty],
    [file.write(data)] and [json.dump(data, file)] with the document. *)
Definition set_content (p : path) (b : body) (now : datetime) : M unit :=
  fun w =>
    match file_at p w with
    | Some f => (Ok tt, set_file p (Some {| ctime := touched w f now; content := b |}) w)
    | None => (Raise FileNotFoundError, w)
    end.

Definition truncate (p : path) (now : datetime) : M unit := set_content p Empty now.
Definition write (p : path) (doc : document) (now : datetime) : M unit :=
  set_content p (Text doc) now.

(** [print(e)] *)
Definition print (line : printed) : M unit :=
  fun w =>
    (Ok tt,
     {| getctime_reports := getctime_reports w; json_file := json_file w;
        xml_file := xml_file w; stdout := stdout w ++ [line] |}).

(** ** Serializers *)

(** A chain [c1 and c2 and ...] used as a condition: the first operand that
    is false ends it, and so does the first that raises. *)
Fixpoint all_of (operands : list (result bool)) : result bool :=
  match operands with
  | [] => Ok true
  | c :: rest => (x <- c ;; if x : bool then all_of rest else Ok false)%result
  end.

(** The interface of class [Serializer]. [encode] reads the clock for
    [date_modified], [decode] reads the text of the open file. *)
Record Serializer : Type := {
  encode : pyval -> string -> string -> string -> string -> Z -> Z -> datetime
           -> result document;
  decode : body -> M (option pyval)
}.

Module XMLSerializer.

Definition field (name : string) (root : xml) : option xml :=
  find2 "metadata" name root.

Definition field_set (name : string) (root : xml) : result bool :=
  (t <- dot_text (field name root) ;; Ok (text_truthy t))%result.

Definition _validate_data (root : xml) : result bool :=
  all_of
    [ Ok (element_truthy (find1 "sequence" root));
      Ok (element_truthy (find1 "metadata" root));
      field_set "type" root;
      field_set "seq_type" root;
      field_set "len" root;
      field_set "el_type" root;
      field_set "max" root;
      field_set "date_created" root;
      field_set "date_modified" root;
      field_set "author" root ].

Definition encode (sequence : pyval) (s_type seq_type cr_time author : string)
    (min_el max_el : Z) (now : datetime) : result document :=
  let mod_date := strftime now in
  (items <- py_iter sequence ;;
   let xml_sequence :=
     map (fun i =>
            match sequence with
            | PDict _ => SubElement "el" [("key", py_str i)] (py_str i)
            | _ => SubElement "el" [] (py_str i)
            end) items in
   len <- py_len sequence ;;
   let xml_meta :=
     [ SubElement "type" [] s_type;
       SubElement "seq_type" [] seq_type;
       SubElement "len" [] (str_of_int len);
       SubElement "el_type" [] "int";
       SubElement "date_created" [] cr_time;
       SubElement "date_modified" [] mod_date;
       SubElement "author" [] author;
       SubElement "min" [] (str_of_int min_el);
       SubElement "max" [] (str_of_int max_el) ] in
   Ok (XmlDocument
         (Element "data" [] None
            [ Element "sequence" [] None xml_sequence;
              Element "metadata" [] None xml_meta ])))%result.

Definition text_value (text : option string) : pyval :=
  match text with
  | Some s => PStr s
  | None => PNone
  end.

(** [{i.attrib['key']: int(i.text) for i in els}] *)
Fixpoint dict_of_els (els : list xml) (acc : list (string * pyval))
  : result (list (string * pyval)) :=
  match els with
  | [] => Ok acc
  | i :: rest =>
      match assoc "key" (attrib_of i) with
      | None => Raise KeyError
      | Some k =>
          (v <- int_of_text (text_of i) ;;
           dict_of_els rest (dict_set k (PInt v) acc))%result
      end
  end.

(** [[int(i.text) for i in els]] *)
Definition list_of_els (els : list xml) : result (list pyval) :=
  rmap (fun i => (v <- int_of_text (text_of i) ;; Ok (PInt v))%result) els.

Definition record_of (root : xml) : result pyval :=
  (sq_type <- dot_text (field "type" root) ;;
   seq <- (if text_is sq_type "dict" then
             d <- dict_of_els (findall2 "sequence" "el" root) [] ;; Ok (PDict d)
           else
             l <- list_of_els (findall2 "sequence" "el" root) ;; Ok (PList l)) ;;
   seq_type <- dot_text (field "seq_type" root) ;;
   len <- py_len seq ;;
   date_created <- dot_text (field "date_created" root) ;;
   date_modified <- dot_text (field "date_modified" root) ;;
   author <- dot_text (field "author" root) ;;
   min_text <- dot_text (field "min" root) ;;
   min <- int_of_text min_text ;;
   max_text <- dot_text (field "max" root) ;;
   max <- int_of_text max_text ;;
   Ok (PDict
         [ ("sequence", seq);
           ("metadata",
            PDict
              [ ("type", text_value sq_type);
                ("seq_type", text_value seq_type);
                ("len", PInt len);
                ("el_type", PStr "int");
                ("date_created", text_value date_created);
                ("date_modified", text_value date_modified);
                ("author", text_value author);
                ("min", PInt min);
                ("max", PInt max) ]) ]))%result.

Definition decode (file : body) : M (option pyval) :=
  match file with
  | Text (XmlDocument written) =>
      match reparse written with
      | Some root =>
          (valid <- lift (_validate_data root) ;;
           if valid : bool then
             data <- lift (record_of root) ;;
             ret (Some data)
           else ret None)%call
      | None =>
          (print (ParseErrorMessage ElementTreeParser file) ;;
           ret None)%call
      end
  | unparsable =>
      (print (ParseErrorMessage ElementTreeParser unparsable) ;;
       ret None)%call
  end.

End XMLSerializer.

Module JSONSerializer.

Definition get_truthy (v : pyval) (k : string) : result bool :=
  (x <- py_get v k ;; Ok (truthy x))%result.

Definition meta_truthy (data : pyval) (k : string) : result bool :=
  (m <- py_get data "metadata" ;; get_truthy m k)%result.

Definition _validate_data (data : pyval) : result bool :=
  all_of
    [ get_truthy data "sequence";
      get_truthy data "metadata";
      meta_truthy data "type";
      meta_truthy data "seq_type";
      meta_truthy data "len";
      meta_truthy data "el_type";
      meta_truthy data "author";
      (m <- py_get data "metadata" ;; py_has_key m "min")%result;
      meta_truthy data "max" ].

Definition encode (sequence : pyval) (s_type seq_type cr_time author : string)
    (min_el max_el : Z) (now : datetime) : result document :=
  (len <- py_len sequence ;;
   Ok (JsonDocument
         (PDict
            [ ("sequence", sequence);
              ("metadata",
               PDict
                 [ ("type", PStr s_type);
                   ("seq_type", PStr seq_type);
                   ("len", PInt len);
                   ("el_type", PStr "int");
                   ("date_created", PStr cr_time);
                   ("date_modified", PStr (strftime now));
                   ("author", PStr author);
                   ("min", PInt min_el);
                   ("max", PInt max_el) ]) ])))%result.

Definition decode (file : body) : M (option pyval) :=
  match file with
  | Text (JsonDocument json_data) =>
      (valid <- lift (_validate_data json_data) ;;
       if valid : bool then ret (Some json_data) else ret None)%call
  | unparsable =>
      (print (ParseErrorMessage JsonParser unparsable) ;;
       ret None)%call
  end.

End JSONSerializer.

Definition XMLSerializer : Serializer :=
  {| encode := XMLSerializer.encode; decode := XMLSerializer.decode |}.

Definition JSONSerializer : Serializer :=
  {| encode := JSONSerializer.encode; decode := JSONSerializer.decode |}.

(** ** Generators *)

Inductive generator_class : Type :=
| ListGenerator
| TupleGenerator
| SetGenerator
| DictGenerator.

Record generator : Type := {
  class : generator_class;
  max_length : Z
}.

(** [repr(self)], the name of the class *)
Definition repr (self : generator) : string :=
  match class self with
  | ListGenerator => "ListGenerator"
  | TupleGenerator => "TupleGenerator"
  | SetGenerator => "SetGenerator"
  | DictGenerator => "DictGenerator"
  end.

(** [type(max_length)] as [__init__] prints it for an integer argument *)
Definition int_type_name : string := "<class 'int'>".

(** [__init__] with an integer bound *)
Definition init (cls : generator_class) (max_length : Z) : result generator :=
  if 0 <? max_length then Ok {| class := cls; max_length := max_length |}
  else
    Raise (InvalidTypeError
             (repr {| class := cls; max_length := max_length |}
              ++ " can not process  " ++ int_type_name ++ ".")).

(** An argument of a constructor: a value of the data model, or an object
    of another class (a [datetime], a function), of which only the class
    shows. *)
Inductive argument : Type :=
| Value (v : pyval)
| Instance (class_name : string).

(** [type(x)] as an f-string renders it *)
Definition type_repr (x : argument) : string :=
  "<class '"
  ++ match x with
     | Value PNone => "NoneType"
     | Value (PBool _) => "bool"
     | Value (PInt _) => "int"
     | Value (PStr _) => "str"
     | Value (PList _) => "list"
     | Value (PDict _) => "dict"
     | Instance class_name => class_name
     end
  ++ "'>".

(** [cls.__name__] *)
Definition __name__ (cls : generator_class) : string :=
  repr {| class := cls; max_length := 0 |}.

(** [__init__] on any argument: the value the [max_length] slot receives.
    [isinstance(max_length, int)] holds for an integer and for a boolean. *)
Definition __init__ (cls : generator_class) (max_length : argument) : result pyval :=
  let rejected :=
    Raise (InvalidTypeError
             (__name__ cls ++ " can not process  " ++ type_repr max_length ++ ".")) in
  match max_length with
  | Value v =>
      match as_int v with
      | Some z => if 0 <? z then Ok v else rejected
      | None => rejected
      end
  | Instance _ => rejected
  end.

Definition _sequence_type (self : generator) : string :=
  match class self with
  | ListGenerator => "list"
  | TupleGenerator => "tuple"
  | SetGenerator => "set"
  | DictGenerator => "dict"
  end.

Definition _sequence_type_check (self : generator) (type_str : pyval) : bool :=
  match class self with
  | ListGenerator | TupleGenerator =>
      existsb (fun i => eq_str type_str i) ["list"; "tuple"; "set"]
  | SetGenerator | DictGenerator => eq_str type_str (_sequence_type self)
  end.

Definition check_seq_length (self : generator) (length : Z) : result bool :=
  if length <? max_length self then Ok true
  else
    Raise (InvalidSequenceLength
             ("Items quantity should be less than "
              ++ str_of_int (max_length self) ++ ".")).

(** The loop [while n < stop: yield int(n); n += step], at most [fuel]
    rounds of it. *)
Fixpoint range_loop (fuel : nat) (n stop step : Z) : list Z :=
  match fuel with
  | O => []
  | S fuel' =>
      if n <? stop then n :: range_loop fuel' (n + step) stop step else []
  end.

(** [_custom_range] as [_create_sequence] calls it, with the three
    integers given. The loop is entered with [0 < step] only, and then
    [stop - start] rounds are more than it can make. *)
Definition _custom_range (self : generator) (start stop step : Z) : result (list Z) :=
  if step <? 0 then Raise (InvalidValueError "Step should be greater than zero.")
  else if stop <? start then Raise (InvalidValueError "Stop should be greater than start.")
  else if step =? 0 then Raise ZeroDivisionError
  else
    let remainder := (stop - start) mod step in
    let seq_length := (stop - start) / step in
    let length := if remainder =? 0 then seq_length else seq_length + 1 in
    (_ <- check_seq_length self length ;;
     Ok (range_loop (Z.to_nat (stop - start)) start stop step))%result.

Definition max_in_range (start : Z) (stop : option Z) (step : Z) : result Z :=
  let value (start stop : Z) : result Z :=
    if step =? 0 then Raise ZeroDivisionError
    else Ok ((stop - 1) - ((stop - 1) - start) mod step) in
  match stop with
  | None => value 0 start
  | Some stop =>
      if step <? 0 then Raise (InvalidValueError "Step should be greater than zero.")
      else if stop <? start then Raise (InvalidValueError "Stop should be greater than start.")
      else value start stop
  end.

Definition _create_sequence (self : generator) (start stop step : Z) : result pyval :=
  (l <- _custom_range self start stop step ;;
   match class self with
   | DictGenerator =>
       Ok (PDict (fold_left (fun d i => dict_set (str_of_int i) (PInt i) d) l []))
   | _ => Ok (PList (map PInt l))
   end)%result.

Definition _generate_fibonacci (self : generator) (sequence : list Z) : result pyval :=
  match class self with
  | ListGenerator | TupleGenerator => Ok (PList (map PInt sequence))
  | SetGenerator | DictGenerator => Raise FibonacciError
  end.

(** [__fibonacci]: [n - 1] rounds of [first, second = second, first + second] *)
Definition fibonacci (first second n : Z) : Z :=
  fst (Nat.iter (Z.to_nat (n - 1)) (fun fs => (snd fs, fst fs + snd fs)) (first, second)).

(** [range(3, length + 1)] *)
Definition fib_indices (length : Z) : list Z :=
  map (fun k => 3 + Z.of_nat k) (seq 0 (Z.to_nat (length - 2))).

Definition check_equal_sequences (self : generator) (data_type : string)
    (data : option pyval) (min_el max_el step : Z) : result bool :=
  match data with
  | None => Ok false
  | Some data =>
      (meta <- py_getitem data "metadata" ;;
       json_step <-
         (if (data_type =? "range")%string then
            mx <- py_getitem meta "max" ;;
            mn <- py_getitem meta "min" ;;
            span <- py_sub mx mn ;;
            len <- py_getitem meta "len" ;;
            gaps <- py_sub len (PInt 1) ;;
            py_floordiv span gaps
          else Ok (PInt 0)) ;;
       ty <- py_getitem meta "type" ;;
       let type_check := _sequence_type_check self ty in
       st <- py_getitem meta "seq_type" ;;
       let seq_type_check := eq_str st data_type in
       mx <- py_getitem meta "max" ;;
       el_check <-
         (if eq_int mx max_el then
            mn <- py_getitem meta "min" ;; Ok (eq_int mn min_el)
          else Ok false) ;;
       let equal_check :=
         type_check && seq_type_check && el_check && eq_int json_step step in
       Ok equal_check)%result
  end.

Definition unsupported_format : exn :=
  InvalidValueError "Only json and xml data formats are acceptable.".

Definition get_serializer (data_format : string) : result Serializer :=
  if (data_format =? "xml")%string then Ok XMLSerializer
  else if (data_format =? "json")%string then Ok JSONSerializer
  else Raise unsupported_format.

Definition get_path (data_format : string) : result path :=
  if (data_format =? "xml")%string then Ok XML_PATH
  else if (data_format =? "json")%string then Ok JSON_PATH
  else Raise unsupported_format.

Definition remove_unsupported_file (data_format : string) : M unit :=
  (json_exists <- path_exists JSON_PATH ;;
   if (json_exists && (data_format =? "xml")%string)%bool then os_remove JSON_PATH
   else
     xml_exists <- path_exists XML_PATH ;;
     if (xml_exists && (data_format =? "json")%string)%bool then os_remove XML_PATH
     else ret tt)%call.

(** The part of a generation call that looks for a reusable record in the
    open file: the stored sequence on a hit, [None] otherwise. *)
Definition stored_sequence (self : generator) (serializer : Serializer)
    (file_path : path) (data_type : string) (min_el max_el step : Z)
  : M (option pyval) :=
  (has_text <- nonempty file_path ;;
   if has_text : bool then
     text <- read file_path ;;
     data <- decode serializer text ;;
     hit <- lift (check_equal_sequences self data_type data min_el max_el step) ;;
     if hit : bool then
       match data with
       | Some d => seq <- lift (py_getitem d "sequence") ;; ret (Some seq)
       | None => ret None
       end
     else ret None
   else ret None)%call.

Definition generate_sequence (self : generator) (data_format : string)
    (start : Z) (stop : option Z) (step : Z) (now : datetime) : M unit :=
  (remove_unsupported_file data_format ;;
   serializer <- lift (get_serializer data_format) ;;
   file_path <- lift (get_path data_format) ;;
   max_element <- lift (max_in_range start stop step) ;;
   let '(start, stop) :=
     match stop with
     | None => (0, start)
     | Some stop => (start, stop)
     end in
   open_append file_path now ;;
   cr_time <- getctime file_path ;;
   stored <- stored_sequence self serializer file_path "range" start max_element step ;;
   sequence <-
     match stored with
     | Some sequence => ret sequence
     | None => lift (_create_sequence self start stop step)
     end ;;
   data <- lift (encode serializer sequence (_sequence_type self) "range"
                   (strftime cr_time) (repr self) start max_element now) ;;
   truncate file_path now ;;
   write file_path data now)%call.

Definition max_str (a b : string) : string := if (a <? b)%string then b else a.

Fixpoint all_some {A} (l : list (option A)) : option (list A) :=
  match l with
  | [] => Some []
  | Some a :: rest => option_map (cons a) (all_some rest)
  | None :: _ => None
  end.

Definition as_str (v : pyval) : option string :=
  match v with
  | PStr s => Some s
  | _ => None
  end.

(** [int(max(sequence))]. With two items or more, [max] compares them:
    integers with integers or strings with strings; any other mix is a
    [TypeError], in the comparison or in [int]. *)
Definition int_of_max (sequence : pyval) : result Z :=
  (items <- py_iter sequence ;;
   match items with
   | [] => Raise ValueError
   | [x] => py_int x
   | _ :: _ =>
       match all_some (map as_int items), all_some (map as_str items) with
       | Some (z :: zs), _ => Ok (fold_left Z.max zs z)
       | _, Some (s :: ss) => int_of_str (fold_left max_str ss s)
       | _, _ => Raise TypeError
       end
   end)%result.

Definition generate_fibonacci (self : generator) (data_format : string)
    (first second length : Z) (now : datetime) : M unit :=
  (remove_unsupported_file data_format ;;
   lift (check_seq_length self length) ;;
   serializer <- lift (get_serializer data_format) ;;
   file_path <- lift (get_path data_format) ;;
   open_append file_path now ;;
   cr_time <- getctime file_path ;;
   stored <- stored_sequence self serializer file_path "fibonacci" first
               (fibonacci first second (length - 1)) 0 ;;
   sequence <-
     match stored with
     | Some sequence => ret sequence
     | None =>
         let fib_sequence :=
           ([first; second] ++ map (fibonacci first second) (fib_indices length))%list in
         lift (_generate_fibonacci self fib_sequence)
     end ;;
   max_element <- lift (int_of_max sequence) ;;
   data <- lift (encode serializer sequence (_sequence_type self) "fibonacci"
                   (strftime cr_time) (repr self) first max_element now) ;;
   truncate file_path now ;;
   write file_path data now)%call.

(** [os.path.exists(p) and os.path.getsize(p) != 0] *)
Definition exists_nonempty (p : path) : M bool :=
  (there <- path_exists p ;;
   if there : bool then nonempty p else ret false)%call.

Module BaseGenerator.

(** The body of [get_sequence] once the format is known. *)
Definition read_back (self : generator) (data_format : string) : M pyval :=
  (path <- lift (get_path data_format) ;;
   coder <- lift (get_serializer data_format) ;;
   text <- read path ;;
   data <- decode coder text ;;
   match data with
   | None => raise (InvalidValueError "Invalid decoded data structure.")
   | Some data =>
       meta <- lift (py_getitem data "metadata") ;;
       ty <- lift (py_getitem meta "type") ;;
       if negb (_sequence_type_check self ty) then
         raise (InvalidTypeError "File contains invalid sequence type.")
       else
         len <- lift (py_getitem meta "len") ;;
         too_long <- lift (py_gt len (max_length self)) ;;
         if too_long : bool then
           raise (InvalidSequenceLength
                    ("Items quantity should be less than "
                     ++ str_of_int (max_length self) ++ "."))
         else lift (py_getitem data "sequence")
   end)%call.

Definition get_sequence (self : generator) : M pyval :=
  (use_xml <- exists_nonempty XML_PATH ;;
   if use_xml : bool then read_back self "xml"
   else
     use_json <- exists_nonempty JSON_PATH ;;
     if use_json : bool then read_back self "json"
     else ret (PList []))%call.

End BaseGenerator.

(** [tuple(v)] *)
Definition py_tuple (v : pyval) : result pyobj :=
  (items <- py_iter v ;; Ok (Tuple items))%result.

Definition hashable (v : pyval) : bool :=
  match v with
  | PList _ | PDict _ => false
  | _ => true
  end.

(** [a == b] between hashable values *)
Definition same_key (a b : pyval) : bool :=
  match a, b with
  | PNone, PNone => true
  | PStr s, PStr t => (s =? t)%string
  | _, _ =>
      match as_int a, as_int b with
      | Some x, Some y => x =? y
      | _, _ => false
      end
  end.

Fixpoint distinct (seen items : list pyval) : list pyval :=
  match items with
  | [] => []
  | x :: rest =>
      if existsb (same_key x) seen then distinct seen rest
      else x :: distinct (x :: seen) rest
  end.

(** [set(v)] *)
Definition py_set (v : pyval) : result pyobj :=
  (items <- py_iter v ;;
   if forallb hashable items then Ok (PySet (distinct [] items))
   else Raise TypeError)%result.

(** [get_sequence] as each class resolves it: the tuple and set generators
    wrap the inherited method, the list and mapping generators inherit it. *)
Definition get_sequence (self : generator) : M pyobj :=
  match class self with
  | ListGenerator | DictGenerator =>
      (v <- BaseGenerator.get_sequence self ;; ret (Plain v))%call
  | TupleGenerator =>
      (v <- BaseGenerator.get_sequence self ;; lift (py_tuple v))%call
  | SetGenerator =>
      (v <- BaseGenerator.get_sequence self ;; lift (py_set v))%call
  end.

(** * Vocabulary of the statements

    Names for what the properties below talk about: the file a format
    selects, the worlds a call passes through, the record a decoder returns,
    and the concrete inputs of the examples. *)

(** ** Formats, files and worlds *)

Definition supported (data_format : string) : Prop :=
  data_format = "xml" \/ data_format = "json".

(** The path and the serializer a supported format selects. *)
Definition target (data_format : string) : path :=
  if (data_format =? "xml")%string then XML_PATH else JSON_PATH.

Definition serializer_of (data_format : string) : Serializer :=
  if (data_format =? "xml")%string then XMLSerializer else JSONSerializer.

Definition other (p : path) : path :=
  match p with
  | JSON_PATH => XML_PATH
  | XML_PATH => JSON_PATH
  end.

(** The text at a path; a missing file has none. *)
Definition body_at (p : path) (w : world) : body :=
  match file_at p w with
  | Some f => content f
  | None => Empty
  end.

(** The file at [p] is missing or has size 0. *)
Definition blank (p : path) (w : world) : bool :=
  match body_at p w with
  | Empty => true
  | _ => false
  end.

(** The world once a generation call has removed the other format's file
    and opened its own. *)
Definition opened (data_format : string) (now : datetime) (w : world) : world :=
  snd (open_append (target data_format) now
         (snd (remove_unsupported_file data_format w))).

(** What [getctime] reports on the file a generation call has just opened. *)
Definition created_at (data_format : string) (now : datetime) (w : world) : datetime :=
  match file_at (target data_format) w with
  | Some f => ctime f
  | None => now
  end.

(** The world once the call has truncated its file and written [d]. *)
Definition rewritten (data_format : string) (d : document) (now : datetime) (w : world)
  : world :=
  snd (write (target data_format) d now (snd (truncate (target data_format) now w))).

(** Two worlds that differ at most in what was printed. *)
Definition same_files (w w' : world) : Prop :=
  json_file w' = json_file w /\ xml_file w' = xml_file w
  /\ getctime_reports w' = getctime_reports w.

(** The worlds a generation call can end in. *)
Inductive ends_in (data_format : string) (now : datetime) (w : world) : world -> Prop :=
| ends_before_open :
    ends_in data_format now w (snd (remove_unsupported_file data_format w))
| ends_before_truncate w3 :
    same_files (opened data_format now w) w3 ->
    ends_in data_format now w w3
| ends_written w3 d :
    same_files (opened data_format now w) w3 ->
    ends_in data_format now w (rewritten data_format d now w3).

(** At most one of the two files has text. *)
Definition exclusive (w : world) : bool := blank JSON_PATH w || blank XML_PATH w.

(** The record a format's file holds, as its decoder reads it. *)
Definition persisted (data_format : string) (w : world) : result (option pyval) :=
  fst (decode (serializer_of data_format) (body_at (target data_format) w) w).

(** ** Requests and lookups *)

(** The arguments of [range] after [if stop is None: stop = start; start = 0]. *)
Definition range_start (start : Z) (stop : option Z) : Z :=
  match stop with None => 0 | Some _ => start end.

Definition range_stop (start : Z) (stop : option Z) : Z :=
  match stop with None => start | Some s => s end.

(** The number of elements [_custom_range] announces to the length guard. *)
Definition range_count (start stop step : Z) : Z :=
  if (stop - start) mod step =? 0 then (stop - start) / step
  else (stop - start) / step + 1.

(** The sequence a call goes on with: the stored one on a hit, a computed
    one otherwise. *)
Definition stored_or (stored : option pyval) (computed : result pyval) : result pyval :=
  match stored with
  | Some sequence => Ok sequence
  | None => computed
  end.

(** The terms [generate_fibonacci] computes on a miss. *)
Definition fib_sequence (first second length : Z) : list Z :=
  ([first; second] ++ map (fibonacci first second) (fib_indices length))%list.

(** The pair [(first, second)] after [k] rounds of [__fibonacci]. *)
Definition fib_pair (first second : Z) (k : nat) : Z * Z :=
  Nat.iter k (fun fs => (snd fs, fst fs + snd fs)) (first, second).

(** The [k]-th term, counted from 1. *)
Definition term (first second : Z) (k : nat) : Z :=
  fibonacci first second (Z.of_nat k).

(** The step a stored record implies, as the specification words it: 0 for
    one element, the floor quotient otherwise. *)
Definition implied_step (len mn mx : Z) : Z :=
  if len =? 1 then 0 else (mx - mn) / (len - 1).

Definition is_container (v : pyval) : bool :=
  match v with
  | PList _ | PDict _ => true
  | _ => false
  end.

(** The target file holds nothing the call could reuse: it has no text, or
    its text decodes (to a record or to [None]) and the checker refuses it. *)
Definition no_reusable_record (self : generator) (data_format data_type : string)
    (min_el max_el step : Z) (w : world) : Prop :=
  blank (target data_format) w = true
  \/ exists data,
      persisted data_format w = Ok data
      /\ check_equal_sequences self data_type data min_el max_el step = Ok false.

(** ** Records and their text *)

Definition is_digit (c : ascii) : bool :=
  let n := nat_of_ascii c in ((48 <=? n) && (n <=? 57))%nat.

Definition all_chars (p : ascii -> bool) (s : string) : bool :=
  forallb p (list_ascii_of_string s).

Definition filled (s : string) : bool := negb (s =? EmptyString)%string.

(** Text that an XML document gives back as it was written: not empty, and
    of kept characters only. *)
Definition plain (s : string) : bool := filled s && all_chars kept_char s.

(** The record both decoders hand back: the sequence and its metadata. *)
Definition record_value (sequence : pyval)
    (s_type seq_type cr_time mod_date author : string) (len min_el max_el : Z)
  : pyval :=
  PDict
    [ ("sequence", sequence);
      ("metadata",
       PDict
         [ ("type", PStr s_type);
           ("seq_type", PStr seq_type);
           ("len", PInt len);
           ("el_type", PStr "int");
           ("date_created", PStr cr_time);
           ("date_modified", PStr mod_date);
           ("author", PStr author);
           ("min", PInt min_el);
           ("max", PInt max_el) ]) ].

(** [record['metadata'][k]] *)
Definition metadata (record : pyval) (k : string) : result pyval :=
  (m <- py_getitem record "metadata" ;; py_getitem m k)%result.

(** What the checker reads in a decoded record: its sequence and five of
    its metadata values. *)
Definition record_fields (data stored s_type seq_type : pyval) (len mn mx : Z) : Prop :=
  py_getitem data "sequence" = Ok stored
  /\ metadata data "type" = Ok s_type
  /\ metadata data "seq_type" = Ok seq_type
  /\ metadata data "len" = Ok (PInt len)
  /\ metadata data "min" = Ok (PInt mn)
  /\ metadata data "max" = Ok (PInt mx).

Definition len_of (sequence : pyval) : Z :=
  match py_len sequence with
  | Ok n => n
  | Raise _ => 0
  end.

(** The tree [XMLSerializer.encode] builds around the elements [els]. *)
Definition encoded_xml (els : list xml)
    (s_type seq_type len cr_time mod_date author min_el max_el : string) : xml :=
  Element "data" [] None
    [ Element "sequence" [] None els;
      Element "metadata" [] None
        [ SubElement "type" [] s_type;
          SubElement "seq_type" [] seq_type;
          SubElement "len" [] len;
          SubElement "el_type" [] "int";
          SubElement "date_created" [] cr_time;
          SubElement "date_modified" [] mod_date;
          SubElement "author" [] author;
          SubElement "min" [] min_el;
          SubElement "max" [] max_el ] ].

Definition list_el (z : Z) : xml := SubElement "el" [] (str_of_int z).
Definition dict_el (kv : string * pyval) : xml :=
  SubElement "el" [("key", fst kv)] (fst kv).

(** Encoding, then decoding the text that was written. *)
Definition round_trip (serializer : Serializer) (sequence : pyval)
    (s_type seq_type cr_time author : string) (min_el max_el : Z)
    (now : datetime) (w : world) : result (option pyval) :=
  (d <- encode serializer sequence s_type seq_type cr_time author min_el max_el now ;;
   fst (decode serializer (Text d) w))%result.

Definition str_field (record : pyval) (k : string) : result string :=
  (v <- metadata record k ;;
   match v with
   | PStr s => Ok s
   | _ => Raise TypeError
   end)%result.

Definition int_field (record : pyval) (k : string) : result Z :=
  (v <- metadata record k ;;
   match v with
   | PInt z => Ok z
   | _ => Raise TypeError
   end)%result.

(** A decoded record encoded again, in any format: its sequence and its
    metadata values are the arguments of [encode]. *)
Definition encode_record (serializer : Serializer) (record : pyval) (now : datetime)
  : result document :=
  (sequence <- py_getitem record "sequence" ;;
   s_type <- str_field record "type" ;;
   seq_type <- str_field record "seq_type" ;;
   cr_time <- str_field record "date_created" ;;
   author <- str_field record "author" ;;
   min_el <- int_field record "min" ;;
   max_el <- int_field record "max" ;;
   encode serializer sequence s_type seq_type cr_time author min_el max_el now)%result.

(** The sequences of the data model: integers in a list, or a mapping whose
    keys are the decimal text of their values, under the type ["dict"]. *)
Definition is_int (v : pyval) : bool :=
  match v with
  | PInt _ => true
  | _ => false
  end.

Definition keyed_by_value (kv : string * pyval) : bool :=
  match snd kv with
  | PInt z => (fst kv =? str_of_int z)%string
  | _ => false
  end.

Fixpoint distinct_keys (entries : list (string * pyval)) : bool :=
  match entries with
  | [] => true
  | (k, _) :: rest =>
      match lookup k rest with
      | Some _ => false
      | None => distinct_keys rest
      end
  end.

Definition valid_sequence (s_type : string) (sequence : pyval) : bool :=
  match sequence with
  | PList items => negb (s_type =? "dict")%string && forallb is_int items
  | PDict entries =>
      (s_type =? "dict")%string && forallb keyed_by_value entries
      && distinct_keys entries
  | _ => false
  end.

(** ** Ranges and containers *)

(** Python's [range(start, stop, step)] for a positive step: the values
    [start + k * step] below [stop]. *)
Definition py_range (start stop step : Z) : list Z :=
  map (fun k => start + Z.of_nat k * step)
      (seq 0 (Z.to_nat ((stop - start + step - 1) / step))).

(** The [max] a range call records. *)
Definition range_max (start stop step : Z) : Z :=
  (stop - 1) - ((stop - 1) - start) mod step.

(** A mapping from the decimal text of each value to the value. *)
Definition keyed (l : list Z) : list (string * pyval) :=
  map (fun z => (str_of_int z, PInt z)) l.

(** The values of a range in the container each class stores. *)
Definition container (cls : generator_class) (l : list Z) : pyval :=
  match cls with
  | DictGenerator => PDict (keyed l)
  | _ => PList (map PInt l)
  end.

(** The same values as [get_sequence] of each class hands them back. *)
Definition native (cls : generator_class) (l : list Z) : pyobj :=
  match cls with
  | ListGenerator => Plain (PList (map PInt l))
  | TupleGenerator => Tuple (map PInt l)
  | SetGenerator => PySet (map PInt l)
  | DictGenerator => Plain (PDict (keyed l))
  end.


(** ** Concrete inputs *)

Definition an_instant : datetime :=
  {| day := 3; month := 11; year := 2026; hour := 9; minute := 5 |}.

Definition a_later_instant : datetime :=
  {| day := 3; month := 11; year := 2026; hour := 9; minute := 7 |}.

(** A directory without the two files, on a POSIX system. *)
Definition no_files : world :=
  {| getctime_reports := LastChange; json_file := None; xml_file := None;
     stdout := [] |}.

Definition list_generator (limit : Z) : generator :=
  {| class := ListGenerator; max_length := limit |}.
Definition tuple_generator (limit : Z) : generator :=
  {| class := TupleGenerator; max_length := limit |}.
Definition set_generator (limit : Z) : generator :=
  {| class := SetGenerator; max_length := limit |}.
Definition dict_generator (limit : Z) : generator :=
  {| class := DictGenerator; max_length := limit |}.

Definition empty_file (created : datetime) : file :=
  {| ctime := created; content := Empty |}.

(** A well-formed markup document whose metadata lacks [type]. *)
Definition xml_without_type : xml :=
  Element "data" [] None
    [ Element "sequence" [] None [Element "el" [] (Some "1") []];
      Element "metadata" [] None [Element "seq_type" [] (Some "range") []] ].

(** A markup document with every field the validator looks at, and no [min]. *)
Definition xml_without_min : xml :=
  Element "data" [] None
    [ Element "sequence" [] None [Element "el" [] (Some "1") []];
      Element "metadata" [] None
        [ Element "type" [] (Some "list") [];
          Element "seq_type" [] (Some "range") [];
          Element "len" [] (Some "1") [];
          Element "el_type" [] (Some "int") [];
          Element "date_created" [] (Some "03.11.2026 09:05") [];
          Element "date_modified" [] (Some "03.11.2026 09:05") [];
          Element "author" [] (Some "ListGenerator") [];
          Element "max" [] (Some "1") [] ] ].

(** A JSON record without [date_created] and [date_modified]. *)
Definition json_without_dates : pyval :=
  PDict
    [ ("sequence", PList [PInt 1]);
      ("metadata",
       PDict
         [ ("type", PStr "list"); ("seq_type", PStr "range"); ("len", PInt 1);
           ("el_type", PStr "int"); ("author", PStr "ListGenerator");
           ("min", PInt 1); ("max", PInt 1) ]) ].

(** The record [ListGenerator(100).generate_sequence('json', 1, 3)] leaves. *)
Definition a_json_file : file :=
  {| ctime := an_instant;
     content :=
       Text (JsonDocument
               (record_value (PList [PInt 1; PInt 2]) "list" "range"
                  "03.11.2026 09:05" "03.11.2026 09:05" "ListGenerator" 2 1 2)) |}.

Definition only_json : world :=
  {| getctime_reports := LastChange; json_file := Some a_json_file;
     xml_file := None; stdout := [] |}.

(** The record [ListGenerator(100).generate_sequence('xml', 1, 3)] leaves. *)
Definition an_xml_file : file :=
  {| ctime := an_instant;
     content :=
       Text (XmlDocument
               (encoded_xml [list_el 1; list_el 2] "list" "range" "2"
                  "03.11.2026 09:05" "03.11.2026 09:05" "ListGenerator" "1" "2")) |}.

(** Both files with a record, as when one is copied next to the other. *)
Definition both_files : world :=
  {| getctime_reports := LastChange; json_file := Some a_json_file;
     xml_file := Some an_xml_file; stdout := [] |}.

Definition an_earlier_instant : datetime :=
  {| day := 3; month := 11; year := 2026; hour := 8; minute := 0 |}.

(** An empty [data.json] that was created at 08:00, on a POSIX system. *)
Definition posix_empty_json : world :=
  {| getctime_reports := LastChange;
     json_file := Some (empty_file an_earlier_instant);
     xml_file := None; stdout := [] |}.

(** The markup file with a record next to an empty [data.json]. *)
Definition xml_and_empty_json : world :=
  {| getctime_reports := LastChange; json_file := Some (empty_file an_instant);
     xml_file := Some an_xml_file; stdout := [] |}.

(** An author of two lines, the first ended by a carriage return; the same
    with a line feed; and one with a control character in it. *)
Definition author_with_return : string := "Ada" ++ String carriage_return "Lovelace".
Definition author_with_feed : string := "Ada" ++ String line_feed "Lovelace".
Definition author_with_control : string := "Ada" ++ String (ascii_of_nat 1) "Lovelace".

Definition range_68_121_3 : list Z :=
  [68; 71; 74; 77; 80; 83; 86; 89; 92; 95; 98; 101; 104; 107; 110; 113; 116; 119].

(** [range(68, 121, 3)] in the shape of each generator. *)
Definition sequence_68_121_3 (cls : generator_class) : pyval :=
  match cls with
  | DictGenerator => PDict (map (fun z => (str_of_int z, PInt z)) range_68_121_3)
  | _ => PList (map PInt range_68_121_3)
  end.


(** [data.json] edited by hand: a set record that repeats a value and
    understates its length. *)
Definition json_with_duplicates : world :=
  {| getctime_reports := LastChange;
     json_file :=
       Some {| ctime := an_instant;
               content :=
                 Text (JsonDocument
                         (record_value (PList (map PInt [4; 7; 4; 9])) "set" "range"
                            "03.11.2026 09:05" "03.11.2026 09:05" "SetGenerator"
                            2 4 9)) |};
     xml_file := None; stdout := [] |}.

(** * Properties *)

(** ** The text of an integer reads back *)

Lemma digits_of_uint (d : Decimal.uint) :
  all_chars is_digit (NilEmpty.string_of_uint d) = true.
Proof.
  induction d; cbn; auto.
Qed.

Lemma lstrip_head (c : ascii) (s : string) :
  is_space c = false -> lstrip (String c s) = String c s.
Proof.
  intros H. cbn. now rewrite H.
Qed.

Lemma rstrip_no_space (s : string) :
  all_chars (fun c => negb (is_space c)) s = true -> rstrip s = s.
Proof.
  induction s as [|c s IH]; cbn; [reflexivity|].
  intros H. apply andb_prop in H as [Hc Hs].
  fold (all_chars (fun c => negb (is_space c)) s) in Hs.
  rewrite (IH Hs). apply negb_true_iff in Hc. rewrite Hc.
  now destruct s.
Qed.

Lemma all_chars_weaken (p q : ascii -> bool) (s : string) :
  (forall c, p c = true -> q c = true) ->
  all_chars p s = true -> all_chars q s = true.
Proof.
  intros Hpq. unfold all_chars. rewrite !forallb_forall. auto.
Qed.

Lemma digit_not_space (c : ascii) : is_digit c = true -> negb (is_space c) = true.
Proof.
  destruct c as [[] [] [] [] [] [] [] []]; cbn; intros H; try discriminate; reflexivity.
Qed.

Lemma strip_digits (s : string) : all_chars is_digit s = true -> strip s = s.
Proof.
  intros H. unfold strip.
  assert (Hl : lstrip s = s).
  { destruct s as [|c s]; [reflexivity|].
    apply lstrip_head. cbn in H. apply andb_prop in H as [Hc _].
    apply digit_not_space in Hc. now apply negb_true_iff in Hc. }
  rewrite Hl. apply rstrip_no_space.
  eapply all_chars_weaken; [apply digit_not_space | exact H].
Qed.

Lemma digit_not_underscore (c : ascii) :
  is_digit c = true -> Ascii.eqb c underscore = false.
Proof.
  destruct c as [[] [] [] [] [] [] [] []]; cbn; intros H; try discriminate; reflexivity.
Qed.

Lemma ungroup_digits (s : string) (after_digit : bool) :
  all_chars is_digit s = true -> ungroup after_digit s = Some s.
Proof.
  revert after_digit. induction s as [|c s IH]; intros b H; [reflexivity|].
  cbn in H. apply andb_prop in H as [Hc Hs].
  fold (all_chars is_digit s) in Hs.
  cbn [ungroup]. rewrite (digit_not_underscore c Hc), (IH true Hs). reflexivity.
Qed.

Lemma digits_value_of_uint (d : Decimal.uint) :
  d <> Decimal.Nil ->
  digits_value (NilEmpty.string_of_uint d) = Some (Z.of_uint d).
Proof.
  intros Hd. unfold digits_value.
  rewrite (ungroup_digits _ false (digits_of_uint d)).
  rewrite NilEmpty.usu.
  destruct d; try reflexivity. now elim Hd.
Qed.

Lemma int_of_str_digits (s : string) :
  all_chars is_digit s = true -> s <> EmptyString ->
  int_of_str s = match digits_value s with Some z => Ok z | None => Raise ValueError end
  /\ int_of_str (String "-" s) =
     match digits_value s with Some z => Ok (- z) | None => Raise ValueError end.
Proof.
  intros H Hne. unfold int_of_str. split.
  - rewrite (strip_digits s H).
    destruct s as [|c s]; [now elim Hne|].
    cbn in H. apply andb_prop in H as [Hc _].
    destruct c as [[] [] [] [] [] [] [] []]; cbn in Hc; try discriminate; reflexivity.
  - assert (Hs : strip (String "-" s) = String "-" s).
    { unfold strip. rewrite lstrip_head by reflexivity.
      apply rstrip_no_space. cbn.
      eapply all_chars_weaken; [apply digit_not_space | exact H]. }
    rewrite Hs. now destruct (digits_value s).
Qed.

Lemma string_of_uint_nonempty (d : Decimal.uint) :
  d <> Decimal.Nil -> NilEmpty.string_of_uint d <> EmptyString.
Proof.
  destruct d; cbn; congruence.
Qed.

(** [int(str(z)) == z] *)
Lemma int_of_str_of_int (z : Z) : int_of_str (str_of_int z) = Ok z.
Proof.
  unfold str_of_int.
  destruct z as [|p|p]; [reflexivity| |].
  - cbn [Z.to_int NilZero.string_of_int].
    pose proof (DecimalPos.Unsigned.to_uint_nonnil p) as Hn.
    assert (Hs : NilZero.string_of_uint (Pos.to_uint p)
                 = NilEmpty.string_of_uint (Pos.to_uint p)).
    { unfold NilZero.string_of_uint. destruct (Pos.to_uint p); congruence. }
    rewrite Hs.
    destruct (int_of_str_digits _ (digits_of_uint (Pos.to_uint p))
                (string_of_uint_nonempty _ Hn)) as [-> _].
    rewrite (digits_value_of_uint _ Hn).
    f_equal. exact (DecimalZ.of_to (Z.pos p)).
  - cbn [Z.to_int NilZero.string_of_int].
    pose proof (DecimalPos.Unsigned.to_uint_nonnil p) as Hn.
    assert (Hs : NilZero.string_of_uint (Pos.to_uint p)
                 = NilEmpty.string_of_uint (Pos.to_uint p)).
    { unfold NilZero.string_of_uint. destruct (Pos.to_uint p); congruence. }
    rewrite Hs.
    destruct (int_of_str_digits _ (digits_of_uint (Pos.to_uint p))
                (string_of_uint_nonempty _ Hn)) as [_ ->].
    rewrite (digits_value_of_uint _ Hn).
    f_equal. exact (DecimalZ.of_to (Z.neg p)).
Qed.

Lemma str_of_int_inj (a b : Z) : str_of_int a = str_of_int b -> a = b.
Proof.
  intros H. pose proof (int_of_str_of_int a) as Ha.
  rewrite H, int_of_str_of_int in Ha. congruence.
Qed.

Lemma str_of_int_nonempty (z : Z) : (str_of_int z =? EmptyString)%string = false.
Proof.
  apply String.eqb_neq. intros H.
  pose proof (int_of_str_of_int z) as Hz. rewrite H in Hz. discriminate.
Qed.

(** ** Files across a call *)

Ltac supported_cases H :=
  destruct H as [-> | ->].

Ltac run :=
  cbv [generate_sequence generate_fibonacci stored_sequence remove_unsupported_file
       get_sequence BaseGenerator.get_sequence BaseGenerator.read_back exists_nonempty
       opened rewritten created_at target serializer_of other body_at blank
       get_serializer get_path
       bind lift ret raise path_exists os_remove open_append getctime nonempty read
       truncate write set_content print touched file_at set_file
       json_file xml_file stdout getctime_reports ctime content
       String.eqb Ascii.eqb Bool.eqb andb orb negb fst snd
       range_start range_stop].

Lemma same_files_refl (w : world) : same_files w w.
Proof. repeat split. Qed.

Lemma same_files_trans (a b c : world) :
  same_files a b -> same_files b c -> same_files a c.
Proof.
  unfold same_files. intros (-> & -> & ->) (-> & -> & ->). repeat split.
Qed.

Lemma same_files_at (p : path) (w w' : world) :
  same_files w w' -> file_at p w' = file_at p w.
Proof.
  intros (Hj & Hx & _). destruct p; cbn; assumption.
Qed.

(** Decoding reads the text it is given and prints at most: it touches no
    file, and what it returns does not depend on the world. *)
Arguments XMLSerializer._validate_data : simpl never.
Arguments XMLSerializer.record_of : simpl never.
Arguments XMLSerializer.encode : simpl never.
Arguments JSONSerializer._validate_data : simpl never.
Arguments JSONSerializer.encode : simpl never.
Arguments check_equal_sequences : simpl never.
Arguments _create_sequence : simpl never.
Arguments _custom_range : simpl never.
Arguments max_in_range : simpl never.
Arguments int_of_max : simpl never.
Arguments fibonacci : simpl never.
Arguments strftime : simpl never.
Arguments str_of_int : simpl never.

Lemma decode_same_files (data_format : string) (b : body) (w : world) :
  same_files w (snd (decode (serializer_of data_format) b w)).
Proof.
  unfold serializer_of, same_files.
  destruct (data_format =? "xml")%string; cbn [decode XMLSerializer JSONSerializer];
    cbv [XMLSerializer.decode JSONSerializer.decode bind lift ret print].
  - destruct b as [|raw|[root|data]]; cbn; auto.
    destruct (reparse root) as [read|]; cbn; auto.
    destruct (XMLSerializer._validate_data read) as [[]|]; cbn; auto.
    destruct (XMLSerializer.record_of read); cbn; auto.
  - destruct b as [|raw|[root|data]]; cbn; auto.
    destruct (JSONSerializer._validate_data data) as [[]|]; cbn; auto.
Qed.

Lemma decode_any_world (data_format : string) (b : body) (w w' : world) :
  fst (decode (serializer_of data_format) b w)
  = fst (decode (serializer_of data_format) b w').
Proof.
  unfold serializer_of.
  destruct (data_format =? "xml")%string; cbn [decode XMLSerializer JSONSerializer];
    cbv [XMLSerializer.decode JSONSerializer.decode bind lift ret print].
  - destruct b as [|raw|[root|data]]; try reflexivity.
    destruct (reparse root) as [read|]; try reflexivity.
    destruct (XMLSerializer._validate_data read) as [[]|]; try reflexivity.
    destruct (XMLSerializer.record_of read); reflexivity.
  - destruct b as [|raw|[root|data]]; try reflexivity.
    destruct (JSONSerializer._validate_data data) as [[]|]; reflexivity.
Qed.

Lemma opened_target (data_format : string) (now : datetime) (w : world) :
  supported data_format ->
  file_at (target data_format) (opened data_format now w)
  = Some {| ctime := created_at data_format now w;
            content := body_at (target data_format) w |}.
Proof.
  intros H. supported_cases H; destruct w as [m [j|] [x|] out]; run;
    try reflexivity; try (now destruct x); now destruct j.
Qed.

Lemma opened_other (data_format : string) (now : datetime) (w : world) :
  supported data_format ->
  file_at (other (target data_format)) (opened data_format now w) = None.
Proof.
  intros H. supported_cases H; destruct w as [m [j|] [x|] out]; reflexivity.
Qed.

Lemma opened_rest (data_format : string) (now : datetime) (w : world) :
  stdout (opened data_format now w) = stdout w
  /\ getctime_reports (opened data_format now w) = getctime_reports w.
Proof.
  unfold opened, remove_unsupported_file, target.
  destruct w as [m [j|] [x|] out];
    destruct (data_format =? "xml")%string; destruct (data_format =? "json")%string;
    split; reflexivity.
Qed.

Lemma removal_keeps_target (data_format : string) (w : world) :
  file_at (target data_format) (snd (remove_unsupported_file data_format w))
  = file_at (target data_format) w.
Proof.
  unfold remove_unsupported_file, target.
  destruct w as [m [j|] [x|] out];
    destruct (data_format =? "xml")%string eqn:Hx;
    destruct (data_format =? "json")%string eqn:Hj; try reflexivity.
  all: apply String.eqb_eq in Hx, Hj; congruence.
Qed.

Lemma rewritten_target (data_format : string) (d : document) (now : datetime)
    (w : world) (f : file) :
  file_at (target data_format) w = Some f ->
  file_at (target data_format) (rewritten data_format d now w)
  = Some {| ctime := touched w f now; content := Text d |}
  /\ file_at (other (target data_format)) (rewritten data_format d now w)
     = file_at (other (target data_format)) w
  /\ stdout (rewritten data_format d now w) = stdout w
  /\ getctime_reports (rewritten data_format d now w) = getctime_reports w.
Proof.
  unfold rewritten, target.
  destruct (data_format =? "xml")%string; destruct w as [[] j x out]; cbn;
    intros ->; cbn; auto.
Qed.

(** Looking for a reusable record touches no file. *)
Lemma stored_sequence_same_files (self : generator) (data_format data_type : string)
    (min_el max_el step : Z) (w : world) :
  same_files w
    (snd (stored_sequence self (serializer_of data_format) (target data_format)
            data_type min_el max_el step w)).
Proof.
  unfold stored_sequence, bind, nonempty, read, lift, ret.
  destruct (file_at (target data_format) w) as [f|] eqn:Hf; [|apply same_files_refl].
  destruct (content f) eqn:Hc; try apply same_files_refl.
  all: cbv beta iota; rewrite ?Hf; cbv beta iota.
  all: pose proof (decode_same_files data_format (content f) w) as Hd;
    destruct (decode (serializer_of data_format) (content f) w) as [[data|e] w3];
    cbn [snd] in Hd |- *; [|exact Hd].
  all: destruct (check_equal_sequences self data_type data min_el max_el step)
    as [[]|]; cbn [snd]; try exact Hd.
  all: destruct data as [d|]; try exact Hd.
  all: destruct (py_getitem d "sequence"); exact Hd.
Qed.

Lemma stored_sequence_blank (self : generator) (serializer : Serializer) (p : path)
    (data_type : string) (min_el max_el step : Z) (w : world) (f : file) :
  file_at p w = Some f -> content f = Empty ->
  stored_sequence self serializer p data_type min_el max_el step w = (Ok None, w).
Proof.
  intros Hf Hc. unfold stored_sequence, bind, nonempty.
  now rewrite Hf, Hc.
Qed.

(** A reusable record: the file has text, it decodes to [data], and the
    checker accepts [data]. *)
Lemma stored_sequence_hit (self : generator) (data_format data_type : string)
    (min_el max_el step : Z) (w : world) (f : file) (data stored : pyval) :
  file_at (target data_format) w = Some f ->
  content f <> Empty ->
  fst (decode (serializer_of data_format) (content f) w) = Ok (Some data) ->
  check_equal_sequences self data_type (Some data) min_el max_el step = Ok true ->
  py_getitem data "sequence" = Ok stored ->
  stored_sequence self (serializer_of data_format) (target data_format)
    data_type min_el max_el step w
  = (Ok (Some stored), snd (decode (serializer_of data_format) (content f) w)).
Proof.
  intros Hf Hc Hd Hcheck Hseq.
  unfold stored_sequence, bind, nonempty, read, lift, ret.
  assert (Hne : match content f with Empty => false | _ => true end = true)
    by (destruct (content f); congruence).
  rewrite Hf. cbv beta iota. rewrite Hne, Hf. cbv beta iota.
  destruct (decode (serializer_of data_format) (content f) w) as [r w3].
  cbn [fst snd] in Hd |- *. subst r. now rewrite Hcheck, Hseq.
Qed.

(** The same lookup when the checker refuses what was decoded. *)
Lemma stored_sequence_miss (self : generator) (data_format data_type : string)
    (min_el max_el step : Z) (w : world) (f : file) (data : option pyval) :
  file_at (target data_format) w = Some f ->
  fst (decode (serializer_of data_format) (content f) w) = Ok data ->
  check_equal_sequences self data_type data min_el max_el step = Ok false ->
  fst (stored_sequence self (serializer_of data_format) (target data_format)
         data_type min_el max_el step w) = Ok None.
Proof.
  intros Hf Hd Hcheck.
  unfold stored_sequence, bind, nonempty, read, lift, ret.
  rewrite Hf. cbv beta iota.
  destruct (match content f with Empty => false | _ => true end); [|reflexivity].
  rewrite Hf. cbv beta iota.
  destruct (decode (serializer_of data_format) (content f) w) as [r w3].
  cbn [fst snd] in Hd |- *. subst r. now rewrite Hcheck.
Qed.

Lemma removal_ok (data_format : string) (w : world) :
  fst (remove_unsupported_file data_format w) = Ok tt.
Proof.
  unfold remove_unsupported_file.
  destruct w as [r [j|] [x|] out];
    destruct (data_format =? "xml")%string; destruct (data_format =? "json")%string;
    reflexivity.
Qed.

Lemma open_append_ok (p : path) (now : datetime) (w : world) :
  open_append p now w = (Ok tt, snd (open_append p now w)).
Proof.
  unfold open_append. now destruct (file_at p w).
Qed.

Lemma set_content_ok (p : path) (b : body) (now : datetime) (w : world) (f : file) :
  file_at p w = Some f ->
  set_content p b now w = (Ok tt, snd (set_content p b now w))
  /\ file_at p (snd (set_content p b now w))
     = Some {| ctime := touched w f now; content := b |}.
Proof.
  intros Hf. unfold set_content. rewrite Hf. cbn [snd].
  split; [reflexivity|]. destruct p; reflexivity.
Qed.

(** ** The generation calls, step by step *)

Lemma generate_sequence_eq (self : generator) (data_format : string)
    (start : Z) (stop : option Z) (step : Z) (now : datetime) (w : world) :
  supported data_format ->
  generate_sequence self data_format start stop step now w =
  match max_in_range start stop step with
  | Raise e => (Raise e, snd (remove_unsupported_file data_format w))
  | Ok max_element =>
      let lookup :=
        stored_sequence self (serializer_of data_format) (target data_format)
          "range" (range_start start stop) max_element step
          (opened data_format now w) in
      match fst lookup with
      | Raise e => (Raise e, snd lookup)
      | Ok stored =>
          match stored_or stored
                  (_create_sequence self (range_start start stop)
                     (range_stop start stop) step) with
          | Raise e => (Raise e, snd lookup)
          | Ok sequence =>
              match encode (serializer_of data_format) sequence
                      (_sequence_type self) "range"
                      (strftime (created_at data_format now w)) (repr self)
                      (range_start start stop) max_element now with
              | Raise e => (Raise e, snd lookup)
              | Ok d => (Ok tt, rewritten data_format d now (snd lookup))
              end
          end
      end
  end.
Proof.
  intros H.
  pose proof (opened_target data_format now w H) as Hopen.
  unfold generate_sequence.
  assert (Hs : get_serializer data_format = Ok (serializer_of data_format))
    by (supported_cases H; reflexivity).
  assert (Hp : get_path data_format = Ok (target data_format))
    by (supported_cases H; reflexivity).
  unfold bind at 1.
  pose proof (removal_ok data_format w) as Hrm.
  destruct (remove_unsupported_file data_format w) as [r w1] eqn:Hrun.
  cbn [fst] in Hrm. subst r. cbn [snd].
  rewrite Hs, Hp.
  cbv [bind lift].
  destruct (max_in_range start stop step) as [m|e] eqn:Hmax.
  2:{ now destruct stop. }
  assert (Hw1 : w1 = snd (remove_unsupported_file data_format w)) by now rewrite Hrun.
  replace (match stop with Some stop0 => (start, stop0) | None => (0, start) end)
    with (range_start start stop, range_stop start stop) by now destruct stop.
  cbv beta iota.
  rewrite open_append_ok.
  replace (snd (open_append (target data_format) now w1)) with (opened data_format now w)
    by (unfold opened; now rewrite Hw1).
  unfold getctime at 1. rewrite Hopen. cbn [ctime].
  pose proof (stored_sequence_same_files self data_format "range"
                (range_start start stop) m step (opened data_format now w)) as Hsame.
  destruct (stored_sequence self (serializer_of data_format) (target data_format)
              "range" (range_start start stop) m step (opened data_format now w))
    as [[stored|e] w3]; cbn [fst snd] in *; [|reflexivity].
  assert (Hf3 : file_at (target data_format) w3 = Some
      {| ctime := created_at data_format now w;
         content := body_at (target data_format) w |})
    by (rewrite (same_files_at _ _ _ Hsame); exact Hopen).
  unfold stored_or.
  destruct stored as [sequence|]; unfold ret.
  - destruct (encode _ _ _ _ _ _ _ _ _) as [d|e]; [|reflexivity].
    unfold truncate, write, rewritten.
    pose proof (set_content_ok _ Empty now w3 _ Hf3) as [E1 Hf4].
    pose proof (set_content_ok _ (Text d) now _ _ Hf4) as [E2 _].
    rewrite E1. cbv beta iota. rewrite E2. reflexivity.
  - destruct (_create_sequence _ _ _ _) as [sequence|e]; [|reflexivity].
    destruct (encode _ _ _ _ _ _ _ _ _) as [d|e]; [|reflexivity].
    unfold truncate, write, rewritten.
    pose proof (set_content_ok _ Empty now w3 _ Hf3) as [E1 Hf4].
    pose proof (set_content_ok _ (Text d) now _ _ Hf4) as [E2 _].
    rewrite E1. cbv beta iota. rewrite E2. reflexivity.
Qed.

Lemma generate_fibonacci_eq (self : generator) (data_format : string)
    (first second length : Z) (now : datetime) (w : world) :
  supported data_format ->
  generate_fibonacci self data_format first second length now w =
  match check_seq_length self length with
  | Raise e => (Raise e, snd (remove_unsupported_file data_format w))
  | Ok _ =>
      let lookup :=
        stored_sequence self (serializer_of data_format) (target data_format)
          "fibonacci" first (fibonacci first second (length - 1)) 0
          (opened data_format now w) in
      match fst lookup with
      | Raise e => (Raise e, snd lookup)
      | Ok stored =>
          match stored_or stored
                  (_generate_fibonacci self (fib_sequence first second length)) with
          | Raise e => (Raise e, snd lookup)
          | Ok sequence =>
              match int_of_max sequence with
              | Raise e => (Raise e, snd lookup)
              | Ok max_element =>
                  match encode (serializer_of data_format) sequence
                          (_sequence_type self) "fibonacci"
                          (strftime (created_at data_format now w)) (repr self)
                          first max_element now with
                  | Raise e => (Raise e, snd lookup)
                  | Ok d => (Ok tt, rewritten data_format d now (snd lookup))
                  end
              end
          end
      end
  end.
Proof.
  intros H.
  pose proof (opened_target data_format now w H) as Hopen.
  unfold generate_fibonacci.
  assert (Hs : get_serializer data_format = Ok (serializer_of data_format))
    by (supported_cases H; reflexivity).
  assert (Hp : get_path data_format = Ok (target data_format))
    by (supported_cases H; reflexivity).
  unfold bind at 1.
  pose proof (removal_ok data_format w) as Hrm.
  destruct (remove_unsupported_file data_format w) as [r w1] eqn:Hrun.
  cbn [fst] in Hrm. subst r. cbn [snd].
  rewrite Hs, Hp.
  cbv [bind lift].
  destruct (check_seq_length self length) as [ok|e]; [|reflexivity].
  assert (Hw1 : w1 = snd (remove_unsupported_file data_format w)) by now rewrite Hrun.
  rewrite open_append_ok.
  replace (snd (open_append (target data_format) now w1)) with (opened data_format now w)
    by (unfold opened; now rewrite Hw1).
  unfold getctime at 1. rewrite Hopen. cbn [ctime].
  pose proof (stored_sequence_same_files self data_format "fibonacci"
                first (fibonacci first second (length - 1)) 0
                (opened data_format now w)) as Hsame.
  destruct (stored_sequence self (serializer_of data_format) (target data_format)
              "fibonacci" first (fibonacci first second (length - 1)) 0
              (opened data_format now w))
    as [[stored|e] w3]; cbn [fst snd] in *; [|reflexivity].
  assert (Hf3 : file_at (target data_format) w3 = Some
      {| ctime := created_at data_format now w;
         content := body_at (target data_format) w |})
    by (rewrite (same_files_at _ _ _ Hsame); exact Hopen).
  unfold stored_or, fib_sequence.
  destruct stored as [sequence|]; unfold ret.
  - destruct (int_of_max sequence) as [mx|e]; [|reflexivity].
    destruct (encode _ _ _ _ _ _ _ _ _) as [d|e]; [|reflexivity].
    unfold truncate, write, rewritten.
    pose proof (set_content_ok _ Empty now w3 _ Hf3) as [E1 Hf4].
    pose proof (set_content_ok _ (Text d) now _ _ Hf4) as [E2 _].
    rewrite E1. cbv beta iota. rewrite E2. reflexivity.
  - destruct (_generate_fibonacci _ _) as [sequence|e]; [|reflexivity].
    destruct (int_of_max sequence) as [mx|e]; [|reflexivity].
    destruct (encode _ _ _ _ _ _ _ _ _) as [d|e]; [|reflexivity].
    unfold truncate, write, rewritten.
    pose proof (set_content_ok _ Empty now w3 _ Hf3) as [E1 Hf4].
    pose proof (set_content_ok _ (Text d) now _ _ Hf4) as [E2 _].
    rewrite E1. cbv beta iota. rewrite E2. reflexivity.
Qed.

(** ** The stepped range *)

Section RangeLoop.

Variables stop step : Z.
Hypothesis step_positive : 0 < step.

Lemma range_loop_sound (fuel : nat) (n x : Z) :
  In x (range_loop fuel n stop step) ->
  n <= x < stop /\ (x - n) mod step = 0.
Proof.
  revert n. induction fuel as [|fuel IH]; intros n; cbn; [easy|].
  destruct (n <? stop) eqn:Hn; [|easy].
  apply Z.ltb_lt in Hn. intros [<- | Hin].
  - split; [lia|]. now rewrite Z.sub_diag, Z.mod_0_l by lia.
  - apply IH in Hin as [Hb Hm]. split; [lia|].
    replace (x - n) with ((x - (n + step)) + 1 * step) by ring.
    now rewrite Z.mod_add by lia.
Qed.

Lemma range_loop_complete (fuel : nat) (n x : Z) :
  (Z.to_nat (stop - n) <= fuel)%nat ->
  n <= x < stop -> (x - n) mod step = 0 ->
  In x (range_loop fuel n stop step).
Proof.
  revert n. induction fuel as [|fuel IH]; intros n Hfuel Hb Hm.
  - lia.
  - cbn. destruct (n <? stop) eqn:Hn; [|apply Z.ltb_ge in Hn; lia].
    destruct (Z.eq_dec x n) as [->|Hne]; [now left|right].
    apply Z.mod_divide in Hm; [|lia]. destruct Hm as [k Hk].
    assert (1 <= k) by nia.
    apply IH; [lia|nia|].
    replace (x - (n + step)) with ((k - 1) * step) by lia.
    apply Z.mod_mul. lia.
Qed.

(** With [stop - n] rounds the loop has ended on its own test: more rounds
    change nothing. *)
Lemma range_loop_ended (fuel : nat) (n : Z) :
  (Z.to_nat (stop - n) <= fuel)%nat ->
  range_loop (S fuel) n stop step = range_loop fuel n stop step.
Proof.
  revert n. induction fuel as [|fuel IH]; intros n Hfuel.
  - cbn. destruct (n <? stop) eqn:Hn; [apply Z.ltb_lt in Hn; lia|reflexivity].
  - cbn [range_loop]. destruct (n <? stop) eqn:Hn; [|reflexivity].
    f_equal. apply Z.ltb_lt in Hn. apply (IH (n + step)). lia.
Qed.

(** The value [__max_in_range] returns is the last multiple of [step]
    above [start] that stays below [stop]. *)
Lemma max_formula_reached (start : Z) :
  start < stop ->
  let m := (stop - 1) - ((stop - 1) - start) mod step in
  start <= m < stop /\ (m - start) mod step = 0.
Proof.
  intros Hlt m. subst m.
  pose proof (Z.mod_pos_bound ((stop - 1) - start) step step_positive) as Hr.
  pose proof (Z.mod_le ((stop - 1) - start) step ltac:(lia) step_positive) as Hle.
  split; [lia|].
  pose proof (Z.div_mod ((stop - 1) - start) step ltac:(lia)) as Hdm.
  replace (stop - 1 - (stop - 1 - start) mod step - start)
    with (((stop - 1 - start) / step) * step) by lia.
  apply Z.mod_mul. lia.
Qed.

Lemma max_formula_bounds (start x : Z) :
  start <= x < stop -> (x - start) mod step = 0 ->
  x <= (stop - 1) - ((stop - 1) - start) mod step.
Proof.
  intros Hb Hm.
  apply Z.mod_divide in Hm; [|lia]. destruct Hm as [k Hk].
  assert (Hsame : (stop - 1 - x) mod step = (stop - 1 - start) mod step).
  { replace (stop - 1 - start) with ((stop - 1 - x) + k * step) by lia.
    now rewrite Z.mod_add by lia. }
  pose proof (Z.mod_le (stop - 1 - x) step ltac:(lia) step_positive) as Hle.
  lia.
Qed.

End RangeLoop.

(** What [_custom_range] returns when it returns. *)
Lemma custom_range_ok (self : generator) (start stop step : Z) (l : list Z) :
  _custom_range self start stop step = Ok l ->
  0 < step /\ start <= stop
  /\ l = range_loop (Z.to_nat (stop - start)) start stop step.
Proof.
  unfold _custom_range.
  destruct (step <? 0) eqn:H1; [discriminate|].
  destruct (stop <? start) eqn:H2; [discriminate|].
  destruct (step =? 0) eqn:H3; [discriminate|].
  destruct (check_seq_length self _); cbn; [|discriminate].
  intros [= <-]. apply Z.ltb_ge in H1, H2. apply Z.eqb_neq in H3.
  repeat split; lia.
Qed.

Lemma custom_range_run (self : generator) (start stop step : Z) :
  0 < step -> start <= stop ->
  _custom_range self start stop step =
  if range_count start stop step <? max_length self
  then Ok (range_loop (Z.to_nat (stop - start)) start stop step)
  else Raise (InvalidSequenceLength
                ("Items quantity should be less than "
                 ++ str_of_int (max_length self) ++ ".")).
Proof.
  intros Hs Hle. unfold _custom_range, check_seq_length, range_count.
  destruct (step <? 0) eqn:H1; [apply Z.ltb_lt in H1; lia|].
  destruct (stop <? start) eqn:H2; [apply Z.ltb_lt in H2; lia|].
  destruct (step =? 0) eqn:H3; [apply Z.eqb_eq in H3; lia|].
  now destruct (_ <? max_length self).
Qed.

Lemma max_in_range_run (start : Z) (stop : option Z) (step : Z) :
  0 < step -> range_start start stop <= range_stop start stop ->
  max_in_range start stop step =
  Ok ((range_stop start stop - 1)
      - ((range_stop start stop - 1) - range_start start stop) mod step).
Proof.
  intros Hs Hle. unfold max_in_range.
  assert (H3 : (step =? 0) = false) by (apply Z.eqb_neq; lia).
  destruct stop as [stop|]; cbn in *; rewrite ?H3; [|reflexivity].
  destruct (step <? 0) eqn:H1; [apply Z.ltb_lt in H1; lia|].
  destruct (stop <? start) eqn:H2; [apply Z.ltb_lt in H2; lia|].
  reflexivity.
Qed.

(** ** Records through the codecs *)

Lemma filter_map_all {A B} (f : A -> B) (p : B -> bool) (l : list A) :
  (forall a, p (f a) = true) -> filter p (map f l) = map f l.
Proof.
  intros H. induction l as [|a l IH]; cbn; [reflexivity|].
  now rewrite H, IH.
Qed.

Lemma append_filled (a b : string) : filled b = true -> filled (a ++ b) = true.
Proof.
  destruct a; cbn; [easy|reflexivity].
Qed.

Lemma strftime_filled (t : datetime) : filled (strftime t) = true.
Proof.
  unfold strftime, padded. repeat (apply append_filled).
  destruct (Nat.to_uint (minute t)); reflexivity.
Qed.

Lemma str_of_int_filled (z : Z) : filled (str_of_int z) = true.
Proof.
  unfold filled. now rewrite str_of_int_nonempty.
Qed.

Lemma plain_filled (s : string) : plain s = true -> filled s = true.
Proof.
  unfold plain. intros H. now apply andb_prop in H.
Qed.

Lemma plain_kept (s : string) : plain s = true -> all_chars kept_char s = true.
Proof.
  unfold plain. intros H. now apply andb_prop in H.
Qed.

Lemma append_kept (a b : string) :
  all_chars kept_char a = true -> all_chars kept_char b = true ->
  all_chars kept_char (a ++ b) = true.
Proof.
  unfold all_chars. induction a as [|c a IH]; cbn; [auto|].
  intros Ha Hb. apply andb_prop in Ha as [-> Ha]. now apply IH.
Qed.

Lemma digit_kept (c : ascii) : is_digit c = true -> kept_char c = true.
Proof.
  destruct c as [[] [] [] [] [] [] [] []]; cbn; intros H; try discriminate; reflexivity.
Qed.

Lemma uint_kept (d : Decimal.uint) :
  all_chars kept_char (NilEmpty.string_of_uint d) = true.
Proof.
  eapply all_chars_weaken; [apply digit_kept | apply digits_of_uint].
Qed.

Lemma nat_text_kept (n : nat) :
  all_chars kept_char (NilZero.string_of_uint (Nat.to_uint n)) = true.
Proof.
  unfold NilZero.string_of_uint.
  destruct (Nat.to_uint n) eqn:H; try (rewrite <- H; apply uint_kept); reflexivity.
Qed.

Lemma zeros_kept (n : nat) : all_chars kept_char (zeros n) = true.
Proof.
  induction n as [|n IH]; [reflexivity|exact IH].
Qed.

Lemma str_of_int_kept (z : Z) : all_chars kept_char (str_of_int z) = true.
Proof.
  unfold str_of_int, NilZero.string_of_int.
  destruct (Z.to_int z) as [d|d]; unfold NilZero.string_of_uint.
  - destruct d eqn:H; try (rewrite <- H; apply uint_kept); reflexivity.
  - change (all_chars kept_char (String "-" (match d with
                                              | Decimal.Nil => "0"
                                              | _ => NilEmpty.string_of_uint d
                                              end)) = true).
    unfold all_chars. cbn [list_ascii_of_string forallb]. apply andb_true_intro.
    split; [reflexivity|].
    destruct d eqn:H; try (rewrite <- H; apply uint_kept); reflexivity.
Qed.

Lemma str_of_int_plain (z : Z) : plain (str_of_int z) = true.
Proof.
  unfold plain. now rewrite str_of_int_filled, str_of_int_kept.
Qed.

Lemma strftime_plain (t : datetime) : plain (strftime t) = true.
Proof.
  unfold plain. rewrite strftime_filled. cbn [andb].
  unfold strftime, padded.
  repeat (apply append_kept);
    try apply zeros_kept; try apply nat_text_kept; reflexivity.
Qed.

Lemma kept_not_return (c : ascii) :
  kept_char c = true -> Ascii.eqb c carriage_return = false.
Proof.
  destruct c as [[] [] [] [] [] [] [] []]; cbn; intros H; try discriminate; reflexivity.
Qed.

Lemma well_formed_kept (s : string) : all_chars kept_char s = true -> well_formed s = true.
Proof.
  unfold all_chars, well_formed. rewrite !forallb_forall.
  intros H c Hc. now rewrite (H c Hc).
Qed.

Lemma line_ends_kept (s : string) : all_chars kept_char s = true -> line_ends s = s.
Proof.
  unfold all_chars. induction s as [|c s IH]; [reflexivity|].
  cbn [line_ends list_ascii_of_string forallb].
  intros H. apply andb_prop in H as [Hc Hs].
  now rewrite (kept_not_return c Hc), (IH Hs).
Qed.

Lemma read_text_plain (s : string) : plain s = true -> read_text (Some s) = Some s.
Proof.
  intros H. unfold read_text. rewrite (line_ends_kept s (plain_kept s H)).
  apply plain_filled in H. now destruct s.
Qed.

(** The parser, one element at a time. *)
Lemma reparse_element (t : string) (a : list (string * string)) (text : option string)
    (children : list xml) :
  reparse (Element t a text children)
  = if text_accepted text && forallb (fun kv => well_formed (snd kv)) a
    then option_map (Element t a (read_text text)) (reparse_all children)
    else None.
Proof. reflexivity. Qed.

Lemma line_ends_filled (s : string) : filled s = true -> filled (line_ends s) = true.
Proof.
  destruct s as [|c s]; [discriminate|]. intros _. cbn [line_ends].
  destruct (Ascii.eqb c carriage_return); [|reflexivity].
  destruct s as [|c' s']; [reflexivity|].
  destruct (Ascii.eqb c' line_feed) eqn:E; [|reflexivity].
  apply Ascii.eqb_eq in E. subst c'. reflexivity.
Qed.

(** A carriage return is read as a line feed, so text without line feeds
    that was read was written as it is. *)
Lemma line_ends_without_feed (s t : string) :
  all_chars (fun c => negb (Ascii.eqb c line_feed)) t = true ->
  line_ends s = t -> s = t.
Proof.
  unfold all_chars. revert t. induction s as [|c s IH]; intros t Ht; [easy|].
  cbn [line_ends]. destruct (Ascii.eqb c carriage_return) eqn:Hc.
  - intros H. exfalso.
    assert (Hfeed : exists rest, t = String line_feed rest).
    { destruct s as [|c' s']; [now exists EmptyString|].
      destruct (Ascii.eqb c' line_feed) eqn:E;
        [|eexists; symmetry; exact H].
      apply Ascii.eqb_eq in E. subst c'. cbn [line_ends] in H.
      change (Ascii.eqb line_feed carriage_return) with false in H.
      eexists. symmetry. exact H. }
    destruct Hfeed as [rest ->]. discriminate.
  - destruct t as [|c' t]; [discriminate|]. intros [= -> H].
    cbn in Ht. apply andb_prop in Ht as [_ Ht]. now rewrite (IH t Ht H).
Qed.

Lemma line_ends_dict (s : string) :
  (line_ends s =? "dict")%string = (s =? "dict")%string.
Proof.
  destruct (s =? "dict")%string eqn:Hs.
  - apply String.eqb_eq in Hs. now subst s.
  - destruct (line_ends s =? "dict")%string eqn:Hl; [|reflexivity].
    apply String.eqb_eq in Hl. apply line_ends_without_feed in Hl; [|reflexivity].
    subst s. discriminate.
Qed.

Lemma reparse_text (tag text : string) :
  filled text = true ->
  reparse (SubElement tag [] text)
  = if well_formed text then Some (SubElement tag [] (line_ends text)) else None.
Proof.
  intros H. unfold SubElement. rewrite reparse_element.
  cbn [text_accepted forallb andb reparse_all option_map read_text].
  rewrite andb_true_r.
  apply line_ends_filled in H. now destruct (line_ends text).
Qed.

Lemma reparse_plain (tag : string) (attrib : list (string * string)) (text : string) :
  plain text = true ->
  forallb (fun kv => well_formed (snd kv)) attrib = true ->
  reparse (SubElement tag attrib text) = Some (SubElement tag attrib text).
Proof.
  intros Ht Ha. unfold SubElement. rewrite reparse_element.
  cbn [text_accepted]. rewrite (well_formed_kept text (plain_kept text Ht)), Ha.
  now rewrite (read_text_plain text Ht).
Qed.

Section EncodedXml.

Variables (els : list xml).
Variables (s_type seq_type len cr_time mod_date author min_el max_el : string).

Let tree : xml :=
  encoded_xml els s_type seq_type len cr_time mod_date author min_el max_el.

Lemma field_of_encoded :
  XMLSerializer.field "type" tree = Some (SubElement "type" [] s_type)
  /\ XMLSerializer.field "seq_type" tree = Some (SubElement "seq_type" [] seq_type)
  /\ XMLSerializer.field "len" tree = Some (SubElement "len" [] len)
  /\ XMLSerializer.field "el_type" tree = Some (SubElement "el_type" [] "int")
  /\ XMLSerializer.field "date_created" tree
     = Some (SubElement "date_created" [] cr_time)
  /\ XMLSerializer.field "date_modified" tree
     = Some (SubElement "date_modified" [] mod_date)
  /\ XMLSerializer.field "author" tree = Some (SubElement "author" [] author)
  /\ XMLSerializer.field "min" tree = Some (SubElement "min" [] min_el)
  /\ XMLSerializer.field "max" tree = Some (SubElement "max" [] max_el).
Proof.
  repeat split; reflexivity.
Qed.

Lemma findall_of_encoded :
  filter (fun c => (tag_of c =? "el")%string) els = els ->
  findall2 "sequence" "el" tree = els.
Proof.
  intros H. unfold findall2, tree, encoded_xml, children_named. cbn.
  rewrite H. apply app_nil_r.
Qed.

Hypothesis els_present : els <> [].
Hypothesis filled_type : filled s_type = true.
Hypothesis filled_seq_type : filled seq_type = true.
Hypothesis filled_len : filled len = true.
Hypothesis filled_created : filled cr_time = true.
Hypothesis filled_modified : filled mod_date = true.
Hypothesis filled_author : filled author = true.
Hypothesis filled_min : filled min_el = true.
Hypothesis filled_max : filled max_el = true.

Lemma validate_encoded : XMLSerializer._validate_data tree = Ok true.
Proof.
  unfold XMLSerializer._validate_data, XMLSerializer.field_set.
  destruct field_of_encoded as (-> & -> & -> & -> & -> & -> & -> & _ & ->).
  unfold tree, encoded_xml, find1, children_named, all_of. cbn.
  destruct els; [now elim els_present|].
  unfold filled in *.
  now rewrite filled_type, filled_seq_type, filled_len, filled_max,
    filled_created, filled_modified, filled_author.
Qed.

End EncodedXml.

(** What the parser makes of an encoded tree whose elements read back and
    whose length, bounds and modification date are plain: the four free
    texts are read with their line ends normalised, or refused. *)
Lemma reparse_encoded (els : list xml)
    (s_type seq_type len cr_time mod_date author min_el max_el : string) :
  reparse_all els = Some els ->
  plain len = true -> plain mod_date = true ->
  plain min_el = true -> plain max_el = true ->
  filled s_type = true -> filled seq_type = true ->
  filled cr_time = true -> filled author = true ->
  reparse (encoded_xml els s_type seq_type len cr_time mod_date author min_el max_el)
  = if well_formed s_type && well_formed seq_type
       && well_formed cr_time && well_formed author
    then Some (encoded_xml els (line_ends s_type) (line_ends seq_type) len
                 (line_ends cr_time) mod_date (line_ends author) min_el max_el)
    else None.
Proof.
  intros Hels Hlen Hmod Hmin Hmax Hty Hst Hcr Hau. unfold encoded_xml.
  rewrite reparse_element. cbn [text_accepted forallb andb reparse_all].
  rewrite (reparse_element "sequence"). cbn [text_accepted forallb andb]. rewrite Hels.
  cbn [option_map read_text].
  rewrite (reparse_element "metadata"). cbn [text_accepted forallb andb reparse_all].
  rewrite (reparse_plain "len" [] len Hlen eq_refl),
    (reparse_plain "el_type" [] "int" eq_refl eq_refl),
    (reparse_plain "date_modified" [] mod_date Hmod eq_refl),
    (reparse_plain "min" [] min_el Hmin eq_refl),
    (reparse_plain "max" [] max_el Hmax eq_refl).
  rewrite (reparse_text "type" s_type Hty), (reparse_text "seq_type" seq_type Hst),
    (reparse_text "date_created" cr_time Hcr), (reparse_text "author" author Hau).
  destruct (well_formed s_type), (well_formed seq_type),
    (well_formed cr_time), (well_formed author); reflexivity.
Qed.

Lemma list_of_list_els (l : list Z) :
  XMLSerializer.list_of_els (map list_el l) = Ok (map PInt l).
Proof.
  unfold XMLSerializer.list_of_els.
  induction l as [|z l IH]; cbn; [reflexivity|].
  rewrite int_of_str_of_int. cbn. now rewrite IH.
Qed.

Lemma lookup_app_none (k : string) (a b : list (string * pyval)) :
  lookup k (a ++ b) = None -> lookup k a = None /\ lookup k b = None.
Proof.
  induction a as [|[k' v'] a IH]; cbn; [auto|].
  destruct (k' =? k)%string; [discriminate|exact IH].
Qed.

Lemma lookup_before (k : string) (v : pyval) (acc rest : list (string * pyval)) :
  distinct_keys (acc ++ (k, v) :: rest) = true -> lookup k acc = None.
Proof.
  induction acc as [|[k' v'] acc IH]; cbn; [reflexivity|].
  destruct (lookup k' (acc ++ (k, v) :: rest)) eqn:Hl; [discriminate|].
  intros Hd. apply lookup_app_none in Hl as [_ Hl]. cbn in Hl.
  destruct (k =? k')%string eqn:Hk; [discriminate|].
  rewrite String.eqb_sym, Hk. now apply IH.
Qed.

Lemma dict_set_fresh (k : string) (v : pyval) (acc : list (string * pyval)) :
  lookup k acc = None -> dict_set k v acc = (acc ++ [(k, v)])%list.
Proof.
  induction acc as [|[k' v'] acc IH]; cbn; [reflexivity|].
  destruct (k' =? k)%string; [discriminate|]. intros H. now rewrite IH.
Qed.

Lemma dict_of_dict_els (entries acc : list (string * pyval)) :
  forallb keyed_by_value entries = true ->
  distinct_keys (acc ++ entries) = true ->
  XMLSerializer.dict_of_els (map dict_el entries) acc = Ok (acc ++ entries)%list.
Proof.
  revert acc. induction entries as [|[k v] entries IH]; intros acc Hk Hd; cbn.
  - now rewrite app_nil_r.
  - cbn in Hk. apply andb_prop in Hk as [Hkv Hrest].
    unfold keyed_by_value in Hkv. cbn in Hkv.
    destruct v as [| |z| | |]; try discriminate.
    apply String.eqb_eq in Hkv. subst k.
    rewrite int_of_str_of_int. cbn.
    rewrite (dict_set_fresh _ _ _ (lookup_before _ _ _ _ Hd)).
    rewrite IH; [now rewrite <- app_assoc|exact Hrest|now rewrite <- app_assoc].
Qed.

Lemma int_items (items : list pyval) :
  forallb is_int items = true -> items = map PInt (map (fun v =>
    match v with PInt z => z | _ => 0 end) items).
Proof.
  induction items as [|v items IH]; cbn; [reflexivity|].
  intros H. apply andb_prop in H as [Hv Hrest].
  destruct v; try discriminate. now rewrite <- IH.
Qed.

Lemma reparse_list_els (l : list Z) : reparse_all (map list_el l) = Some (map list_el l).
Proof.
  induction l as [|z l IH]; [reflexivity|].
  cbn [map reparse_all]. unfold list_el at 1.
  rewrite reparse_plain by (apply str_of_int_plain || reflexivity).
  now rewrite IH.
Qed.

Lemma reparse_keyed_els (entries : list (string * pyval)) :
  forallb (fun kv => plain (fst kv)) entries = true ->
  reparse_all (map dict_el entries) = Some (map dict_el entries).
Proof.
  induction entries as [|[k v] entries IH]; [reflexivity|].
  cbn [forallb fst]. intros H. apply andb_prop in H as [Hk Hrest].
  cbn [map reparse_all]. unfold dict_el at 1. cbn [fst].
  rewrite reparse_plain; [now rewrite (IH Hrest)|exact Hk|].
  cbn [forallb snd]. now rewrite (well_formed_kept k (plain_kept k Hk)).
Qed.

Lemma reparse_dict_els (entries : list (string * pyval)) :
  forallb keyed_by_value entries = true ->
  reparse_all (map dict_el entries) = Some (map dict_el entries).
Proof.
  intros H. apply reparse_keyed_els.
  rewrite forallb_forall in *. intros [k v] Hin. specialize (H _ Hin).
  unfold keyed_by_value in H. cbn in H.
  destruct v; try discriminate. apply String.eqb_eq in H. subst k.
  apply str_of_int_plain.
Qed.

(** What the decoder makes of an encoded tree whose elements read back. *)
Lemma record_of_encoded (els : list xml) (seq : pyval)
    (s_type seq_type cr_time mod_date author : string) (len n min_el max_el : Z) :
  filter (fun c => (tag_of c =? "el")%string) els = els ->
  (if (s_type =? "dict")%string
   then (d <- XMLSerializer.dict_of_els els [] ;; Ok (PDict d))%result
   else (l <- XMLSerializer.list_of_els els ;; Ok (PList l))%result) = Ok seq ->
  py_len seq = Ok n ->
  XMLSerializer.record_of
    (encoded_xml els s_type seq_type (str_of_int len) cr_time mod_date author
       (str_of_int min_el) (str_of_int max_el))
  = Ok (record_value seq s_type seq_type cr_time mod_date author n min_el max_el).
Proof.
  intros Hels Hseq Hlen. unfold XMLSerializer.record_of.
  destruct (field_of_encoded els s_type seq_type (str_of_int len) cr_time mod_date
              author (str_of_int min_el) (str_of_int max_el))
    as (-> & -> & _ & _ & -> & -> & -> & -> & ->).
  rewrite (findall_of_encoded _ _ _ _ _ _ _ _ _ Hels).
  cbn [dot_text text_of SubElement rbind text_is].
  rewrite Hseq. cbn [rbind]. rewrite Hlen. cbn [rbind int_of_text].
  rewrite !int_of_str_of_int. reflexivity.
Qed.

Lemma xml_encode_list (l : list Z) (s_type seq_type cr_time author : string)
    (min_el max_el : Z) (now : datetime) :
  XMLSerializer.encode (PList (map PInt l)) s_type seq_type cr_time author
    min_el max_el now
  = Ok (XmlDocument
          (encoded_xml (map list_el l) s_type seq_type
             (str_of_int (Z.of_nat (List.length l))) cr_time (strftime now) author
             (str_of_int min_el) (str_of_int max_el))).
Proof.
  unfold XMLSerializer.encode. cbn [py_iter py_len rbind].
  now rewrite map_map, List.length_map.
Qed.

Lemma xml_encode_dict (entries : list (string * pyval))
    (s_type seq_type cr_time author : string) (min_el max_el : Z) (now : datetime) :
  XMLSerializer.encode (PDict entries) s_type seq_type cr_time author
    min_el max_el now
  = Ok (XmlDocument
          (encoded_xml (map dict_el entries) s_type seq_type
             (str_of_int (Z.of_nat (List.length entries))) cr_time (strftime now) author
             (str_of_int min_el) (str_of_int max_el))).
Proof.
  unfold XMLSerializer.encode. cbn [py_iter py_len rbind].
  now rewrite map_map.
Qed.

Section RoundTrip.

Variables (sequence : pyval) (s_type seq_type cr_time author : string).
Variables (min_el max_el : Z) (now : datetime) (w : world).

Hypothesis sequence_valid : valid_sequence s_type sequence = true.
Hypothesis sequence_present : truthy sequence = true.
Hypothesis type_filled : filled s_type = true.
Hypothesis seq_type_filled : filled seq_type = true.
Hypothesis author_filled : filled author = true.

Let decoded : pyval :=
  record_value sequence s_type seq_type cr_time (strftime now) author
    (len_of sequence) min_el max_el.

(** The XML round trip on texts of any characters: refused by the parser,
    or read with the line ends normalised. *)
Lemma xml_round_trip_texts :
  filled cr_time = true ->
  round_trip XMLSerializer sequence s_type seq_type cr_time author
    min_el max_el now w
  = Ok (if well_formed s_type && well_formed seq_type
           && well_formed cr_time && well_formed author
        then Some (record_value sequence (line_ends s_type) (line_ends seq_type)
                     (line_ends cr_time) (strftime now) (line_ends author)
                     (len_of sequence) min_el max_el)
        else None).
Proof.
  intros created_filled.
  unfold round_trip. cbn [encode XMLSerializer decode].
  destruct sequence as [| | | |items|entries]; try discriminate.
  - cbn in sequence_valid. apply andb_prop in sequence_valid as [Hty Hints].
    apply negb_true_iff in Hty.
    rewrite (int_items _ Hints) in *.
    set (l := map _ items) in *.
    rewrite xml_encode_list. cbn [rbind].
    unfold XMLSerializer.decode, bind, lift, ret.
    assert (Hne : map list_el l <> []) by (destruct l; cbn in *; congruence).
    rewrite reparse_encoded;
      auto using str_of_int_plain, strftime_plain, reparse_list_els.
    destruct (well_formed s_type && well_formed seq_type
              && well_formed cr_time && well_formed author); [|reflexivity].
    rewrite validate_encoded;
      auto using str_of_int_filled, strftime_filled, line_ends_filled.
    erewrite record_of_encoded; [reflexivity| | |reflexivity].
    + apply filter_map_all. reflexivity.
    + rewrite line_ends_dict, Hty, list_of_list_els. reflexivity.
  - cbn in sequence_valid. apply andb_prop in sequence_valid as [H Hdistinct].
    apply andb_prop in H as [Hty Hkeyed].
    rewrite xml_encode_dict. cbn [rbind].
    unfold XMLSerializer.decode, bind, lift, ret.
    assert (Hne : map dict_el entries <> []) by (destruct entries; cbn in *; congruence).
    rewrite reparse_encoded;
      auto using str_of_int_plain, strftime_plain, reparse_dict_els.
    destruct (well_formed s_type && well_formed seq_type
              && well_formed cr_time && well_formed author); [|reflexivity].
    rewrite validate_encoded;
      auto using str_of_int_filled, strftime_filled, line_ends_filled.
    erewrite record_of_encoded; [reflexivity| | |reflexivity].
    + apply filter_map_all. reflexivity.
    + rewrite line_ends_dict, Hty, (dict_of_dict_els entries [] Hkeyed Hdistinct).
      reflexivity.
Qed.

Lemma json_round_trip :
  max_el <> 0 ->
  round_trip JSONSerializer sequence s_type seq_type cr_time author
    min_el max_el now w = Ok (Some decoded).
Proof.
  intros max_nonzero.
  unfold round_trip, decoded, len_of. cbn [encode JSONSerializer decode].
  unfold JSONSerializer.encode.
  assert (Hlen : exists n, py_len sequence = Ok n /\ n <> 0).
  { destruct sequence as [| | | |items|entries]; try discriminate.
    - destruct items; [discriminate|]. eexists; split; [reflexivity|]. cbn. lia.
    - destruct entries; [discriminate|]. eexists; split; [reflexivity|]. cbn. lia. }
  destruct Hlen as (n & -> & Hn). cbn [rbind].
  unfold JSONSerializer.decode, bind, lift, ret.
  unfold JSONSerializer._validate_data, JSONSerializer.meta_truthy,
    JSONSerializer.get_truthy, record_value, all_of.
  cbn. rewrite sequence_present. unfold filled in *.
  rewrite type_filled, seq_type_filled, author_filled.
  apply Z.eqb_neq in Hn, max_nonzero. now rewrite Hn, max_nonzero.
Qed.

End RoundTrip.

Lemma xml_round_trip (sequence : pyval) (s_type seq_type cr_time author : string)
    (min_el max_el : Z) (now : datetime) (w : world) :
  valid_sequence s_type sequence = true ->
  truthy sequence = true ->
  plain s_type = true -> plain seq_type = true ->
  plain cr_time = true -> plain author = true ->
  round_trip XMLSerializer sequence s_type seq_type cr_time author
    min_el max_el now w
  = Ok (Some (record_value sequence s_type seq_type cr_time (strftime now) author
                (len_of sequence) min_el max_el)).
Proof.
  intros Hvalid Hseq Hty Hst Hcr Hau.
  rewrite xml_round_trip_texts by auto using plain_filled.
  rewrite !well_formed_kept, !line_ends_kept by now apply plain_kept.
  reflexivity.
Qed.

(** ** C2: the round-trip law *)

Lemma encode_record_of_value (serializer : Serializer) (sequence : pyval)
    (s_type seq_type cr_time mod_date author : string) (len min_el max_el : Z)
    (now : datetime) :
  encode_record serializer
    (record_value sequence s_type seq_type cr_time mod_date author len min_el max_el)
    now
  = encode serializer sequence s_type seq_type cr_time author min_el max_el now.
Proof. reflexivity. Qed.

Lemma xml_round_trip_empty (entries : bool) (s_type seq_type cr_time author : string)
    (min_el max_el : Z) (now : datetime) (w : world) :
  round_trip XMLSerializer (if entries then PDict [] else PList [])
    s_type seq_type cr_time author min_el max_el now w = Ok None.
Proof.
  unfold round_trip. cbn [encode XMLSerializer decode].
  assert (Henc : XMLSerializer.encode (if entries then PDict [] else PList [])
                   s_type seq_type cr_time author min_el max_el now
                 = Ok (XmlDocument
                         (encoded_xml [] s_type seq_type (str_of_int 0) cr_time
                            (strftime now) author (str_of_int min_el)
                            (str_of_int max_el)))) by now destruct entries.
  rewrite Henc. cbn [rbind]. unfold XMLSerializer.decode, encoded_xml.
  rewrite reparse_element. cbn [text_accepted forallb andb reparse_all].
  rewrite (reparse_element "sequence"). cbn [text_accepted forallb andb reparse_all].
  cbn [option_map read_text].
  destruct (reparse (Element "metadata" _ _ _)) as [read|]; reflexivity.
Qed.

Lemma round_trip_empty (data_format s_type seq_type cr_time author : string)
    (sequence : pyval) (min_el max_el : Z) (now : datetime) (w : world) :
  sequence = PList [] \/ sequence = PDict [] ->
  round_trip (serializer_of data_format) sequence s_type seq_type cr_time author
    min_el max_el now w = Ok None.
Proof.
  unfold serializer_of.
  intros [-> | ->]; destruct (data_format =? "xml")%string; try reflexivity.
  - apply xml_round_trip_empty with (entries := false).
  - apply xml_round_trip_empty with (entries := true).
Qed.

Lemma json_zero_max_absent (sequence : pyval) (s_type seq_type cr_time author : string)
    (min_el : Z) (now : datetime) (w : world) (d : document) :
  JSONSerializer.encode sequence s_type seq_type cr_time author min_el 0 now = Ok d ->
  fst (JSONSerializer.decode (Text d) w) = Ok None.
Proof.
  unfold JSONSerializer.encode. destruct (py_len sequence) as [n|]; [|discriminate].
  cbn [rbind]. intros [= <-].
  cbv [JSONSerializer.decode bind lift ret fst].
  replace (JSONSerializer._validate_data _) with (Ok false : result bool); [reflexivity|].
  symmetry. unfold JSONSerializer._validate_data, JSONSerializer.meta_truthy,
    JSONSerializer.get_truthy.
  cbn [py_get py_has_key lookup String.eqb Ascii.eqb Bool.eqb rbind all_of truthy
       Z.eqb negb].
  destruct (truthy sequence); [|reflexivity].
  destruct (negb (s_type =? EmptyString)%string); [|reflexivity].
  destruct (negb (seq_type =? EmptyString)%string); [|reflexivity].
  destruct (negb (n =? 0)); [|reflexivity].
  destruct (negb (author =? EmptyString)%string); reflexivity.
Qed.

Lemma json_round_trip_zero_max (sequence : pyval)
    (s_type seq_type cr_time author : string) (min_el : Z) (now : datetime)
    (w : world) :
  valid_sequence s_type sequence = true ->
  round_trip JSONSerializer sequence s_type seq_type cr_time author min_el 0 now w
  = Ok None.
Proof.
  intros Hvalid. unfold round_trip. cbn [encode JSONSerializer decode].
  destruct (JSONSerializer.encode sequence s_type seq_type cr_time author min_el 0 now)
    as [d|e] eqn:Hd.
  - cbn [rbind]. exact (json_zero_max_absent _ _ _ _ _ _ _ w d Hd).
  - unfold JSONSerializer.encode in Hd.
    destruct sequence; try discriminate Hvalid; discriminate Hd.
Qed.

(** C2. The round-trip law fails on valid records. A record with an empty
    sequence, which [generate_sequence(fmt, 0)] writes, decodes to [None]
    in both formats, and so does, in JSON, every record whose [max] is 0:
    the validators test the sequence and [max] for truth. In XML the type,
    seq_type, date_created and author of a record come back only if the
    parser accepts them, and then with every carriage return read as a line
    feed; a control character or a character beyond ASCII in one of them
    makes the document unparsable, and [decode] answers [None]. So an
    author of two lines ended by a carriage return comes back ended by a
    line feed, and an author with a control character gives no record. The
    law holds of the records that remain, those with a non-empty sequence,
    plain texts and, where JSON takes part, a [max] other than 0:
    [decode(encode(record))] is the record with [date_modified] refreshed,
    and the record decoded from format A, encoded in format B and decoded,
    is that record again up to [date_modified]. *)
Theorem round_trip_divergences :
  (forall data_format sequence s_type seq_type cr_time author min_el max_el now w,
      sequence = PList [] \/ sequence = PDict [] ->
      round_trip (serializer_of data_format) sequence s_type seq_type cr_time author
        min_el max_el now w = Ok None)
  /\ (forall sequence s_type seq_type cr_time author min_el now w,
        valid_sequence s_type sequence = true ->
        round_trip JSONSerializer sequence s_type seq_type cr_time author
          min_el 0 now w = Ok None)
  /\ (forall sequence s_type seq_type cr_time author min_el max_el now w,
        valid_sequence s_type sequence = true ->
        truthy sequence = true ->
        filled s_type = true -> filled seq_type = true ->
        filled cr_time = true -> filled author = true ->
        round_trip XMLSerializer sequence s_type seq_type cr_time author
          min_el max_el now w
        = Ok (if well_formed s_type && well_formed seq_type
                 && well_formed cr_time && well_formed author
              then Some (record_value sequence (line_ends s_type)
                           (line_ends seq_type) (line_ends cr_time) (strftime now)
                           (line_ends author) (len_of sequence) min_el max_el)
              else None))
  /\ round_trip XMLSerializer (PList [PInt 5]) "list" "range" "03.11.2026 09:05"
       author_with_return 5 5 an_instant no_files
     = Ok (Some (record_value (PList [PInt 5]) "list" "range" "03.11.2026 09:05"
                   "03.11.2026 09:05" author_with_feed 1 5 5))
  /\ round_trip XMLSerializer (PList [PInt 5]) "list" "range" "03.11.2026 09:05"
       author_with_control 5 5 an_instant no_files = Ok None
  /\ (forall sequence s_type seq_type cr_time author min_el max_el now later w
             format_a format_b,
        valid_sequence s_type sequence = true ->
        truthy sequence = true ->
        plain s_type = true -> plain seq_type = true ->
        plain cr_time = true -> plain author = true ->
        supported format_a -> supported format_b ->
        (format_a = "json" \/ format_b = "json" -> max_el <> 0) ->
        let record mod_date :=
          record_value sequence s_type seq_type cr_time mod_date author
            (len_of sequence) min_el max_el in
        round_trip (serializer_of format_a) sequence s_type seq_type cr_time author
          min_el max_el now w = Ok (Some (record (strftime now)))
        /\ exists d,
            encode_record (serializer_of format_b) (record (strftime now)) later
            = Ok d
            /\ fst (decode (serializer_of format_b) (Text d) w)
               = Ok (Some (record (strftime later)))).
Proof.
  split; [intros; now apply round_trip_empty|].
  split; [intros; now apply json_round_trip_zero_max|].
  split; [intros; now apply xml_round_trip_texts|].
  split; [vm_compute; reflexivity|].
  split; [vm_compute; reflexivity|].
  intros sequence s_type seq_type cr_time author min_el max_el now later w
    format_a format_b Hvalid Hseq Hty Hst Hcr Hau Ha Hb Hmax record.
  assert (Hrt : forall data_format t,
             supported data_format -> (data_format = "json" -> max_el <> 0) ->
             round_trip (serializer_of data_format) sequence s_type seq_type
               cr_time author min_el max_el t w = Ok (Some (record (strftime t)))).
  { intros data_format t Hs Hm. supported_cases Hs.
    - now apply xml_round_trip.
    - apply json_round_trip; auto using plain_filled. }
  split; [apply Hrt; auto|].
  specialize (Hrt format_b later Hb ltac:(auto)).
  unfold record at 1. rewrite encode_record_of_value.
  unfold round_trip in Hrt.
  destruct (encode (serializer_of format_b) sequence s_type seq_type cr_time
              author min_el max_el later) as [d|e]; [|discriminate].
  now exists d.
Qed.

Lemma round_trip_divergences_witness :
  round_trip XMLSerializer (PList []) "list" "range" "03.11.2026 09:05"
    "ListGenerator" 0 (-1) an_instant no_files = Ok None
  /\ round_trip JSONSerializer (PList [PInt (-3); PInt (-2); PInt (-1); PInt 0])
       "list" "range" "03.11.2026 09:05" "ListGenerator" (-3) 0 an_instant no_files
     = Ok None
  /\ round_trip XMLSerializer (PList [PInt 5]) "list" "range" "03.11.2026 09:05"
       author_with_return 5 5 an_instant no_files
     = Ok (if well_formed "list" && well_formed "range"
              && well_formed "03.11.2026 09:05" && well_formed author_with_return
           then Some (record_value (PList [PInt 5]) (line_ends "list")
                        (line_ends "range") (line_ends "03.11.2026 09:05")
                        (strftime an_instant) (line_ends author_with_return)
                        (len_of (PList [PInt 5])) 5 5)
           else None)
  /\ (round_trip XMLSerializer (PList [PInt 68; PInt 71]) "list" "range"
        "03.11.2026 09:05" "ListGenerator" 68 71 an_instant no_files
      = Ok (Some (record_value (PList [PInt 68; PInt 71]) "list" "range"
                    "03.11.2026 09:05" "03.11.2026 09:05" "ListGenerator" 2 68 71))
      /\ exists d,
          encode_record JSONSerializer
            (record_value (PList [PInt 68; PInt 71]) "list" "range"
               "03.11.2026 09:05" "03.11.2026 09:05" "ListGenerator" 2 68 71)
            a_later_instant = Ok d
          /\ fst (decode JSONSerializer (Text d) no_files)
             = Ok (Some (record_value (PList [PInt 68; PInt 71]) "list" "range"
                           "03.11.2026 09:05" "03.11.2026 09:07" "ListGenerator"
                           2 68 71))).
Proof.
  destruct round_trip_divergences as (Hempty & Hzero & Htexts & _ & _ & Hlaw).
  split; [exact (Hempty "xml" (PList []) "list" "range" "03.11.2026 09:05"
                   "ListGenerator" 0 (-1) an_instant no_files (or_introl eq_refl))|].
  split; [exact (Hzero (PList [PInt (-3); PInt (-2); PInt (-1); PInt 0]) "list"
                   "range" "03.11.2026 09:05" "ListGenerator" (-3) an_instant
                   no_files eq_refl)|].
  split; [exact (Htexts (PList [PInt 5]) "list" "range" "03.11.2026 09:05"
                   author_with_return 5 5 an_instant no_files
                   eq_refl eq_refl eq_refl eq_refl eq_refl eq_refl)|].
  exact (Hlaw (PList [PInt 68; PInt 71]) "list" "range"
           "03.11.2026 09:05" "ListGenerator" 68 71 an_instant a_later_instant
           no_files "xml" "json"
           eq_refl eq_refl eq_refl eq_refl eq_refl eq_refl
           (or_introl eq_refl) (or_intror eq_refl)
           (fun _ => ltac:(discriminate))).
Defined.

(** ** The equivalence checker on a decoded record *)

(** On a record as the decoders return it, the checker divides by
    [len - 1] for a range request and compares with 0 for any other. *)
Lemma check_equal_sequences_record (self : generator) (data_type : string)
    (sequence : pyval) (s_type seq_type cr_time mod_date author : string)
    (len mn mx min_el max_el step : Z) :
  check_equal_sequences self data_type
    (Some (record_value sequence s_type seq_type cr_time mod_date author len mn mx))
    min_el max_el step
  = if ((data_type =? "range")%string && (len =? 1))%bool
    then Raise ZeroDivisionError
    else
      Ok (_sequence_type_check self (PStr s_type)
          && (seq_type =? data_type)%string
          && ((mx =? max_el) && (mn =? min_el))
          && ((if (data_type =? "range")%string then (mx - mn) / (len - 1) else 0)
              =? step)).
Proof.
  unfold check_equal_sequences, record_value. cbn.
  destruct (data_type =? "range")%string; cbn.
  - replace (len - 1 =? 0) with (len =? 1)
      by (destruct (len =? 1) eqn:H; [apply Z.eqb_eq in H|apply Z.eqb_neq in H];
          symmetry; [apply Z.eqb_eq|apply Z.eqb_neq]; lia).
    destruct (len =? 1); [reflexivity|]. cbn.
    unfold eq_int. cbn. now destruct (mx =? max_el).
  - unfold eq_int. cbn. now destruct (mx =? max_el).
Qed.

(** The same on any decoded value with these fields, whatever else it
    holds. *)
Lemma check_equal_sequences_fields (self : generator) (data stored s_type seq_type : pyval)
    (len mn mx min_el max_el step : Z) :
  record_fields data stored s_type seq_type len mn mx ->
  check_equal_sequences self "range" (Some data) min_el max_el step
  = if len =? 1 then Raise ZeroDivisionError
    else
      Ok (_sequence_type_check self s_type
          && eq_str seq_type "range"
          && ((mx =? max_el) && (mn =? min_el))
          && ((mx - mn) / (len - 1) =? step)).
Proof.
  intros (_ & Hty & Hst & Hlen & Hmn & Hmx).
  unfold metadata in *. unfold check_equal_sequences.
  destruct (py_getitem data "metadata") as [meta|]; [|discriminate].
  cbn [rbind] in *. rewrite Hty, Hst, Hlen, Hmn, Hmx.
  cbn [rbind String.eqb Ascii.eqb Bool.eqb py_sub as_int py_floordiv].
  replace (len - 1 =? 0) with (len =? 1)
    by (destruct (len =? 1) eqn:H; [apply Z.eqb_eq in H|apply Z.eqb_neq in H];
        symmetry; [apply Z.eqb_eq|apply Z.eqb_neq]; lia).
  destruct (len =? 1); [reflexivity|]. cbn [rbind].
  unfold eq_int. cbn [as_int]. now destruct (mx =? max_el).
Qed.

(** ** C3: the step implied by a stored record *)

(** C3. The code does not answer 0 for a stored record of one element: it
    divides by [len - 1 = 0]. [ListGenerator(100).generate_sequence('xml',
    5, 6, 1)] writes such a record, and the same call again, or any other
    range request checked against it, raises [ZeroDivisionError]. For any
    other [len] the implied step is the floor of [(max - min) / (len - 1)],
    and the check holds only if it equals the requested step. The 0 of the
    code is the step of a request that is not a range request. *)
Theorem single_element_record_divides_by_zero :
  (forall self data stored s_type seq_type mn mx min_el max_el step,
      record_fields data stored s_type seq_type 1 mn mx ->
      check_equal_sequences self "range" (Some data) min_el max_el step
      = Raise ZeroDivisionError)
  /\ (forall data_format,
        supported data_format ->
        let first_run :=
          generate_sequence (list_generator 100) data_format 5 (Some 6) 1
            an_instant no_files in
        fst first_run = Ok tt
        /\ fst (generate_sequence (list_generator 100) data_format 5 (Some 6) 1
                  a_later_instant (snd first_run)) = Raise ZeroDivisionError)
  /\ (forall self data stored s_type seq_type len mn mx min_el max_el step,
        record_fields data stored s_type seq_type len mn mx ->
        len <> 1 ->
        check_equal_sequences self "range" (Some data) min_el max_el step = Ok true ->
        (mx - mn) / (len - 1) = step).
Proof.
  split; [|split].
  - intros * Hfields.
    now rewrite (check_equal_sequences_fields _ _ _ _ _ _ _ _ _ _ _ Hfields).
  - intros data_format H. supported_cases H; split; vm_compute; reflexivity.
  - intros * Hfields Hlen.
    rewrite (check_equal_sequences_fields _ _ _ _ _ _ _ _ _ _ _ Hfields).
    apply Z.eqb_neq in Hlen. rewrite Hlen.
    intros [= H]. apply andb_prop in H as [_ H]. now apply Z.eqb_eq in H.
Qed.

(** ** C7: what [decode] does with a document *)

(** C7. [decode] prints and answers [None] for text its parser rejects,
    and answers [None] when a field the validator tests is empty. It is not
    total, though: the markup validator reads [.text] of what [find]
    returned, so a missing [type] (or any other tested field) raises
    [AttributeError]; [min] is not tested at all, and its absence raises
    in the decoder; the JSON decoder raises on a document that is not an
    object, and returns a record without [date_created] as valid. *)
Theorem decode_raises_on_missing_field (w : world) :
  XMLSerializer.decode (Text (XmlDocument xml_without_type)) w
  = (Raise AttributeError, w)
  /\ XMLSerializer.decode (Text (XmlDocument xml_without_min)) w
     = (Raise AttributeError, w)
  /\ JSONSerializer.decode (Text (JsonDocument (PList [PInt 1]))) w
     = (Raise AttributeError, w)
  /\ JSONSerializer.decode (Text (JsonDocument json_without_dates)) w
     = (Ok (Some json_without_dates), w)
  /\ (forall raw,
        fst (XMLSerializer.decode (Garbage raw) w) = Ok None
        /\ fst (JSONSerializer.decode (Garbage raw) w) = Ok None
        /\ stdout (snd (XMLSerializer.decode (Garbage raw) w))
           = (stdout w ++ [ParseErrorMessage ElementTreeParser (Garbage raw)])%list
        /\ stdout (snd (JSONSerializer.decode (Garbage raw) w))
           = (stdout w ++ [ParseErrorMessage JsonParser (Garbage raw)])%list).
Proof.
  repeat split.
Qed.

(** ** C9: [get_sequence] without a stored record *)

(** C9. With neither file, or with both of size 0, the list generator
    returns [[]], the tuple generator [()] and the set generator [set()].
    The mapping generator inherits [get_sequence] unchanged and returns the
    list [[]] as well, not an empty mapping. *)
Theorem get_sequence_without_record (limit : Z) (reports : ctime_meaning)
    (json_created xml_created : option datetime) (out : list printed) :
  let w :=
    {| getctime_reports := reports;
       json_file := option_map empty_file json_created;
       xml_file := option_map empty_file xml_created;
       stdout := out |} in
  get_sequence (list_generator limit) w = (Ok (Plain (PList [])), w)
  /\ get_sequence (tuple_generator limit) w = (Ok (Tuple []), w)
  /\ get_sequence (set_generator limit) w = (Ok (PySet []), w)
  /\ get_sequence (dict_generator limit) w = (Ok (Plain (PList [])), w)
  /\ Plain (PList []) <> Plain (PDict []).
Proof.
  destruct json_created, xml_created; repeat split; discriminate.
Qed.

(** ** Which files a call touches *)

Lemma read_back_same_files (self : generator) (data_format : string) (w : world) :
  supported data_format ->
  same_files w (snd (BaseGenerator.read_back self data_format w)).
Proof.
  intros H.
  assert (Hs : get_serializer data_format = Ok (serializer_of data_format))
    by (supported_cases H; reflexivity).
  assert (Hp : get_path data_format = Ok (target data_format))
    by (supported_cases H; reflexivity).
  unfold BaseGenerator.read_back. rewrite Hs, Hp.
  unfold bind, lift, read, raise.
  destruct (file_at (target data_format) w) as [f|]; [|apply same_files_refl].
  pose proof (decode_same_files data_format (content f) w) as Hd.
  destruct (decode (serializer_of data_format) (content f) w) as [[[data|]|e] w3];
    cbn [snd] in Hd |- *; try exact Hd.
  destruct (py_getitem data "metadata") as [meta|]; [|exact Hd].
  destruct (py_getitem meta "type") as [ty|]; [|exact Hd].
  destruct (negb (_sequence_type_check self ty)); [exact Hd|].
  destruct (py_getitem meta "len") as [len|]; [|exact Hd].
  destruct (py_gt len (max_length self)) as [[]|]; exact Hd.
Qed.

Lemma base_get_sequence_same_files (self : generator) (w : world) :
  same_files w (snd (BaseGenerator.get_sequence self w)).
Proof.
  unfold BaseGenerator.get_sequence, exists_nonempty, bind, path_exists, nonempty, ret.
  destruct w as [m [[cj bj]|] [[cx bx]|] out];
    try destruct bj; try destruct bx;
    cbn [file_at json_file xml_file content fst snd];
    try apply same_files_refl;
    try (apply read_back_same_files; now left);
    apply read_back_same_files; now right.
Qed.

(** Reading deletes nothing and writes nothing. *)
Lemma get_sequence_same_files (self : generator) (w : world) :
  same_files w (snd (get_sequence self w)).
Proof.
  pose proof (base_get_sequence_same_files self w) as H.
  unfold get_sequence, bind, ret, lift.
  destruct (class self);
    destruct (BaseGenerator.get_sequence self w) as [[v|e] w']; exact H.
Qed.

Lemma removal_removes_other (data_format : string) (w : world) :
  supported data_format ->
  file_at (other (target data_format)) (snd (remove_unsupported_file data_format w))
  = None.
Proof.
  intros H. supported_cases H; destruct w as [m [j|] [x|] out]; reflexivity.
Qed.

Lemma generate_sequence_ends_in (self : generator) (data_format : string)
    (start : Z) (stop : option Z) (step : Z) (now : datetime) (w : world) :
  supported data_format ->
  ends_in data_format now w
    (snd (generate_sequence self data_format start stop step now w)).
Proof.
  intros H. rewrite (generate_sequence_eq _ _ _ _ _ _ _ H).
  destruct (max_in_range start stop step) as [m|e]; [|constructor].
  cbv zeta.
  pose proof (stored_sequence_same_files self data_format "range"
                (range_start start stop) m step (opened data_format now w)) as Hsame.
  destruct (fst _) as [stored|e]; [|now apply ends_before_truncate].
  destruct (stored_or _ _) as [sequence|e]; [|now apply ends_before_truncate].
  destruct (encode _ _ _ _ _ _ _ _ _) as [d|e]; [|now apply ends_before_truncate].
  now apply ends_written.
Qed.

Lemma generate_fibonacci_ends_in (self : generator) (data_format : string)
    (first second length : Z) (now : datetime) (w : world) :
  supported data_format ->
  ends_in data_format now w
    (snd (generate_fibonacci self data_format first second length now w)).
Proof.
  intros H. rewrite (generate_fibonacci_eq _ _ _ _ _ _ _ H).
  destruct (check_seq_length self length) as [ok|e]; [|constructor].
  cbv zeta.
  pose proof (stored_sequence_same_files self data_format "fibonacci" first
                (fibonacci first second (length - 1)) 0
                (opened data_format now w)) as Hsame.
  destruct (fst _) as [stored|e]; [|now apply ends_before_truncate].
  destruct (stored_or _ _) as [sequence|e]; [|now apply ends_before_truncate].
  destruct (int_of_max sequence) as [mx|e]; [|now apply ends_before_truncate].
  destruct (encode _ _ _ _ _ _ _ _ _) as [d|e]; [|now apply ends_before_truncate].
  now apply ends_written.
Qed.

Lemma ends_in_other_removed (data_format : string) (now : datetime) (w w' : world) :
  supported data_format ->
  ends_in data_format now w w' ->
  file_at (other (target data_format)) w' = None.
Proof.
  intros H [|w3 Hsame|w3 d Hsame].
  - now apply removal_removes_other.
  - rewrite (same_files_at _ _ _ Hsame). now apply opened_other.
  - pose proof (opened_target data_format now w H) as Hopen.
    rewrite <- (same_files_at _ _ _ Hsame) in Hopen.
    destruct (rewritten_target data_format d now w3 _ Hopen) as (_ & -> & _).
    rewrite (same_files_at _ _ _ Hsame). now apply opened_other.
Qed.

(** ** A generation call on a blank file *)

Lemma create_sequence_ok (self : generator) (start stop step : Z) (l : list Z) :
  _custom_range self start stop step = Ok l ->
  exists sequence,
    _create_sequence self start stop step = Ok sequence
    /\ is_container sequence = true
    /\ (class self <> DictGenerator -> sequence = PList (map PInt l)).
Proof.
  intros H. unfold _create_sequence. rewrite H. cbn [rbind].
  destruct (class self); eexists; (split; [reflexivity|split; [reflexivity|]]);
    congruence.
Qed.

Lemma encode_container (data_format : string) (sequence : pyval)
    (s_type seq_type cr_time author : string) (min_el max_el : Z) (now : datetime) :
  is_container sequence = true ->
  exists d,
    encode (serializer_of data_format) sequence s_type seq_type cr_time author
      min_el max_el now = Ok d.
Proof.
  unfold serializer_of.
  destruct sequence; try discriminate; intros _;
    destruct (data_format =? "xml")%string; eexists; reflexivity.
Qed.

Lemma blank_opened (data_format : string) (now : datetime) (w : world) :
  supported data_format ->
  blank (target data_format) w = true ->
  file_at (target data_format) (opened data_format now w)
  = Some {| ctime := created_at data_format now w; content := Empty |}.
Proof.
  intros H Hb. rewrite (opened_target _ _ _ H). f_equal. f_equal.
  unfold blank in Hb. now destruct (body_at (target data_format) w).
Qed.

Lemma written_body (data_format : string) (d : document) (now : datetime)
    (w w3 : world) :
  supported data_format ->
  same_files (opened data_format now w) w3 ->
  body_at (target data_format) (rewritten data_format d now w3) = Text d
  /\ file_at (other (target data_format)) (rewritten data_format d now w3) = None
  /\ (forall f, file_at (target data_format) (rewritten data_format d now w3) = Some f ->
        ctime f = match getctime_reports w with
                  | Creation => created_at data_format now w
                  | LastChange => now
                  end).
Proof.
  intros H Hsame.
  pose proof (opened_target data_format now w H) as Hopen.
  pose proof (opened_other data_format now w H) as Hother.
  rewrite <- (same_files_at _ _ _ Hsame) in Hopen.
  rewrite <- (same_files_at _ _ _ Hsame) in Hother.
  destruct (rewritten_target data_format d now w3 _ Hopen) as (Ht & Ho & _ & _).
  unfold body_at. rewrite Ht, Ho. repeat split; [exact Hother|].
  intros f [= <-]. cbn. unfold touched.
  destruct Hsame as (_ & _ & ->). now destruct (opened_rest data_format now w) as [_ ->].
Qed.

Lemma generate_sequence_blank (self : generator) (data_format : string)
    (start : Z) (stop : option Z) (step : Z) (now : datetime) (w : world) :
  supported data_format ->
  blank (target data_format) w = true ->
  0 < step ->
  range_start start stop <= range_stop start stop ->
  generate_sequence self data_format start stop step now w =
  match _create_sequence self (range_start start stop) (range_stop start stop) step with
  | Raise e => (Raise e, opened data_format now w)
  | Ok sequence =>
      match encode (serializer_of data_format) sequence (_sequence_type self) "range"
              (strftime (created_at data_format now w)) (repr self)
              (range_start start stop)
              ((range_stop start stop - 1)
               - ((range_stop start stop - 1) - range_start start stop) mod step)
              now with
      | Raise e => (Raise e, opened data_format now w)
      | Ok d => (Ok tt, rewritten data_format d now (opened data_format now w))
      end
  end.
Proof.
  intros H Hb Hstep Hle.
  rewrite (generate_sequence_eq _ _ _ _ _ _ _ H).
  rewrite (max_in_range_run _ _ _ Hstep Hle). cbv zeta.
  rewrite (stored_sequence_blank _ _ _ _ _ _ _ _ _ (blank_opened _ now _ H Hb) eq_refl).
  reflexivity.
Qed.

(** A range call on a target without text: it succeeds when the count is
    below the limit, and the [max] it records is the last value emitted. *)
Lemma fresh_range_written :
  forall self data_format start stop step now w,
        supported data_format ->
        blank (target data_format) w = true ->
        0 < step ->
        range_start start stop < range_stop start stop ->
        range_count (range_start start stop) (range_stop start stop) step
        < max_length self ->
        let m :=
          (range_stop start stop - 1)
          - ((range_stop start stop - 1) - range_start start stop) mod step in
        exists l sequence d w',
          _custom_range self (range_start start stop) (range_stop start stop) step
          = Ok l
          /\ _create_sequence self (range_start start stop) (range_stop start stop)
               step = Ok sequence
          /\ encode (serializer_of data_format) sequence (_sequence_type self)
               "range" (strftime (created_at data_format now w)) (repr self)
               (range_start start stop) m now = Ok d
          /\ generate_sequence self data_format start stop step now w = (Ok tt, w')
          /\ body_at (target data_format) w' = Text d
          /\ In m l
          /\ (forall x, In x l -> x <= m).
Proof.
  intros self data_format start stop step now w H Hb Hstep Hlt Hcount m.
  pose proof (generate_sequence_blank self _ start stop _ now _ H Hb Hstep
                ltac:(lia)) as Hblank.
  set (a := range_start start stop) in *. set (b := range_stop start stop) in *.
  pose proof (custom_range_run self a b step Hstep ltac:(lia)) as Hrange.
  apply Z.ltb_lt in Hcount. rewrite Hcount in Hrange.
  destruct (create_sequence_ok _ _ _ _ _ Hrange) as (sequence & Hseq & Hcont & _).
  destruct (encode_container data_format sequence (_sequence_type self) "range"
              (strftime (created_at data_format now w)) (repr self) a m now Hcont)
    as [d Hd].
  exists (range_loop (Z.to_nat (b - a)) a b step), sequence, d,
    (rewritten data_format d now (opened data_format now w)).
  repeat split; try assumption.
  - rewrite Hblank, Hseq. fold m. now rewrite Hd.
  - apply (written_body data_format d now w); [assumption|apply same_files_refl].
  - destruct (max_formula_reached b step Hstep a Hlt) as [Hb1 Hb2].
    apply range_loop_complete; auto; lia.
  - intros x Hx. apply range_loop_sound in Hx as [Hx1 Hx2]; [|assumption].
    now apply max_formula_bounds.
Qed.

(** ** C4: the range boundary *)

(** C4, as stated, fails on the ranges the code accepts with
    [start = stop]: [generate_sequence('json', 0, 0, 1)] emits nothing and
    records [max = -1], a value that was never emitted. *)
Lemma empty_range_records_unemitted_max :
  let run :=
    generate_sequence (list_generator 100) "json" 0 (Some 0) 1 an_instant no_files in
  fst run = Ok tt
  /\ _custom_range (list_generator 100) 0 0 1 = Ok []
  /\ body_at JSON_PATH (snd run)
     = Text (JsonDocument
               (record_value (PList []) "list" "range" "03.11.2026 09:05"
                  "03.11.2026 09:05" "ListGenerator" 0 0 (-1)))
  /\ ~ In (-1) [].
Proof.
  repeat split; try (vm_compute; reflexivity). intros [].
Qed.

Lemma persisted_after_write (data_format : string) (sequence : pyval)
    (s_type seq_type cr_time author : string) (min_el max_el : Z)
    (now : datetime) (w' : world) (d : document) :
  supported data_format ->
  valid_sequence s_type sequence = true -> truthy sequence = true ->
  plain s_type = true -> plain seq_type = true ->
  plain cr_time = true -> plain author = true ->
  (data_format = "json" -> max_el <> 0) ->
  encode (serializer_of data_format) sequence s_type seq_type cr_time author
    min_el max_el now = Ok d ->
  body_at (target data_format) w' = Text d ->
  persisted data_format w'
  = Ok (Some (record_value sequence s_type seq_type cr_time (strftime now) author
                (len_of sequence) min_el max_el)).
Proof.
  intros H Hv Ht Hty Hst Hcr Hau Hmax Henc Hbody.
  unfold persisted. rewrite Hbody.
  assert (Hrt : round_trip (serializer_of data_format) sequence s_type seq_type
                  cr_time author min_el max_el now w'
                = Ok (Some (record_value sequence s_type seq_type cr_time
                              (strftime now) author (len_of sequence) min_el max_el))).
  { supported_cases H;
      [now apply xml_round_trip|apply json_round_trip; auto using plain_filled]. }
  unfold round_trip in Hrt. now rewrite Henc in Hrt.
Qed.

(** C4 (amended). [generate_sequence(fmt, 68, 121, 3)] on a list generator
    whose limit is above 18, with no text yet in the target file, writes the
    sequence [68, 71, ..., 119] with [max = 119], [min = 68], [len = 18].
    In general, for every [step > 0] and [start < stop] whose count is below
    the limit, on a target without text, the call succeeds and the [max] it
    records, [(stop - 1) - ((stop - 1) - start) mod step], is an emitted
    value and the greatest of them. For [start = stop] nothing is emitted
    and the formula gives [start - step]. *)
Theorem range_boundary :
  (forall data_format limit now w,
      supported data_format -> 18 < limit ->
      blank (target data_format) w = true ->
      exists w' record,
        generate_sequence (list_generator limit) data_format 68 (Some 121) 3 now w
        = (Ok tt, w')
        /\ persisted data_format w' = Ok (Some record)
        /\ py_getitem record "sequence"
           = Ok (PList (map PInt [68; 71; 74; 77; 80; 83; 86; 89; 92; 95; 98;
                                  101; 104; 107; 110; 113; 116; 119]))
        /\ metadata record "max" = Ok (PInt 119)
        /\ metadata record "min" = Ok (PInt 68)
        /\ metadata record "len" = Ok (PInt 18))
  /\ (forall self data_format start stop step now w,
        supported data_format ->
        blank (target data_format) w = true ->
        0 < step ->
        range_start start stop < range_stop start stop ->
        range_count (range_start start stop) (range_stop start stop) step
        < max_length self ->
        let m :=
          (range_stop start stop - 1)
          - ((range_stop start stop - 1) - range_start start stop) mod step in
        exists l sequence d w',
          _custom_range self (range_start start stop) (range_stop start stop) step
          = Ok l
          /\ _create_sequence self (range_start start stop) (range_stop start stop)
               step = Ok sequence
          /\ encode (serializer_of data_format) sequence (_sequence_type self)
               "range" (strftime (created_at data_format now w)) (repr self)
               (range_start start stop) m now = Ok d
          /\ generate_sequence self data_format start stop step now w = (Ok tt, w')
          /\ body_at (target data_format) w' = Text d
          /\ In m l
          /\ (forall x, In x l -> x <= m))
  /\ (forall self start step,
        0 < step -> 0 < max_length self ->
        _custom_range self start start step = Ok []
        /\ max_in_range start (Some start) step = Ok (start - step)).
Proof.
  pose proof fresh_range_written as General.
  split; [|split; [exact General|]].
  2:{ intros self start step Hstep Hlimit. split.
      - rewrite (custom_range_run self start start step Hstep ltac:(lia)).
        unfold range_count. rewrite Z.sub_diag, Z.mod_0_l, Z.div_0_l by lia.
        cbn [Z.eqb]. apply Z.ltb_lt in Hlimit. now rewrite Hlimit.
      - rewrite (max_in_range_run start (Some start) step Hstep ltac:(cbn; lia)).
        cbn [range_start range_stop]. f_equal.
        replace (start - 1 - start) with (-1) by lia.
        rewrite <- (Z.mod_unique (-1) step (-1) (step - 1)) by lia. lia. }
  intros data_format limit now w H Hlimit Hb.
  assert (Hcount : range_count 68 121 3 = 18) by reflexivity.
  destruct (General (list_generator limit) data_format 68 (Some 121) 3 now w
              H Hb ltac:(lia) ltac:(cbn; lia)
              ltac:(cbn [range_start range_stop max_length list_generator];
                    rewrite Hcount; exact Hlimit))
    as (l & sequence & d & w' & Hl & Hseq & Hd & Hrun & Hbody & _).
  cbn [range_start range_stop] in *.
  assert (Hrange : _custom_range (list_generator limit) 68 121 3
                   = Ok (range_loop (Z.to_nat (121 - 68)) 68 121 3)).
  { rewrite (custom_range_run (list_generator limit) 68 121 3 ltac:(lia) ltac:(lia)).
    rewrite Hcount.
    replace (18 <? max_length (list_generator limit)) with true
      by (symmetry; apply Z.ltb_lt; exact Hlimit).
    reflexivity. }
  destruct (create_sequence_ok _ _ _ _ _ Hrange) as (s' & Hs' & _ & Hshape).
  rewrite Hseq in Hs'. injection Hs' as <-.
  specialize (Hshape ltac:(discriminate)).
  vm_compute in Hshape. subst sequence.
  exists w'. eexists. split; [exact Hrun|]. split.
  - refine (persisted_after_write data_format _ _ _ _ _ _ _ _ _ _ H _ _ _ _ _ _ _ Hd Hbody);
      try reflexivity; try apply strftime_plain.
    intros _. vm_compute. discriminate.
  - repeat split.
Qed.

Lemma range_boundary_witness :
  (exists w' record,
      generate_sequence (list_generator 100) "xml" 68 (Some 121) 3 an_instant no_files
      = (Ok tt, w')
      /\ persisted "xml" w' = Ok (Some record)
      /\ py_getitem record "sequence"
         = Ok (PList (map PInt [68; 71; 74; 77; 80; 83; 86; 89; 92; 95; 98;
                                101; 104; 107; 110; 113; 116; 119]))
      /\ metadata record "max" = Ok (PInt 119)
      /\ metadata record "min" = Ok (PInt 68)
      /\ metadata record "len" = Ok (PInt 18))
  /\ (exists l sequence d w',
        _custom_range (dict_generator 100) 0 5 2 = Ok l
        /\ _create_sequence (dict_generator 100) 0 5 2 = Ok sequence
        /\ encode JSONSerializer sequence "dict" "range" (strftime an_instant)
             "DictGenerator" 0 4 an_instant = Ok d
        /\ generate_sequence (dict_generator 100) "json" 0 (Some 5) 2 an_instant
             no_files = (Ok tt, w')
        /\ body_at JSON_PATH w' = Text d
        /\ In 4 l
        /\ (forall x, In x l -> x <= 4)).
Proof.
  split.
  - apply (proj1 range_boundary "xml" 100 an_instant no_files).
    + left. reflexivity.
    + lia.
    + reflexivity.
  - apply (proj1 (proj2 range_boundary) (dict_generator 100) "json" 0 (Some 5) 2
             an_instant no_files).
    + right. reflexivity.
    + reflexivity.
    + lia.
    + cbn. lia.
    + vm_compute. reflexivity.
Defined.

(** ** Calls that find no reusable record *)

Lemma lookup_misses (self : generator) (data_format data_type : string)
    (min_el max_el step : Z) (now : datetime) (w : world) :
  supported data_format ->
  no_reusable_record self data_format data_type min_el max_el step w ->
  fst (stored_sequence self (serializer_of data_format) (target data_format)
         data_type min_el max_el step (opened data_format now w)) = Ok None.
Proof.
  intros H [Hb | (data & Hd & Hc)].
  - now rewrite (stored_sequence_blank _ _ _ _ _ _ _ _ _
                   (blank_opened _ now _ H Hb) eq_refl).
  - eapply stored_sequence_miss; [now apply opened_target| |exact Hc].
    cbn [content]. unfold persisted in Hd.
    now rewrite (decode_any_world _ _ _ w).
Qed.





(** An unsupported format raises before any file is touched. *)
Lemma unsupported_format_raises (self : generator) (data_format : string)
    (start : Z) (stop : option Z) (step : Z) (now : datetime) (w : world) :
  ~ supported data_format ->
  fst (generate_sequence self data_format start stop step now w)
  = Raise unsupported_format
  /\ same_files w (snd (generate_sequence self data_format start stop step now w))
  /\ stdout (snd (generate_sequence self data_format start stop step now w)) = stdout w.
Proof.
  intros H. unfold supported in H.
  assert (Hx : (data_format =? "xml")%string = false)
    by (apply String.eqb_neq; tauto).
  assert (Hj : (data_format =? "json")%string = false)
    by (apply String.eqb_neq; tauto).
  unfold generate_sequence, remove_unsupported_file, get_serializer, bind, lift,
    path_exists, ret.
  rewrite Hx, Hj, !andb_false_r. cbn. repeat split.
Qed.

(** ** C6: the length guard and the text of the file *)




(** ** Reading back what a call wrote *)

Lemma get_sequence_of_target (self : generator) (data_format : string) (w : world) :
  supported data_format ->
  blank (target data_format) w = false ->
  file_at (other (target data_format)) w = None ->
  BaseGenerator.get_sequence self w = BaseGenerator.read_back self data_format w.
Proof.
  intros H Hb Ho.
  unfold BaseGenerator.get_sequence, exists_nonempty, bind, path_exists, nonempty, ret.
  unfold blank, body_at in Hb.
  destruct w as [m j x out].
  supported_cases H;
    cbn [target other String.eqb Ascii.eqb Bool.eqb file_at json_file xml_file] in *.
  - destruct x as [[c b]|]; [|discriminate].
    cbn [content] in *. destruct b; [discriminate| |]; reflexivity.
  - subst x. destruct j as [[c b]|]; [|discriminate].
    cbn [content] in *. destruct b; [discriminate| |]; reflexivity.
Qed.



(** ** C5: Fibonacci on the generators *)

Lemma generate_fibonacci_computed (self : generator) (data_format : string)
    (first second length : Z) (now : datetime) (w : world) :
  supported data_format ->
  length < max_length self ->
  no_reusable_record self data_format "fibonacci" first
    (fibonacci first second (length - 1)) 0 w ->
  exists w3,
    same_files (opened data_format now w) w3
    /\ generate_fibonacci self data_format first second length now w =
       match _generate_fibonacci self (fib_sequence first second length) with
       | Raise e => (Raise e, w3)
       | Ok sequence =>
           match int_of_max sequence with
           | Raise e => (Raise e, w3)
           | Ok max_element =>
               match encode (serializer_of data_format) sequence
                       (_sequence_type self) "fibonacci"
                       (strftime (created_at data_format now w)) (repr self)
                       first max_element now with
               | Raise e => (Raise e, w3)
               | Ok d => (Ok tt, rewritten data_format d now w3)
               end
           end
       end.
Proof.
  intros H Hlen Hmiss.
  pose proof (lookup_misses self data_format "fibonacci" first
                (fibonacci first second (length - 1)) 0 now w H Hmiss) as Hlook.
  pose proof (stored_sequence_same_files self data_format "fibonacci" first
                (fibonacci first second (length - 1)) 0
                (opened data_format now w)) as Hsame.
  eexists. split; [exact Hsame|].
  rewrite (generate_fibonacci_eq _ _ _ _ _ _ _ H).
  unfold check_seq_length. apply Z.ltb_lt in Hlen. rewrite Hlen.
  cbv zeta. rewrite Hlook. reflexivity.
Qed.




(** ** C8: one format at a time *)

(** C8, as stated, fails for reading: [get_sequence] removes no file. With
    a record in [data.xml], it reads that record and an existing
    [data.json], empty or not, is still there afterwards. *)
Lemma reading_removes_no_file :
  get_sequence (list_generator 100) xml_and_empty_json
  = (Ok (Plain (PList [PInt 1; PInt 2])), xml_and_empty_json)
  /\ json_file xml_and_empty_json <> None
  /\ get_sequence (list_generator 100) both_files
     = (Ok (Plain (PList [PInt 1; PInt 2])), both_files)
  /\ exclusive both_files = false.
Proof.
  repeat split; try (vm_compute; reflexivity). discriminate.
Qed.

Lemma ends_in_exclusive (data_format : string) (now : datetime) (w w' : world) :
  supported data_format -> ends_in data_format now w w' -> exclusive w' = true.
Proof.
  intros H Hends. apply (ends_in_other_removed _ _ _ _ H) in Hends.
  unfold exclusive, blank, body_at.
  supported_cases H; cbn [target other String.eqb Ascii.eqb Bool.eqb] in Hends;
    rewrite Hends; [reflexivity|apply orb_true_r].
Qed.

(** C8 (amended). A generation call in a supported format removes the file
    of the other format: when it ends, with a result or with an exception,
    that file does not exist, so at most one of the two files has text. In
    particular after [generate_sequence('xml', 0, 50)] there is no
    [data.json], and after a following [generate_sequence('json', 0, 50)]
    there is no [data.xml]; with a limit above 50 and no text in [data.xml]
    before, both calls succeed. [get_sequence] removes and writes nothing: it
    leaves both files as they are, and so keeps the invariant when it held
    before. *)
Theorem format_exclusivity :
  (forall self data_format start stop step now w,
      supported data_format ->
      let w' := snd (generate_sequence self data_format start stop step now w) in
      file_at (other (target data_format)) w' = None /\ exclusive w' = true)
  /\ (forall self data_format first second length now w,
        supported data_format ->
        let w' := snd (generate_fibonacci self data_format first second length now w) in
        file_at (other (target data_format)) w' = None /\ exclusive w' = true)
  /\ (forall self w,
        same_files w (snd (get_sequence self w))
        /\ exclusive (snd (get_sequence self w)) = exclusive w)
  /\ (forall self now later w,
        let w1 := snd (generate_sequence self "xml" 0 (Some 50) 1 now w) in
        let w2 := snd (generate_sequence self "json" 0 (Some 50) 1 later w1) in
        file_at JSON_PATH w1 = None /\ file_at XML_PATH w2 = None)
  /\ (forall self now later w,
        50 < max_length self ->
        blank XML_PATH w = true ->
        let first_run := generate_sequence self "xml" 0 (Some 50) 1 now w in
        let second_run :=
          generate_sequence self "json" 0 (Some 50) 1 later (snd first_run) in
        fst first_run = Ok tt
        /\ blank XML_PATH (snd first_run) = false
        /\ fst second_run = Ok tt
        /\ blank JSON_PATH (snd second_run) = false).
Proof.
  assert (Gen : forall self data_format start stop step now w,
             supported data_format ->
             let w' := snd (generate_sequence self data_format start stop step now w) in
             file_at (other (target data_format)) w' = None /\ exclusive w' = true).
  { intros self data_format start stop step now w H w'.
    pose proof (generate_sequence_ends_in self data_format start stop step now w H)
      as Hends.
    split; [eapply ends_in_other_removed|eapply ends_in_exclusive]; eassumption. }
  assert (Fresh : forall self data_format now w,
             supported data_format ->
             50 < max_length self ->
             blank (target data_format) w = true ->
             let run := generate_sequence self data_format 0 (Some 50) 1 now w in
             fst run = Ok tt /\ blank (target data_format) (snd run) = false).
  { intros self data_format now w H Hlimit Hb run.
    destruct (fresh_range_written self data_format 0 (Some 50) 1 now w H Hb
                ltac:(lia) ltac:(cbn; lia) ltac:(exact Hlimit))
      as (l & sequence & d & w' & _ & _ & _ & Hrun & Hbody & _).
    subst run. rewrite Hrun. cbn [fst snd]. unfold blank. now rewrite Hbody. }
  repeat apply conj.
  - exact Gen.
  - intros self data_format first second length now w H w'.
    pose proof (generate_fibonacci_ends_in self data_format first second length now w H)
      as Hends.
    split; [eapply ends_in_other_removed|eapply ends_in_exclusive]; eassumption.
  - intros self w. pose proof (get_sequence_same_files self w) as Hsame.
    split; [exact Hsame|].
    unfold exclusive, blank, body_at. now rewrite !(same_files_at _ _ _ Hsame).
  - intros self now later w w1 w2. split.
    + exact (proj1 (Gen self "xml" 0 (Some 50) 1 now w (or_introl eq_refl))).
    + exact (proj1 (Gen self "json" 0 (Some 50) 1 later w1 (or_intror eq_refl))).
  - intros self now later w Hlimit Hb first_run second_run.
    destruct (Fresh self "xml" now w (or_introl eq_refl) Hlimit Hb) as [H1 H2].
    split; [exact H1|]. split; [exact H2|].
    apply (Fresh self "json" later (snd first_run) (or_intror eq_refl) Hlimit).
    pose proof (proj1 (Gen self "xml" 0 (Some 50) 1 now w (or_introl eq_refl))) as Hnone.
    unfold blank, body_at. cbn [target other String.eqb Ascii.eqb Bool.eqb] in *.
    fold first_run in Hnone. now rewrite Hnone.
Qed.

Lemma format_exclusivity_witness :
  (let first_run := generate_sequence (tuple_generator 100) "xml" 0 (Some 50) 1
                      an_instant only_json in
   let second_run := generate_sequence (tuple_generator 100) "json" 0 (Some 50) 1
                       a_later_instant (snd first_run) in
   fst first_run = Ok tt
   /\ blank XML_PATH (snd first_run) = false
   /\ fst second_run = Ok tt
   /\ blank JSON_PATH (snd second_run) = false)
  /\ (let w1 := snd (generate_sequence (tuple_generator 100) "xml" 0 (Some 50) 1
                       an_instant only_json) in
      let w2 := snd (generate_sequence (tuple_generator 100) "json" 0 (Some 50) 1
                       a_later_instant w1) in
      file_at JSON_PATH w1 = None /\ file_at XML_PATH w2 = None).
Proof.
  split.
  - apply (proj2 (proj2 (proj2 (proj2 format_exclusivity))) (tuple_generator 100)
             an_instant a_later_instant only_json).
    + cbn. lia.
    + reflexivity.
  - apply (proj1 (proj2 (proj2 (proj2 format_exclusivity))) (tuple_generator 100)
             an_instant a_later_instant only_json).
Defined.

(** ** The Fibonacci terms *)

Lemma term_fst (first second : Z) (k : nat) :
  term first second (S k) = fst (fib_pair first second k).
Proof.
  unfold term, fibonacci, fib_pair.
  now replace (Z.to_nat (Z.of_nat (S k) - 1)) with k by lia.
Qed.

Lemma fibonacci_term (first second n : Z) :
  0 <= n -> fibonacci first second n = term first second (Z.to_nat n).
Proof.
  intros Hn. unfold term. now rewrite Z2Nat.id.
Qed.

Section GrowingSeeds.

Variables first second : Z.
Hypothesis first_positive : 1 <= first.
Hypothesis seeds_ordered : first <= second.

Lemma fib_pair_ordered (k : nat) :
  1 <= fst (fib_pair first second k) <= snd (fib_pair first second k).
Proof.
  induction k as [|k IH]; [cbn; lia|].
  unfold fib_pair in *. rewrite Nat.iter_succ. cbn [fst snd]. lia.
Qed.

Lemma term_positive (k : nat) : 1 <= term first second (S k).
Proof.
  rewrite term_fst. apply fib_pair_ordered.
Qed.

Lemma term_nondecreasing (k : nat) :
  term first second (S k) <= term first second (S (S k)).
Proof.
  rewrite !term_fst. pose proof (fib_pair_ordered k).
  unfold fib_pair in *. rewrite Nat.iter_succ. cbn [fst snd]. lia.
Qed.

Lemma term_increasing (k : nat) :
  term first second (S (S k)) < term first second (S (S (S k))).
Proof.
  rewrite !term_fst. pose proof (fib_pair_ordered k).
  unfold fib_pair in *. rewrite !Nat.iter_succ. cbn [fst snd]. lia.
Qed.

Lemma fold_max_terms (m a : nat) :
  fold_left Z.max (map (term first second) (seq (S (S a)) m)) (term first second (S a))
  = term first second (S a + m).
Proof.
  revert a. induction m as [|m IH]; intros a.
  - cbn [seq map fold_left]. f_equal. lia.
  - cbn [seq map fold_left].
    rewrite Z.max_r by apply term_nondecreasing.
    rewrite IH. f_equal. lia.
Qed.

End GrowingSeeds.

Lemma seq_from (a m : nat) : map (fun k => (a + k)%nat) (seq 0 m) = seq a m.
Proof.
  revert a. induction m as [|m IH]; intros a; [reflexivity|].
  cbn [seq map]. rewrite Nat.add_0_r. f_equal.
  rewrite <- seq_shift, map_map, <- (IH (S a)).
  apply map_ext. intros k. lia.
Qed.

(** The terms a miss computes are the first [length] terms. *)
Lemma fib_sequence_terms (first second length : Z) :
  2 <= length ->
  fib_sequence first second length
  = map (term first second) (seq 1 (Z.to_nat length)).
Proof.
  intros Hlen. unfold fib_sequence, fib_indices.
  replace (Z.to_nat length) with (S (S (Z.to_nat (length - 2)))) by lia.
  cbn [seq map app].
  apply f_equal2; [reflexivity|]. apply f_equal2; [reflexivity|].
  rewrite map_map, <- (seq_from 3). rewrite map_map.
  apply map_ext. intros k. unfold term. f_equal. lia.
Qed.

Lemma int_of_max_ints (z1 z2 : Z) (zs : list Z) :
  int_of_max (PList (PInt z1 :: PInt z2 :: map PInt zs))
  = Ok (fold_left Z.max (z2 :: zs) z1).
Proof.
  unfold int_of_max. cbn [py_iter rbind map].
  assert (H : forall l, all_some (map as_int (map PInt l)) = Some l).
  { induction l as [|z l IH]; cbn; [reflexivity|]. now rewrite IH. }
  cbn [as_int all_some]. now rewrite H.
Qed.

Lemma int_of_max_fib_sequence (first second length : Z) :
  1 <= first -> first <= second -> 2 <= length ->
  int_of_max (PList (map PInt (fib_sequence first second length)))
  = Ok (fibonacci first second length).
Proof.
  intros H1 H2 Hlen. rewrite (fib_sequence_terms _ _ _ Hlen).
  replace (Z.to_nat length) with (S (S (Z.to_nat (length - 2)))) by lia.
  cbn [seq map]. rewrite int_of_max_ints.
  cbn [fold_left]. rewrite Z.max_r by now apply term_nondecreasing.
  rewrite (fold_max_terms first second H1 H2 (Z.to_nat (length - 2)) 1).
  rewrite (fibonacci_term first second length ltac:(lia)).
  f_equal. f_equal. lia.
Qed.

Lemma fibonacci_last_step (first second length : Z) :
  1 <= first -> first <= second -> 3 <= length ->
  1 <= fibonacci first second (length - 1) < fibonacci first second length.
Proof.
  intros H1 H2 Hlen.
  rewrite (fibonacci_term first second length ltac:(lia)).
  rewrite (fibonacci_term first second (length - 1) ltac:(lia)).
  replace (Z.to_nat length) with (S (S (S (Z.to_nat (length - 3))))) by lia.
  replace (Z.to_nat (length - 1)) with (S (S (Z.to_nat (length - 3)))) by lia.
  split; [now apply term_positive|now apply term_increasing].
Qed.

Lemma valid_int_list (s_type : string) (l : list Z) :
  (s_type =? "dict")%string = false ->
  valid_sequence s_type (PList (map PInt l)) = true.
Proof.
  intros H. cbn. rewrite H. cbn.
  induction l as [|z l IH]; [reflexivity|exact IH].
Qed.

(** A Fibonacci call on a list or tuple generator that finds no reusable
    record: the record it leaves. *)
Lemma computed_fibonacci_record (self : generator) (data_format : string)
    (first second length : Z) (now : datetime) (w : world) :
  class self = ListGenerator \/ class self = TupleGenerator ->
  supported data_format ->
  1 <= first -> first <= second -> 2 <= length -> length < max_length self ->
  no_reusable_record self data_format "fibonacci" first
    (fibonacci first second (length - 1)) 0 w ->
  exists w1,
    generate_fibonacci self data_format first second length now w = (Ok tt, w1)
    /\ persisted data_format w1
       = Ok (Some (record_value
                     (PList (map PInt (fib_sequence first second length)))
                     (_sequence_type self) "fibonacci"
                     (strftime (created_at data_format now w)) (strftime now)
                     (repr self)
                     (len_of (PList (map PInt (fib_sequence first second length))))
                     first (fibonacci first second length))).
Proof.
  intros Hcls H H1 H2 Hlen Hlimit Hmiss.
  destruct (generate_fibonacci_computed self data_format first second length now w
              H Hlimit Hmiss) as (w3 & Hsame & Hrun).
  assert (Hgen : _generate_fibonacci self (fib_sequence first second length)
                 = Ok (PList (map PInt (fib_sequence first second length))))
    by (unfold _generate_fibonacci; destruct Hcls as [-> | ->]; reflexivity).
  rewrite Hgen, (int_of_max_fib_sequence _ _ _ H1 H2 Hlen) in Hrun.
  destruct (encode_container data_format
              (PList (map PInt (fib_sequence first second length)))
              (_sequence_type self) "fibonacci"
              (strftime (created_at data_format now w)) (repr self) first
              (fibonacci first second length) now eq_refl) as [d Hd].
  rewrite Hd in Hrun. eexists. split; [exact Hrun|].
  destruct (written_body data_format d now w w3 H Hsame) as (Hbody & _ & _).
  assert (Hty : (_sequence_type self =? "dict")%string = false)
    by (unfold _sequence_type; destruct Hcls as [-> | ->]; reflexivity).
  apply (persisted_after_write data_format _ _ _ _ _ _ _ now _ d H);
    try assumption; try apply strftime_plain.
  - now apply valid_int_list.
  - reflexivity.
  - unfold _sequence_type; destruct Hcls as [-> | ->]; reflexivity.
  - reflexivity.
  - unfold repr; destruct Hcls as [-> | ->]; reflexivity.
  - intros _.
    rewrite (fibonacci_term first second length ltac:(lia)).
    replace (Z.to_nat length) with (S (Z.to_nat (length - 1))) by lia.
    pose proof (term_positive first second H1 H2 (Z.to_nat (length - 1))). lia.
Qed.

(** ** C10: the Fibonacci cache *)

(** C10, as stated, fails when the previous identical call itself reused a
    stored record: after [generate_fibonacci('json', 2, 3, 4)], the call
    [generate_fibonacci('json', 2, 3, 5)] finds [max = 8], the fourth term,
    reuses the four stored terms and writes them back; the identical call
    after it finds the same record, the check holds again and the four
    terms are reused again. *)
Lemma fibonacci_cache_hits_after_shorter_run :
  let w1 := snd (generate_fibonacci (list_generator 100) "json" 2 3 4 an_instant
                   no_files) in
  let previous := generate_fibonacci (list_generator 100) "json" 2 3 5 an_instant w1 in
  let w2 := snd previous in
  fst previous = Ok tt
  /\ (exists record,
        persisted "json" w2 = Ok (Some record)
        /\ check_equal_sequences (list_generator 100) "fibonacci" (Some record) 2
             (fibonacci 2 3 (5 - 1)) 0 = Ok true)
  /\ fst (stored_sequence (list_generator 100) JSONSerializer JSON_PATH "fibonacci" 2
            (fibonacci 2 3 (5 - 1)) 0 (opened "json" a_later_instant w2))
     = Ok (Some (PList [PInt 2; PInt 3; PInt 5; PInt 8])).
Proof.
  cbv zeta. split; [vm_compute; reflexivity|]. split.
  - eexists. split; vm_compute; reflexivity.
  - vm_compute. reflexivity.
Qed.

(** C10 (amended). For every [first >= 1], [second >= first] and
    [length >= 3] below the limit, on a list or tuple generator: when the
    target file holds the record that an identical previous call computed
    (that call found no reusable record itself), the stored [max] is the
    [length]-th term, the check compares it with the [(length - 1)]-th term
    and answers false, and the call computes the sequence again. *)
Theorem fibonacci_cache_never_hits (self : generator) (data_format : string)
    (first second length : Z) (now later : datetime) (w : world) :
  class self = ListGenerator \/ class self = TupleGenerator ->
  supported data_format ->
  1 <= first -> first <= second -> 3 <= length -> length < max_length self ->
  no_reusable_record self data_format "fibonacci" first
    (fibonacci first second (length - 1)) 0 w ->
  exists w1 w2 record again,
    generate_fibonacci self data_format first second length now w = (Ok tt, w1)
    /\ persisted data_format w1 = Ok (Some record)
    /\ py_getitem record "sequence"
       = Ok (PList (map PInt (fib_sequence first second length)))
    /\ metadata record "max" = Ok (PInt (fibonacci first second length))
    /\ fibonacci first second (length - 1) < fibonacci first second length
    /\ check_equal_sequences self "fibonacci" (Some record) first
         (fibonacci first second (length - 1)) 0 = Ok false
    /\ fst (stored_sequence self (serializer_of data_format) (target data_format)
              "fibonacci" first (fibonacci first second (length - 1)) 0
              (opened data_format later w1)) = Ok None
    /\ generate_fibonacci self data_format first second length later w1 = (Ok tt, w2)
    /\ persisted data_format w2 = Ok (Some again)
    /\ py_getitem again "sequence"
       = Ok (PList (map PInt (fib_sequence first second length))).
Proof.
  intros Hcls H H1 H2 Hlen Hlimit Hmiss.
  destruct (computed_fibonacci_record self data_format first second length now w
              Hcls H H1 H2 ltac:(lia) Hlimit Hmiss) as (w1 & Hrun1 & Hp1).
  pose proof (fibonacci_last_step first second length H1 H2 Hlen) as [_ Hstep].
  set (record := record_value _ _ _ _ _ _ _ _ _) in Hp1.
  assert (Hcheck : check_equal_sequences self "fibonacci" (Some record) first
                     (fibonacci first second (length - 1)) 0 = Ok false).
  { unfold record. rewrite check_equal_sequences_record.
    cbn [String.eqb Ascii.eqb Bool.eqb andb].
    replace (fibonacci first second length =? fibonacci first second (length - 1))
      with false by (symmetry; apply Z.eqb_neq; lia).
    cbn [andb]. now rewrite !andb_false_r. }
  assert (Hmiss1 : no_reusable_record self data_format "fibonacci" first
                     (fibonacci first second (length - 1)) 0 w1)
    by (right; exists (Some record); split; assumption).
  destruct (computed_fibonacci_record self data_format first second length later w1
              Hcls H H1 H2 ltac:(lia) Hlimit Hmiss1) as (w2 & Hrun2 & Hp2).
  exists w1, w2, record. eexists.
  repeat split; try eassumption; try reflexivity.
  now apply lookup_misses.
Qed.

Lemma fibonacci_cache_never_hits_witness :
  exists w1 w2 record again,
    generate_fibonacci (tuple_generator 100) "xml" 2 3 5 an_instant only_json
    = (Ok tt, w1)
    /\ persisted "xml" w1 = Ok (Some record)
    /\ py_getitem record "sequence" = Ok (PList (map PInt (fib_sequence 2 3 5)))
    /\ metadata record "max" = Ok (PInt (fibonacci 2 3 5))
    /\ fibonacci 2 3 (5 - 1) < fibonacci 2 3 5
    /\ check_equal_sequences (tuple_generator 100) "fibonacci" (Some record) 2
         (fibonacci 2 3 (5 - 1)) 0 = Ok false
    /\ fst (stored_sequence (tuple_generator 100) (serializer_of "xml") (target "xml")
              "fibonacci" 2 (fibonacci 2 3 (5 - 1)) 0
              (opened "xml" a_later_instant w1)) = Ok None
    /\ generate_fibonacci (tuple_generator 100) "xml" 2 3 5 a_later_instant w1
       = (Ok tt, w2)
    /\ persisted "xml" w2 = Ok (Some again)
    /\ py_getitem again "sequence" = Ok (PList (map PInt (fib_sequence 2 3 5))).
Proof.
  apply (fibonacci_cache_never_hits (tuple_generator 100) "xml" 2 3 5 an_instant
           a_later_instant only_json).
  - right. reflexivity.
  - left. reflexivity.
  - lia.
  - lia.
  - lia.
  - cbn. lia.
  - left. reflexivity.
Defined.

(** ** C1: a stored record that satisfies the request is reused *)

Lemma persisted_has_text (data_format : string) (w : world) (record : pyval) :
  persisted data_format w = Ok (Some record) ->
  body_at (target data_format) w <> Empty.
Proof.
  unfold persisted, serializer_of. intros H Hb. rewrite Hb in H.
  destruct (data_format =? "xml")%string; discriminate.
Qed.

Lemma reuse_of_stored_record (self : generator) (data_format : string)
    (start : Z) (stop : option Z) (step m : Z) (now : datetime) (w : world)
    (data stored s_type seq_type : pyval) (len mn mx : Z) :
  supported data_format ->
  persisted data_format w = Ok (Some data) ->
  record_fields data stored s_type seq_type len mn mx ->
  is_container stored = true ->
  max_in_range start stop step = Ok m ->
  _sequence_type_check self s_type = true ->
  eq_str seq_type "range" = true ->
  mn = range_start start stop ->
  mx = m ->
  implied_step len mn mx = step ->
  exists d w',
    encode (serializer_of data_format) stored (_sequence_type self) "range"
      (strftime (created_at data_format now w)) (repr self)
      (range_start start stop) m now = Ok d
    /\ fst (stored_sequence self (serializer_of data_format) (target data_format)
              "range" (range_start start stop) m step (opened data_format now w))
       = Ok (Some stored)
    /\ generate_sequence self data_format start stop step now w = (Ok tt, w')
    /\ body_at (target data_format) w' = Text d
    /\ (forall f, file_at (target data_format) w' = Some f ->
          ctime f = match getctime_reports w with
                    | Creation => created_at data_format now w
                    | LastChange => now
                    end).
Proof.
  intros H Hp Hfields Hcont Hmax Hty Hst -> -> Hstep.
  pose proof (persisted_has_text _ _ _ Hp) as Htext.
  assert (Hnonzero : step <> 0).
  { intros ->. unfold max_in_range in Hmax.
    destruct stop as [s|]; cbn in Hmax; [destruct (s <? start)|]; discriminate. }
  assert (Hlen : (len =? 1) = false).
  { unfold implied_step in Hstep. destruct (len =? 1); [congruence|reflexivity]. }
  unfold implied_step in Hstep. rewrite Hlen in Hstep.
  assert (Hcheck : check_equal_sequences self "range" (Some data)
                     (range_start start stop) m step = Ok true).
  { rewrite (check_equal_sequences_fields _ _ _ _ _ _ _ _ _ _ _ Hfields).
    rewrite Hlen, Hty, Hst, Hstep. now rewrite !Z.eqb_refl. }
  pose proof (opened_target data_format now w H) as Hopen.
  assert (Hhit := stored_sequence_hit self data_format "range"
                    (range_start start stop) m step (opened data_format now w)
                    _ data stored Hopen Htext).
  cbn [content] in Hhit. unfold persisted in Hp.
  rewrite (decode_any_world _ _ _ w) in Hhit.
  specialize (Hhit Hp Hcheck (proj1 Hfields)).
  pose proof (stored_sequence_same_files self data_format "range"
                (range_start start stop) m step (opened data_format now w)) as Hsame.
  destruct (encode_container data_format stored (_sequence_type self) "range"
              (strftime (created_at data_format now w)) (repr self)
              (range_start start stop) m now Hcont) as [d Hd].
  exists d. eexists. split; [exact Hd|]. split; [now rewrite Hhit|].
  rewrite (generate_sequence_eq _ _ _ _ _ _ _ H), Hmax. cbv zeta.
  rewrite Hhit in *. cbn [fst snd stored_or] in *. rewrite Hd.
  split; [reflexivity|].
  destruct (written_body data_format d now w _ H Hsame) as (Hbody & _ & Hctime).
  split; assumption.
Qed.

Lemma fresh_range_ctime (self : generator) (data_format : string)
    (start : Z) (stop : option Z) (step : Z) (now : datetime) (w : world) (f : file) :
  supported data_format ->
  blank (target data_format) w = true ->
  0 < step ->
  range_start start stop <= range_stop start stop ->
  fst (generate_sequence self data_format start stop step now w) = Ok tt ->
  file_at (target data_format)
    (snd (generate_sequence self data_format start stop step now w)) = Some f ->
  ctime f = match getctime_reports w with
            | Creation => created_at data_format now w
            | LastChange => now
            end.
Proof.
  intros H Hb Hstep Hle.
  rewrite (generate_sequence_blank _ _ _ _ _ _ _ H Hb Hstep Hle).
  destruct (_create_sequence _ _ _ _) as [sequence|e]; [|discriminate].
  destruct (encode _ _ _ _ _ _ _ _ _) as [d|e]; [|discriminate].
  cbn [fst snd]. intros _.
  now apply (written_body data_format d now w _ H (same_files_refl _)).
Qed.

Lemma create_68_121_3 (cls : generator_class) (limit : Z) :
  18 < limit ->
  _create_sequence {| class := cls; max_length := limit |} 68 121 3
  = Ok (sequence_68_121_3 cls).
Proof.
  intros Hlimit. unfold _create_sequence.
  rewrite (custom_range_run _ 68 121 3 ltac:(lia) ltac:(lia)).
  change (range_count 68 121 3) with 18. cbn [max_length].
  apply Z.ltb_lt in Hlimit. rewrite Hlimit. cbn [rbind class].
  destruct cls; vm_compute; reflexivity.
Qed.

(** C1. When the target file holds a record that satisfies the five
    conditions for a range request (its type is accepted by the generator,
    its seq_type is ["range"], its min and max are the requested start and
    the computed maximum, its implied step is the requested step),
    [generate_sequence] finds it, encodes the stored sequence and writes
    that: nothing is computed, whatever the limit. In particular
    [generate_sequence(fmt, 68, 121, 3)] twice in a row, on any generator
    with a limit above 18 and starting without text in the target file,
    writes the same sequence both times, the second time the stored one.
    The [date_created] of the first record is the stamp [getctime] gives
    for the opened file; that of the second is the stamp it gives after the
    first call wrote, which is the time of the first call where [getctime]
    reports the last change, as on POSIX. The two are equal when the first
    call created the file or [getctime] reports the creation of the file,
    and they differ for a file that was there before on POSIX: with an
    empty [data.json] from 08:00, the calls of 09:05 and 09:07 record
    08:00 and then 09:05. *)
Theorem cache_hit_date_created :
  (forall self data_format start stop step m now w
          data stored s_type seq_type len mn mx,
      supported data_format ->
      persisted data_format w = Ok (Some data) ->
      record_fields data stored s_type seq_type len mn mx ->
      is_container stored = true ->
      max_in_range start stop step = Ok m ->
      _sequence_type_check self s_type = true ->
      eq_str seq_type "range" = true ->
      mn = range_start start stop ->
      mx = m ->
      implied_step len mn mx = step ->
      exists d w',
        encode (serializer_of data_format) stored (_sequence_type self) "range"
          (strftime (created_at data_format now w)) (repr self)
          (range_start start stop) m now = Ok d
        /\ fst (stored_sequence self (serializer_of data_format)
                  (target data_format) "range" (range_start start stop) m step
                  (opened data_format now w)) = Ok (Some stored)
        /\ generate_sequence self data_format start stop step now w = (Ok tt, w')
        /\ body_at (target data_format) w' = Text d)
  /\ (forall cls limit data_format now later w,
        supported data_format ->
        18 < limit ->
        blank (target data_format) w = true ->
        let self := {| class := cls; max_length := limit |} in
        exists w1 w2 first_record second_record,
          generate_sequence self data_format 68 (Some 121) 3 now w = (Ok tt, w1)
          /\ generate_sequence self data_format 68 (Some 121) 3 later w1 = (Ok tt, w2)
          /\ persisted data_format w1 = Ok (Some first_record)
          /\ persisted data_format w2 = Ok (Some second_record)
          /\ py_getitem first_record "sequence" = Ok (sequence_68_121_3 cls)
          /\ py_getitem second_record "sequence" = Ok (sequence_68_121_3 cls)
          /\ fst (stored_sequence self (serializer_of data_format)
                    (target data_format) "range" 68 119 3
                    (opened data_format later w1))
             = Ok (Some (sequence_68_121_3 cls))
          /\ metadata first_record "date_created"
             = Ok (PStr (strftime (created_at data_format now w)))
          /\ metadata second_record "date_created"
             = Ok (PStr (strftime (match getctime_reports w with
                                   | Creation => created_at data_format now w
                                   | LastChange => now
                                   end))))
  /\ (forall cls limit data_format now later w,
        supported data_format ->
        18 < limit ->
        blank (target data_format) w = true ->
        file_at (target data_format) w = None \/ getctime_reports w = Creation ->
        let self := {| class := cls; max_length := limit |} in
        exists w1 w2 first_record second_record,
          generate_sequence self data_format 68 (Some 121) 3 now w = (Ok tt, w1)
          /\ generate_sequence self data_format 68 (Some 121) 3 later w1 = (Ok tt, w2)
          /\ persisted data_format w1 = Ok (Some first_record)
          /\ persisted data_format w2 = Ok (Some second_record)
          /\ metadata second_record "date_created"
             = metadata first_record "date_created")
  /\ (exists w1 w2 first_record second_record,
        generate_sequence (dict_generator 100) "json" 68 (Some 121) 3
          an_instant posix_empty_json = (Ok tt, w1)
        /\ generate_sequence (dict_generator 100) "json" 68 (Some 121) 3
             a_later_instant w1 = (Ok tt, w2)
        /\ persisted "json" w1 = Ok (Some first_record)
        /\ persisted "json" w2 = Ok (Some second_record)
        /\ py_getitem first_record "sequence"
           = Ok (sequence_68_121_3 DictGenerator)
        /\ py_getitem second_record "sequence"
           = Ok (sequence_68_121_3 DictGenerator)
        /\ metadata first_record "date_created" = Ok (PStr "03.11.2026 08:00")
        /\ metadata second_record "date_created" = Ok (PStr "03.11.2026 09:05")).
Proof.
  assert (Htwo : forall cls limit data_format now later w,
             supported data_format ->
             18 < limit ->
             blank (target data_format) w = true ->
             let self := {| class := cls; max_length := limit |} in
             exists w1 w2 first_record second_record,
               generate_sequence self data_format 68 (Some 121) 3 now w = (Ok tt, w1)
               /\ generate_sequence self data_format 68 (Some 121) 3 later w1
                  = (Ok tt, w2)
               /\ persisted data_format w1 = Ok (Some first_record)
               /\ persisted data_format w2 = Ok (Some second_record)
               /\ py_getitem first_record "sequence" = Ok (sequence_68_121_3 cls)
               /\ py_getitem second_record "sequence" = Ok (sequence_68_121_3 cls)
               /\ fst (stored_sequence self (serializer_of data_format)
                         (target data_format) "range" 68 119 3
                         (opened data_format later w1))
                  = Ok (Some (sequence_68_121_3 cls))
               /\ metadata first_record "date_created"
                  = Ok (PStr (strftime (created_at data_format now w)))
               /\ metadata second_record "date_created"
                  = Ok (PStr (strftime (match getctime_reports w with
                                        | Creation => created_at data_format now w
                                        | LastChange => now
                                        end)))).
  { intros cls limit data_format now later w H Hlimit Hb self.
    assert (Hvalid : valid_sequence (_sequence_type self) (sequence_68_121_3 cls) = true)
      by (destruct cls; vm_compute; reflexivity).
    assert (Htruthy : truthy (sequence_68_121_3 cls) = true) by now destruct cls.
    assert (Hcont : is_container (sequence_68_121_3 cls) = true) by now destruct cls.
    assert (Hlen : len_of (sequence_68_121_3 cls) = 18) by now destruct cls.
    assert (Hty : plain (_sequence_type self) = true) by now destruct cls.
    assert (Hau : plain (repr self) = true) by now destruct cls.
    assert (Hcheck : _sequence_type_check self (PStr (_sequence_type self)) = true)
      by now destruct cls.
    (* the first call computes *)
    destruct (fresh_range_written self data_format 68 (Some 121) 3 now w H Hb
                ltac:(lia) ltac:(cbn; lia)
                ltac:(change (range_count _ _ _) with 18; exact Hlimit))
      as (l & sequence & d & w1 & _ & Hseq & Hd & Hrun & Hbody & _).
    cbn [range_start range_stop] in *.
    unfold self in Hseq. rewrite (create_68_121_3 cls limit Hlimit) in Hseq.
    injection Hseq as <-.
    change (121 - 1 - (121 - 1 - 68) mod 3) with 119 in Hd.
    pose proof (persisted_after_write data_format (sequence_68_121_3 cls)
                  (_sequence_type self) "range"
                  (strftime (created_at data_format now w)) (repr self) 68 119
                  now w1 d H
                  Hvalid Htruthy Hty eq_refl (strftime_plain _) Hau
                  ltac:(intros _; discriminate) Hd Hbody) as Hp1.
    rewrite Hlen in Hp1.
    (* the second call reuses *)
    destruct (reuse_of_stored_record self data_format 68 (Some 121) 3 119 later w1
                _ (sequence_68_121_3 cls) (PStr (_sequence_type self)) (PStr "range")
                18 68 119 H Hp1 ltac:(repeat split) Hcont eq_refl Hcheck eq_refl
                eq_refl eq_refl eq_refl)
      as (d2 & w2 & Hd2 & Hlook & Hrun2 & Hbody2 & _).
    cbn [range_start] in *.
    pose proof (persisted_after_write data_format (sequence_68_121_3 cls)
                  (_sequence_type self) "range"
                  (strftime (created_at data_format later w1)) (repr self) 68 119
                  later w2 d2 H
                  Hvalid Htruthy Hty eq_refl (strftime_plain _) Hau
                  ltac:(intros _; discriminate) Hd2 Hbody2) as Hp2.
    exists w1, w2. do 2 eexists.
    split; [exact Hrun|]. split; [exact Hrun2|].
    split; [exact Hp1|]. split; [exact Hp2|].
    split; [reflexivity|]. split; [reflexivity|]. split; [exact Hlook|].
    split; [reflexivity|].
    (* the stamp the second call reads *)
    cbn [metadata record_value py_getitem lookup String.eqb Ascii.eqb Bool.eqb rbind].
    do 3 f_equal.
    unfold created_at at 1. unfold body_at in Hbody.
    destruct (file_at (target data_format) w1) as [f|] eqn:Hf; [|discriminate].
    assert (Hw1 : w1 = snd (generate_sequence self data_format 68 (Some 121) 3 now w))
      by now rewrite Hrun.
    rewrite Hw1 in Hf.
    exact (fresh_range_ctime self data_format 68 (Some 121) 3 now w f H Hb
             ltac:(lia) ltac:(cbn; lia) ltac:(now rewrite Hrun) Hf). }
  split; [|split; [exact Htwo|split]].
  - intros * H Hp Hfields Hcont Hmax Hty Hst Hmn Hmx Hstep.
    destruct (reuse_of_stored_record self data_format start stop step m now w
                data stored s_type seq_type len mn mx
                H Hp Hfields Hcont Hmax Hty Hst Hmn Hmx Hstep)
      as (d & w' & Hd & Hlook & Hrun & Hbody & _).
    now exists d, w'.
  - intros cls limit data_format now later w H Hlimit Hb Hctime self.
    destruct (Htwo cls limit data_format now later w H Hlimit Hb)
      as (w1 & w2 & r1 & r2 & Hrun & Hrun2 & Hp1 & Hp2 & _ & _ & _ & Hd1 & Hd2).
    exists w1, w2, r1, r2. repeat split; try assumption.
    rewrite Hd1, Hd2. destruct Hctime as [Hnone | ->]; [|reflexivity].
    unfold created_at. rewrite Hnone. now destruct (getctime_reports w).
  - destruct (Htwo DictGenerator 100 "json" an_instant a_later_instant
                posix_empty_json (or_intror eq_refl) ltac:(lia) eq_refl)
      as (w1 & w2 & r1 & r2 & Hrun & Hrun2 & Hp1 & Hp2 & Hs1 & Hs2 & _ & Hd1 & Hd2).
    exists w1, w2, r1, r2. repeat split; assumption.
Qed.

Lemma cache_hit_date_created_witness :
  (exists d w',
      encode JSONSerializer (PList [PInt 1; PInt 2]) "tuple" "range"
        (strftime an_instant) "TupleGenerator" 1 2 a_later_instant = Ok d
      /\ fst (stored_sequence (tuple_generator 1) JSONSerializer JSON_PATH "range"
                1 2 1 (opened "json" a_later_instant only_json))
         = Ok (Some (PList [PInt 1; PInt 2]))
      /\ generate_sequence (tuple_generator 1) "json" 1 (Some 3) 1 a_later_instant
           only_json = (Ok tt, w')
      /\ body_at JSON_PATH w' = Text d)
  /\ (exists w1 w2 first_record second_record,
        generate_sequence (list_generator 100) "json" 68 (Some 121) 3 an_instant
          xml_and_empty_json = (Ok tt, w1)
        /\ generate_sequence (list_generator 100) "json" 68 (Some 121) 3
             a_later_instant w1 = (Ok tt, w2)
        /\ persisted "json" w1 = Ok (Some first_record)
        /\ persisted "json" w2 = Ok (Some second_record)
        /\ py_getitem first_record "sequence" = Ok (sequence_68_121_3 ListGenerator)
        /\ py_getitem second_record "sequence" = Ok (sequence_68_121_3 ListGenerator)
        /\ fst (stored_sequence (list_generator 100) JSONSerializer JSON_PATH "range"
                  68 119 3 (opened "json" a_later_instant w1))
           = Ok (Some (sequence_68_121_3 ListGenerator))
        /\ metadata first_record "date_created"
           = Ok (PStr (strftime (created_at "json" an_instant xml_and_empty_json)))
        /\ metadata second_record "date_created"
           = Ok (PStr (strftime an_instant)))
  /\ (exists w1 w2 first_record second_record,
        generate_sequence (dict_generator 100) "json" 68 (Some 121) 3 an_instant
          no_files = (Ok tt, w1)
        /\ generate_sequence (dict_generator 100) "json" 68 (Some 121) 3
             a_later_instant w1 = (Ok tt, w2)
        /\ persisted "json" w1 = Ok (Some first_record)
        /\ persisted "json" w2 = Ok (Some second_record)
        /\ metadata second_record "date_created"
           = metadata first_record "date_created").
Proof.
  split; [|split].
  - apply (proj1 cache_hit_date_created (tuple_generator 1) "json" 1
             (Some 3) 1 2 a_later_instant only_json
             (record_value (PList [PInt 1; PInt 2]) "list" "range"
                "03.11.2026 09:05" "03.11.2026 09:05" "ListGenerator" 2 1 2)
             (PList [PInt 1; PInt 2]) (PStr "list") (PStr "range") 2 1 2).
    + right. reflexivity.
    + reflexivity.
    + repeat split.
    + reflexivity.
    + reflexivity.
    + reflexivity.
    + reflexivity.
    + reflexivity.
    + reflexivity.
    + reflexivity.
  - apply (proj1 (proj2 cache_hit_date_created) ListGenerator 100 "json"
             an_instant a_later_instant xml_and_empty_json).
    + right. reflexivity.
    + lia.
    + reflexivity.
  - apply (proj1 (proj2 (proj2 cache_hit_date_created)) DictGenerator 100 "json"
             an_instant a_later_instant no_files).
    + right. reflexivity.
    + lia.
    + reflexivity.
    + left. reflexivity.
Defined.

(** * Further properties *)

(** ** The constructor *)

(** X1. The constructor accepts an argument exactly when it is an integer
    (a boolean counts as one) greater than 0, and then stores it as it is;
    any other argument raises [InvalidTypeError], whose message names the
    class and the type of the argument. So [0], [False], a negative integer,
    a string, a [datetime] and a function are rejected, and [True] is
    accepted. On an integer it agrees with [init]. *)
Theorem constructor_guard (cls : generator_class) :
  (forall x,
      (exists slot, __init__ cls x = Ok slot)
      <-> exists v z, x = Value v /\ as_int v = Some z /\ 0 < z)
  /\ (forall x slot, __init__ cls x = Ok slot -> x = Value slot)
  /\ (forall x e,
        __init__ cls x = Raise e ->
        e = InvalidTypeError
              (__name__ cls ++ " can not process  " ++ type_repr x ++ "."))
  /\ (forall z,
        __init__ cls (Value (PInt z))
        = (self <- init cls z ;; Ok (PInt (max_length self)))%result)
  /\ __init__ cls (Value (PBool true)) = Ok (PBool true)
  /\ __init__ cls (Value (PBool false))
     = Raise (InvalidTypeError (__name__ cls ++ " can not process  <class 'bool'>."))
  /\ __init__ cls (Value (PInt 0))
     = Raise (InvalidTypeError (__name__ cls ++ " can not process  <class 'int'>."))
  /\ (forall s,
        __init__ cls (Value (PStr s))
        = Raise (InvalidTypeError (__name__ cls ++ " can not process  <class 'str'>.")))
  /\ __init__ cls (Instance "datetime.datetime")
     = Raise (InvalidTypeError
                (__name__ cls ++ " can not process  <class 'datetime.datetime'>."))
  /\ __init__ cls (Instance "function")
     = Raise (InvalidTypeError
                (__name__ cls ++ " can not process  <class 'function'>.")).
Proof.
  split; [|split; [|split; [|split; [|repeat split]]]].
  - intros x. unfold __init__. split.
    + intros [slot Hok]. destruct x as [v|c]; [|discriminate].
      destruct (as_int v) as [z|] eqn:Hz; [|discriminate].
      destruct (0 <? z) eqn:Hpos; [|discriminate].
      exists v, z. apply Z.ltb_lt in Hpos. auto.
    + intros (v & z & -> & Hz & Hpos). rewrite Hz.
      apply Z.ltb_lt in Hpos. rewrite Hpos. now exists v.
  - intros x slot. unfold __init__. destruct x as [v|c]; [|discriminate].
    destruct (as_int v) as [z|]; [|discriminate].
    destruct (0 <? z); [|discriminate]. now intros [= ->].
  - intros x e. unfold __init__. destruct x as [v|c]; [|now intros [= <-]].
    destruct (as_int v) as [z|]; [|now intros [= <-]].
    destruct (0 <? z); [discriminate|now intros [= <-]].
  - intros z. unfold __init__, init. cbn [as_int].
    destruct (0 <? z); reflexivity.
Qed.

Lemma constructor_guard_witness :
  (exists slot, __init__ TupleGenerator (Value (PInt 100)) = Ok slot)
  /\ Value (PInt 100) = Value (PInt 100)
  /\ InvalidTypeError "SetGenerator can not process  <class 'int'>."
     = InvalidTypeError
         (__name__ SetGenerator ++ " can not process  "
          ++ type_repr (Value (PInt (-5))) ++ ".").
Proof.
  split; [|split].
  - apply (proj1 (constructor_guard TupleGenerator) (Value (PInt 100))).
    exists (PInt 100), 100. repeat split.
  - apply (proj1 (proj2 (constructor_guard TupleGenerator)) (Value (PInt 100))
             (PInt 100)).
    reflexivity.
  - apply (proj1 (proj2 (proj2 (constructor_guard SetGenerator))) (Value (PInt (-5)))).
    reflexivity.
Defined.

(** ** Ranges in closed form *)

Lemma range_count_ceiling (start stop step : Z) :
  0 < step -> range_count start stop step = (stop - start + step - 1) / step.
Proof.
  intros Hs. unfold range_count.
  pose proof (Z.div_mod (stop - start) step ltac:(lia)) as Hdm.
  pose proof (Z.mod_pos_bound (stop - start) step Hs) as Hb.
  destruct ((stop - start) mod step =? 0) eqn:E.
  - apply Z.eqb_eq in E.
    apply (Z.div_unique_pos _ _ _ (step - 1)); lia.
  - apply Z.eqb_neq in E.
    apply (Z.div_unique_pos _ _ _ ((stop - start) mod step - 1)); lia.
Qed.

Lemma range_count_step (n stop step : Z) :
  0 < step -> range_count n stop step = 1 + range_count (n + step) stop step.
Proof.
  intros Hs. unfold range_count.
  replace (stop - n) with ((stop - (n + step)) + 1 * step) by lia.
  rewrite Z.mod_add, Z.div_add by lia.
  destruct ((stop - (n + step)) mod step =? 0); lia.
Qed.

Lemma range_count_nonpositive (n stop step : Z) :
  0 < step -> stop <= n -> range_count n stop step <= 0.
Proof.
  intros Hs Hn. rewrite range_count_ceiling by assumption.
  apply Z.lt_succ_r. apply Z.div_lt_upper_bound; lia.
Qed.

Lemma range_count_positive (n stop step : Z) :
  0 < step -> n < stop -> 0 < range_count n stop step.
Proof.
  intros Hs Hn. rewrite range_count_ceiling by assumption.
  apply Z.div_str_pos. lia.
Qed.

(** The loop of [_custom_range], given rounds enough, emits the range. *)
Lemma range_loop_closed (fuel : nat) (n stop step : Z) :
  0 < step -> (Z.to_nat (stop - n) <= fuel)%nat ->
  range_loop fuel n stop step = py_range n stop step.
Proof.
  intros Hs. unfold py_range. rewrite <- range_count_ceiling by assumption.
  revert n. induction fuel as [|fuel IH]; intros n Hf.
  - assert (range_count n stop step <= 0) by (apply range_count_nonpositive; lia).
    replace (Z.to_nat (range_count n stop step)) with 0%nat by lia. reflexivity.
  - cbn [range_loop]. destruct (n <? stop) eqn:E.
    + apply Z.ltb_lt in E. rewrite IH by lia.
      pose proof (range_count_positive n stop step Hs E) as Hpos.
      rewrite (range_count_step n) in Hpos |- * by lia.
      replace (Z.to_nat (1 + range_count (n + step) stop step))
        with (S (Z.to_nat (range_count (n + step) stop step))) by lia.
      cbn [seq map]. f_equal; [lia|].
      rewrite <- seq_shift, map_map. apply map_ext. intros k. lia.
    + apply Z.ltb_ge in E.
      assert (range_count n stop step <= 0) by (apply range_count_nonpositive; lia).
      replace (Z.to_nat (range_count n stop step)) with 0%nat by lia. reflexivity.
Qed.

Lemma py_range_length (start stop step : Z) :
  0 < step -> start <= stop ->
  Z.of_nat (List.length (py_range start stop step)) = range_count start stop step.
Proof.
  intros Hs Hle. unfold py_range. rewrite length_map, length_seq.
  rewrite range_count_ceiling by assumption.
  apply Z2Nat.id. apply Z.div_pos; lia.
Qed.

Lemma py_range_in (start stop step x : Z) :
  0 < step ->
  In x (py_range start stop step) <-> start <= x < stop /\ (x - start) mod step = 0.
Proof.
  intros Hs.
  rewrite <- (range_loop_closed (Z.to_nat (stop - start))) by (assumption || lia).
  split.
  - now apply range_loop_sound.
  - intros [H1 H2]. apply range_loop_complete; auto.
Qed.

Lemma py_range_nth (start stop step : Z) (k : nat) :
  (k < List.length (py_range start stop step))%nat ->
  nth_error (py_range start stop step) k = Some (start + Z.of_nat k * step).
Proof.
  unfold py_range. rewrite length_map, length_seq. intros Hk.
  rewrite nth_error_map, nth_error_seq.
  apply Nat.ltb_lt in Hk. rewrite Hk. reflexivity.
Qed.

Lemma py_range_NoDup (start stop step : Z) : 0 < step -> NoDup (py_range start stop step).
Proof.
  intros Hs. unfold py_range.
  generalize (Z.to_nat ((stop - start + step - 1) / step)) as n.
  generalize 0%nat as a.
  intros a n. revert a. induction n as [|n IH]; intros a; [constructor|].
  cbn [seq map]. constructor; [|apply IH].
  intros Hin. apply in_map_iff in Hin as (k & Hk & Hin).
  apply in_seq in Hin. nia.
Qed.

Lemma range_max_closed (start stop step : Z) :
  0 < step -> start < stop ->
  range_max start stop step = start + (range_count start stop step - 1) * step.
Proof.
  intros Hs Hlt. unfold range_max. rewrite range_count_ceiling by assumption.
  replace (stop - start + step - 1) with ((stop - 1 - start) + 1 * step) by lia.
  rewrite Z.div_add by lia.
  pose proof (Z.div_mod (stop - 1 - start) step ltac:(lia)). lia.
Qed.

Lemma range_max_empty (start step : Z) :
  0 < step -> range_max start start step = start - step.
Proof.
  intros Hs. unfold range_max.
  replace (start - 1 - start) with (-1) by lia.
  assert ((-1) mod step = step - 1); [|lia].
  symmetry. apply (Z.mod_unique_pos _ _ (-1)); lia.
Qed.

(** A range is fixed by its first value, its step and its last value. *)
Lemma py_range_determined (a b s a' b' s' : Z) :
  0 < s -> 0 < s' -> a < b -> a' <= b' ->
  a' = a -> s' = s -> range_max a' b' s' = range_max a b s ->
  py_range a' b' s' = py_range a b s.
Proof.
  intros Hs Hs' Hlt Hle -> -> Hm.
  assert (Hlt' : a < b').
  { destruct (Z.eq_dec a b') as [<-|]; [|lia].
    rewrite range_max_empty in Hm by assumption.
    rewrite (range_max_closed a b s) in Hm by assumption.
    pose proof (range_count_positive a b s Hs Hlt). nia. }
  rewrite !range_max_closed in Hm by assumption.
  unfold py_range. rewrite <- !range_count_ceiling by assumption.
  assert (range_count a b' s = range_count a b s) as -> by nia.
  reflexivity.
Qed.

(** X2. For a positive step and [start <= stop], [_custom_range] yields
    Python's [range(start, stop, step)] when that range has fewer elements
    than the limit, and raises the length error otherwise: the length it
    announces to the guard is the number of values it would emit. The
    values are those [x] with [start <= x < stop] that are [start] plus a
    multiple of the step, in increasing order: the [k]-th is
    [start + k * step]. *)
Theorem custom_range_is_range (self : generator) (start stop step : Z) :
  0 < step -> start <= stop ->
  _custom_range self start stop step
  = (if Z.of_nat (List.length (py_range start stop step)) <? max_length self
     then Ok (py_range start stop step)
     else Raise (InvalidSequenceLength
                   ("Items quantity should be less than "
                    ++ str_of_int (max_length self) ++ ".")))
  /\ (forall x, In x (py_range start stop step)
                <-> start <= x < stop /\ (x - start) mod step = 0)
  /\ (forall k, (k < List.length (py_range start stop step))%nat ->
                nth_error (py_range start stop step) k
                = Some (start + Z.of_nat k * step)).
Proof.
  intros Hs Hle. split; [|split].
  - rewrite (custom_range_run self start stop step Hs Hle).
    rewrite py_range_length by assumption.
    now rewrite range_loop_closed by (assumption || lia).
  - intros x. now apply py_range_in.
  - intros k. apply py_range_nth.
Qed.

Lemma custom_range_is_range_witness :
  _custom_range (list_generator 100) 68 121 3
  = (if Z.of_nat (List.length (py_range 68 121 3)) <? max_length (list_generator 100)
     then Ok (py_range 68 121 3)
     else Raise (InvalidSequenceLength
                   ("Items quantity should be less than "
                    ++ str_of_int (max_length (list_generator 100)) ++ ".")))
  /\ (forall x, In x (py_range 68 121 3) <-> 68 <= x < 121 /\ (x - 68) mod 3 = 0)
  /\ (forall k, (k < List.length (py_range 68 121 3))%nat ->
                nth_error (py_range 68 121 3) k = Some (68 + Z.of_nat k * 3)).
Proof.
  apply (custom_range_is_range (list_generator 100) 68 121 3); lia.
Defined.

Lemma lookup_decimal_keys (x : Z) (l : list Z) :
  ~ In x l -> lookup (str_of_int x) (keyed l) = None.
Proof.
  unfold keyed.
  induction l as [|z l IH]; intros Hx; [reflexivity|].
  cbn [map lookup]. destruct (str_of_int z =? str_of_int x)%string eqn:E.
  - apply String.eqb_eq, str_of_int_inj in E. subst z. exfalso. apply Hx. now left.
  - apply IH. intros Hin. apply Hx. now right.
Qed.

(** [{f'{i}': i for i in values}] over distinct values keeps one entry for
    each, in order. *)
Lemma dict_of_distinct (l seen : list Z) :
  NoDup (seen ++ l) ->
  fold_left (fun d i => dict_set (str_of_int i) (PInt i) d) l (keyed seen)
  = keyed (seen ++ l).
Proof.
  revert seen. induction l as [|x l IH]; intros seen Hnd.
  - now rewrite app_nil_r.
  - cbn [fold_left].
    assert (Hx : ~ In x seen).
    { apply NoDup_remove_2 in Hnd. intros Hin. apply Hnd. apply in_or_app. now left. }
    rewrite dict_set_fresh by now apply lookup_decimal_keys.
    replace (keyed seen ++ [(str_of_int x, PInt x)])%list with (keyed (seen ++ [x]))
      by (unfold keyed; now rewrite map_app).
    rewrite IH by now rewrite <- app_assoc.
    now rewrite <- app_assoc.
Qed.

Lemma distinct_decimal_keys (l : list Z) :
  NoDup l -> distinct_keys (keyed l) = true.
Proof.
  induction 1 as [|x l Hx Hnd IH]; [reflexivity|].
  cbn [keyed map distinct_keys]. fold (keyed l). now rewrite lookup_decimal_keys.
Qed.

Lemma container_valid (self : generator) (l : list Z) :
  NoDup l -> valid_sequence (_sequence_type self) (container (class self) l) = true.
Proof.
  intros Hnd. unfold _sequence_type, container.
  destruct (class self); try (now apply valid_int_list).
  cbn [valid_sequence String.eqb Ascii.eqb Bool.eqb andb].
  rewrite distinct_decimal_keys by assumption. rewrite andb_true_r.
  unfold keyed. clear Hnd. induction l as [|z l IH]; [reflexivity|].
  cbn [map forallb keyed_by_value fst snd]. rewrite String.eqb_refl. exact IH.
Qed.

Lemma container_len (cls : generator_class) (l : list Z) :
  len_of (container cls l) = Z.of_nat (List.length l).
Proof.
  destruct cls; cbn; unfold keyed; now rewrite length_map.
Qed.

Lemma container_truthy (cls : generator_class) (l : list Z) :
  l <> [] -> truthy (container cls l) = true.
Proof.
  destruct l; [congruence|]. now destruct cls.
Qed.

Lemma container_is_container (cls : generator_class) (l : list Z) :
  is_container (container cls l) = true.
Proof.
  now destruct cls.
Qed.

Lemma create_sequence_closed (self : generator) (start stop step : Z) :
  0 < step -> start <= stop ->
  _create_sequence self start stop step
  = if range_count start stop step <? max_length self
    then Ok (container (class self) (py_range start stop step))
    else Raise (InvalidSequenceLength
                  ("Items quantity should be less than "
                   ++ str_of_int (max_length self) ++ ".")).
Proof.
  intros Hs Hle. unfold _create_sequence.
  rewrite (custom_range_run self start stop step Hs Hle).
  destruct (range_count start stop step <? max_length self); [|reflexivity].
  rewrite range_loop_closed by (assumption || lia). cbn [rbind].
  unfold container. destruct (class self); try reflexivity.
  f_equal. f_equal.
  exact (dict_of_distinct (py_range start stop step) [] (py_range_NoDup _ _ _ Hs)).
Qed.

(** X3. For a positive step and [start <= stop], [_create_sequence] of the
    list, tuple and set generators returns the list of the values of
    [range(start, stop, step)], and that of the mapping generator the
    mapping from the decimal text of each value to the value, one entry for
    each value and in the same order, provided the range has fewer elements
    than the limit; otherwise it raises the length error. *)
Theorem create_sequence_is_range (self : generator) (start stop step : Z) :
  0 < step -> start <= stop ->
  _create_sequence self start stop step
  = (if Z.of_nat (List.length (py_range start stop step)) <? max_length self
     then Ok (match class self with
              | DictGenerator =>
                  PDict (map (fun z => (str_of_int z, PInt z))
                           (py_range start stop step))
              | _ => PList (map PInt (py_range start stop step))
              end)
     else Raise (InvalidSequenceLength
                   ("Items quantity should be less than "
                    ++ str_of_int (max_length self) ++ ".")))
  /\ py_len (container (class self) (py_range start stop step))
     = Ok (Z.of_nat (List.length (py_range start stop step))).
Proof.
  intros Hs Hle. split.
  - rewrite py_range_length by assumption. now apply create_sequence_closed.
  - unfold container, keyed. destruct (class self); cbn [py_len]; now rewrite length_map.
Qed.

Lemma create_sequence_is_range_witness :
  _create_sequence (dict_generator 100) 0 5 2
  = (if Z.of_nat (List.length (py_range 0 5 2)) <? max_length (dict_generator 100)
     then Ok (match class (dict_generator 100) with
              | DictGenerator =>
                  PDict (map (fun z => (str_of_int z, PInt z)) (py_range 0 5 2))
              | _ => PList (map PInt (py_range 0 5 2))
              end)
     else Raise (InvalidSequenceLength
                   ("Items quantity should be less than "
                    ++ str_of_int (max_length (dict_generator 100)) ++ ".")))
  /\ py_len (container (class (dict_generator 100)) (py_range 0 5 2))
     = Ok (Z.of_nat (List.length (py_range 0 5 2))).
Proof.
  apply (create_sequence_is_range (dict_generator 100) 0 5 2); lia.
Defined.

(** ** A range call that finds no reusable record *)

Lemma generate_sequence_computed (self : generator) (data_format : string)
    (start : Z) (stop : option Z) (step : Z) (now : datetime) (w : world) :
  supported data_format ->
  0 < step ->
  range_start start stop <= range_stop start stop ->
  no_reusable_record self data_format "range" (range_start start stop)
    (range_max (range_start start stop) (range_stop start stop) step) step w ->
  exists w3,
    same_files (opened data_format now w) w3
    /\ generate_sequence self data_format start stop step now w =
       match _create_sequence self (range_start start stop) (range_stop start stop)
               step with
       | Raise e => (Raise e, w3)
       | Ok sequence =>
           match encode (serializer_of data_format) sequence (_sequence_type self)
                   "range" (strftime (created_at data_format now w)) (repr self)
                   (range_start start stop)
                   (range_max (range_start start stop) (range_stop start stop) step)
                   now with
           | Raise e => (Raise e, w3)
           | Ok d => (Ok tt, rewritten data_format d now w3)
           end
       end.
Proof.
  intros H Hs Hle Hmiss.
  pose proof (lookup_misses self data_format "range" _ _ _ now w H Hmiss) as Hlook.
  pose proof (stored_sequence_same_files self data_format "range"
                (range_start start stop)
                (range_max (range_start start stop) (range_stop start stop) step) step
                (opened data_format now w)) as Hsame.
  eexists. split; [exact Hsame|].
  rewrite (generate_sequence_eq _ _ _ _ _ _ _ H).
  rewrite (max_in_range_run _ _ _ Hs Hle). cbv zeta.
  fold (range_max (range_start start stop) (range_stop start stop) step).
  rewrite Hlook. reflexivity.
Qed.

(** The text such a call writes when the count is below the limit. *)
Lemma computed_range_written (self : generator) (data_format : string)
    (start : Z) (stop : option Z) (step : Z) (now : datetime) (w : world) :
  supported data_format ->
  0 < step ->
  range_start start stop <= range_stop start stop ->
  range_count (range_start start stop) (range_stop start stop) step
  < max_length self ->
  no_reusable_record self data_format "range" (range_start start stop)
    (range_max (range_start start stop) (range_stop start stop) step) step w ->
  exists d w',
    encode (serializer_of data_format)
      (container (class self)
         (py_range (range_start start stop) (range_stop start stop) step))
      (_sequence_type self) "range" (strftime (created_at data_format now w))
      (repr self) (range_start start stop)
      (range_max (range_start start stop) (range_stop start stop) step) now
    = Ok d
    /\ generate_sequence self data_format start stop step now w = (Ok tt, w')
    /\ body_at (target data_format) w' = Text d
    /\ blank (target data_format) w' = false
    /\ file_at (other (target data_format)) w' = None.
Proof.
  intros H Hs Hle Hcount Hmiss.
  destruct (generate_sequence_computed self data_format start stop step now w H Hs Hle
              Hmiss) as (w3 & Hsame & Hrun).
  set (a := range_start start stop) in *. set (b := range_stop start stop) in *.
  rewrite (create_sequence_closed self a b step Hs Hle) in Hrun.
  apply Z.ltb_lt in Hcount. rewrite Hcount in Hrun.
  destruct (encode_container data_format _ (_sequence_type self) "range"
              (strftime (created_at data_format now w)) (repr self) a
              (range_max a b step) now
              (container_is_container (class self) (py_range a b step))) as [d Hd].
  rewrite Hd in Hrun.
  destruct (written_body data_format d now w w3 H Hsame) as (Hbody & Hother & _).
  exists d, (rewritten data_format d now w3).
  repeat split; try assumption. unfold blank. now rewrite Hbody.
Qed.

(** The record it leaves, when the decoders accept it. *)
Lemma computed_range_record (self : generator) (data_format : string)
    (start : Z) (stop : option Z) (step : Z) (now : datetime) (w : world) :
  supported data_format ->
  0 < step ->
  range_start start stop < range_stop start stop ->
  range_count (range_start start stop) (range_stop start stop) step
  < max_length self ->
  (data_format = "json"
   -> range_max (range_start start stop) (range_stop start stop) step <> 0) ->
  no_reusable_record self data_format "range" (range_start start stop)
    (range_max (range_start start stop) (range_stop start stop) step) step w ->
  exists w',
    generate_sequence self data_format start stop step now w = (Ok tt, w')
    /\ persisted data_format w'
       = Ok (Some (record_value
                     (container (class self)
                        (py_range (range_start start stop) (range_stop start stop) step))
                     (_sequence_type self) "range"
                     (strftime (created_at data_format now w)) (strftime now)
                     (repr self)
                     (range_count (range_start start stop) (range_stop start stop) step)
                     (range_start start stop)
                     (range_max (range_start start stop) (range_stop start stop) step)))
    /\ blank (target data_format) w' = false
    /\ file_at (other (target data_format)) w' = None.
Proof.
  intros H Hs Hlt Hcount Hmax Hmiss.
  destruct (computed_range_written self data_format start stop step now w H Hs
              ltac:(lia) Hcount Hmiss) as (d & w' & Hd & Hrun & Hbody & Hb' & Ho).
  set (a := range_start start stop) in *. set (b := range_stop start stop) in *.
  exists w'. split; [exact Hrun|].
  assert (Hne : py_range a b step <> []).
  { intros Hnil. pose proof (py_range_length a b step Hs ltac:(lia)) as Hl.
    rewrite Hnil in Hl. pose proof (range_count_positive a b step Hs Hlt). cbn in Hl. lia. }
  split; [|split; assumption].
  pose proof (persisted_after_write data_format
                (container (class self) (py_range a b step)) (_sequence_type self)
                "range" (strftime (created_at data_format now w)) (repr self) a
                (range_max a b step) now w' d H
                (container_valid self _ (py_range_NoDup a b step Hs))
                (container_truthy _ _ Hne)) as Hp.
  rewrite container_len, py_range_length in Hp by (assumption || lia).
  apply Hp; trivial.
  - unfold _sequence_type. now destruct (class self).
  - apply strftime_plain.
  - unfold repr. now destruct (class self).
Qed.

(** The same call when no decoder accepts what it wrote: nothing was
    emitted, or the JSON record has [max = 0]. *)
Lemma computed_range_unreadable (self : generator) (data_format : string)
    (start : Z) (stop : option Z) (step : Z) (now : datetime) (w : world) :
  supported data_format ->
  0 < step ->
  range_start start stop <= range_stop start stop ->
  range_count (range_start start stop) (range_stop start stop) step
  < max_length self ->
  no_reusable_record self data_format "range" (range_start start stop)
    (range_max (range_start start stop) (range_stop start stop) step) step w ->
  range_start start stop = range_stop start stop
  \/ (data_format = "json"
      /\ range_max (range_start start stop) (range_stop start stop) step = 0) ->
  exists w',
    generate_sequence self data_format start stop step now w = (Ok tt, w')
    /\ blank (target data_format) w' = false
    /\ file_at (other (target data_format)) w' = None
    /\ persisted data_format w' = Ok None.
Proof.
  intros H Hs Hle Hcount Hmiss Hcase.
  destruct (computed_range_written self data_format start stop step now w H Hs Hle
              Hcount Hmiss) as (d & w' & Hd & Hrun & Hbody & Hb' & Ho).
  set (a := range_start start stop) in *. set (b := range_stop start stop) in *.
  exists w'. repeat split; try assumption.
  unfold persisted. rewrite Hbody.
  destruct Hcase as [Hempty | [-> Hzero]].
  - assert (Hnil : py_range a b step = []).
    { pose proof (py_range_length a b step Hs Hle) as Hl.
      pose proof (range_count_nonpositive a b step Hs ltac:(lia)).
      destruct (py_range a b step); [reflexivity|]. cbn [List.length] in Hl. lia. }
    rewrite Hnil in Hd.
    pose proof (round_trip_empty data_format (_sequence_type self) "range"
                  (strftime (created_at data_format now w)) (repr self)
                  (container (class self) []) a (range_max a b step) now w') as Hrt.
    unfold round_trip in Hrt. rewrite Hd in Hrt. apply Hrt.
    unfold container. destruct (class self); auto.
  - rewrite Hzero in Hd. exact (json_zero_max_absent _ _ _ _ _ _ _ _ _ Hd).
Qed.

(** Either way, what the file holds after the call. *)
Lemma computed_range_persisted (self : generator) (data_format : string)
    (start : Z) (stop : option Z) (step : Z) (now : datetime) (w w1 : world) :
  supported data_format ->
  0 < step ->
  range_start start stop <= range_stop start stop ->
  no_reusable_record self data_format "range" (range_start start stop)
    (range_max (range_start start stop) (range_stop start stop) step) step w ->
  generate_sequence self data_format start stop step now w = (Ok tt, w1) ->
  blank (target data_format) w1 = false
  /\ (persisted data_format w1 = Ok None
      \/ (range_start start stop < range_stop start stop
          /\ persisted data_format w1
             = Ok (Some (record_value
                           (container (class self)
                              (py_range (range_start start stop) (range_stop start stop)
                                 step))
                           (_sequence_type self) "range"
                           (strftime (created_at data_format now w)) (strftime now)
                           (repr self)
                           (range_count (range_start start stop) (range_stop start stop)
                              step)
                           (range_start start stop)
                           (range_max (range_start start stop) (range_stop start stop)
                              step))))).
Proof.
  intros H Hs Hle Hmiss Hrun.
  set (a := range_start start stop) in *. set (b := range_stop start stop) in *.
  assert (Hcount : range_count a b step < max_length self).
  { destruct (generate_sequence_computed self data_format start stop step now w H Hs
                Hle Hmiss) as (w3 & _ & Heq).
    fold a b in Heq. rewrite (create_sequence_closed self a b step Hs Hle) in Heq.
    destruct (range_count a b step <? max_length self) eqn:E;
      [now apply Z.ltb_lt in E|].
    rewrite Heq in Hrun. discriminate. }
  assert (Hcases : (a = b \/ (data_format = "json" /\ range_max a b step = 0))
                   \/ (a < b /\ (data_format = "json" -> range_max a b step <> 0))).
  { destruct (Z.eq_dec a b) as [|Hne]; [now left; left|].
    destruct (string_dec data_format "json") as [Hj|Hj];
      [|right; split; [lia|congruence]].
    destruct (Z.eq_dec (range_max a b step) 0) as [Hz|Hz];
      [left; right; now split|right; split; [lia|auto]]. }
  destruct Hcases as [Hcase | [Hlt Hmax]].
  - destruct (computed_range_unreadable self data_format start stop step now w H Hs Hle
                Hcount Hmiss Hcase) as (w' & Hrun' & Hb' & _ & Hp).
    rewrite Hrun in Hrun'. injection Hrun' as <-. auto.
  - destruct (computed_range_record self data_format start stop step now w H Hs Hlt
                Hcount Hmax Hmiss) as (w' & Hrun' & Hp & Hb' & _).
    rewrite Hrun in Hrun'. injection Hrun' as <-. auto.
Qed.

(** ** Reading a stored record *)

Lemma get_sequence_fst (self : generator) (w : world) :
  fst (get_sequence self w)
  = match fst (BaseGenerator.get_sequence self w) with
    | Ok v =>
        match class self with
        | ListGenerator | DictGenerator => Ok (Plain v)
        | TupleGenerator => py_tuple v
        | SetGenerator => py_set v
        end
    | Raise e => Raise e
    end.
Proof.
  unfold get_sequence, bind, ret, lift.
  destruct (class self); destruct (BaseGenerator.get_sequence self w) as [[v|e] w'];
    reflexivity.
Qed.

Lemma distinct_ints (l seen : list Z) :
  NoDup (seen ++ l) -> distinct (map PInt seen) (map PInt l) = map PInt l.
Proof.
  revert seen. induction l as [|x l IH]; intros seen Hnd; [reflexivity|].
  cbn [map distinct].
  assert (Hx : existsb (same_key (PInt x)) (map PInt seen) = false).
  { apply NoDup_remove_2 in Hnd.
    assert (Hin : ~ In x seen) by (intros Hin; apply Hnd, in_or_app; now left).
    clear - Hin. induction seen as [|y seen IH]; [reflexivity|].
    cbn [map existsb same_key as_int].
    destruct (x =? y) eqn:E; [apply Z.eqb_eq in E; subst; exfalso; apply Hin; now left|].
    cbn [orb]. apply IH. intros H. apply Hin. now right. }
  rewrite Hx. f_equal.
  change (PInt x :: map PInt seen) with (map PInt (x :: seen)).
  apply IH. apply NoDup_remove in Hnd as [Hnd Hx'].
  constructor; assumption.
Qed.

(** [set(...)] of distinct integers keeps them all. *)
Lemma set_of_distinct (l : list Z) :
  NoDup l -> py_set (PList (map PInt l)) = Ok (PySet (map PInt l)).
Proof.
  intros Hnd. unfold py_set, py_iter, rbind.
  replace (forallb hashable (map PInt l)) with true.
  - change (@nil pyval) with (map PInt []). now rewrite (distinct_ints l [] Hnd).
  - symmetry. clear. induction l; [reflexivity|exact IHl].
Qed.

(** What [get_sequence] makes of a stored record, check by check. *)
Lemma read_back_outcome (self : generator) (data_format : string) (w : world)
    (sequence : pyval) (s_type seq_type cr_time mod_date author : string)
    (len min_el max_el : Z) :
  supported data_format ->
  blank (target data_format) w = false ->
  persisted data_format w
  = Ok (Some (record_value sequence s_type seq_type cr_time mod_date author
                len min_el max_el)) ->
  fst (BaseGenerator.read_back self data_format w)
  = if negb (_sequence_type_check self (PStr s_type))
    then Raise (InvalidTypeError "File contains invalid sequence type.")
    else if max_length self <? len
         then Raise (InvalidSequenceLength
                       ("Items quantity should be less than "
                        ++ str_of_int (max_length self) ++ "."))
         else Ok sequence.
Proof.
  intros H Hb Hp.
  assert (Hs : get_serializer data_format = Ok (serializer_of data_format))
    by (supported_cases H; reflexivity).
  assert (Hpath : get_path data_format = Ok (target data_format))
    by (supported_cases H; reflexivity).
  unfold BaseGenerator.read_back. rewrite Hs, Hpath.
  unfold bind, lift, read, raise.
  unfold persisted, blank, body_at in *.
  destruct (file_at (target data_format) w) as [f|]; [|discriminate].
  destruct (decode (serializer_of data_format) (content f) w) as [r w3].
  cbn [fst] in Hp. subst r. cbn [py_getitem record_value lookup String.eqb Ascii.eqb
                                 Bool.eqb].
  destruct (_sequence_type_check self (PStr s_type)); cbn [negb py_gt as_int];
    [|reflexivity].
  now destruct (max_length self <? len).
Qed.

Lemma get_sequence_outcome (self : generator) (data_format : string) (w : world)
    (sequence : pyval) (s_type seq_type cr_time mod_date author : string)
    (len min_el max_el : Z) :
  supported data_format ->
  blank (target data_format) w = false ->
  file_at (other (target data_format)) w = None ->
  persisted data_format w
  = Ok (Some (record_value sequence s_type seq_type cr_time mod_date author
                len min_el max_el)) ->
  fst (BaseGenerator.get_sequence self w)
  = if negb (_sequence_type_check self (PStr s_type))
    then Raise (InvalidTypeError "File contains invalid sequence type.")
    else if max_length self <? len
         then Raise (InvalidSequenceLength
                       ("Items quantity should be less than "
                        ++ str_of_int (max_length self) ++ "."))
         else Ok sequence.
Proof.
  intros H Hb Ho Hp.
  rewrite (get_sequence_of_target self data_format w H Hb Ho).
  now apply (read_back_outcome self data_format w sequence s_type seq_type cr_time
               mod_date author len min_el max_el).
Qed.

Lemma read_back_absent (self : generator) (data_format : string) (w : world) :
  supported data_format ->
  blank (target data_format) w = false ->
  persisted data_format w = Ok None ->
  fst (BaseGenerator.read_back self data_format w)
  = Raise (InvalidValueError "Invalid decoded data structure.").
Proof.
  intros H Hb Hp.
  assert (Hs : get_serializer data_format = Ok (serializer_of data_format))
    by (supported_cases H; reflexivity).
  assert (Hpath : get_path data_format = Ok (target data_format))
    by (supported_cases H; reflexivity).
  unfold BaseGenerator.read_back. rewrite Hs, Hpath.
  unfold bind, lift, read, raise.
  unfold persisted, blank, body_at in *.
  destruct (file_at (target data_format) w) as [f|]; [|discriminate].
  destruct (decode (serializer_of data_format) (content f) w) as [r w3].
  cbn [fst] in Hp. now subst r.
Qed.

Lemma get_sequence_absent (self : generator) (data_format : string) (w : world) :
  supported data_format ->
  blank (target data_format) w = false ->
  file_at (other (target data_format)) w = None ->
  persisted data_format w = Ok None ->
  fst (get_sequence self w)
  = Raise (InvalidValueError "Invalid decoded data structure.").
Proof.
  intros H Hb Ho Hp.
  rewrite get_sequence_fst, (get_sequence_of_target self data_format w H Hb Ho).
  now rewrite (read_back_absent self data_format w H Hb Hp).
Qed.



(** X5. After such a range call by one generator, [get_sequence] of any
    generator checks the stored type first and the stored length second:
    it raises [InvalidTypeError] when its class does not accept the type
    the writer recorded, else [InvalidSequenceLength] when the record has
    more elements than its own limit, else it returns the values in its
    own shape. The list and tuple generators accept what the list, tuple
    and set generators wrote; the set generator accepts only what a set
    generator wrote, the mapping generator only what a mapping generator
    wrote. A record as long as the reader's limit is read, although the
    reader could not have written it. *)
Theorem reading_across_generators :
  (forall writer reader data_format start stop step now w,
      supported data_format ->
      0 < step ->
      range_start start stop < range_stop start stop ->
      range_count (range_start start stop) (range_stop start stop) step
      < max_length writer ->
      (data_format = "json"
       -> range_max (range_start start stop) (range_stop start stop) step <> 0) ->
      no_reusable_record writer data_format "range" (range_start start stop)
        (range_max (range_start start stop) (range_stop start stop) step) step w ->
      let values := py_range (range_start start stop) (range_stop start stop) step in
      exists w',
        generate_sequence writer data_format start stop step now w = (Ok tt, w')
        /\ fst (get_sequence reader w')
           = if negb (_sequence_type_check reader (PStr (_sequence_type writer)))
             then Raise (InvalidTypeError "File contains invalid sequence type.")
             else if max_length reader <? Z.of_nat (List.length values)
                  then Raise (InvalidSequenceLength
                                ("Items quantity should be less than "
                                 ++ str_of_int (max_length reader) ++ "."))
                  else Ok (native (class reader) values))
  /\ (forall reader writer,
        _sequence_type_check reader (PStr (_sequence_type writer))
        = match class reader, class writer with
          | (ListGenerator | TupleGenerator),
            (ListGenerator | TupleGenerator | SetGenerator) => true
          | SetGenerator, SetGenerator => true
          | DictGenerator, DictGenerator => true
          | _, _ => false
          end).
Proof.
  split.
  - intros writer reader data_format start stop step now w H Hs Hlt Hcount Hmax Hmiss
      values.
    destruct (computed_range_record writer data_format start stop step now w H Hs Hlt
                Hcount Hmax Hmiss) as (w' & Hrun & Hp & Hb' & Ho).
    exists w'. split; [exact Hrun|]. unfold values.
    rewrite py_range_length by (assumption || lia).
    rewrite get_sequence_fst,
      (get_sequence_outcome reader data_format w' _ _ _ _ _ _ _ _ _ H Hb' Ho Hp).
    destruct (_sequence_type_check reader (PStr (_sequence_type writer))) eqn:Hty;
      cbn [negb]; [|reflexivity].
    destruct (max_length reader <? _); [reflexivity|].
    pose proof (py_range_NoDup (range_start start stop) (range_stop start stop) step Hs)
      as Hnd.
    unfold _sequence_type_check, _sequence_type in Hty.
    unfold container, native.
    destruct (class reader), (class writer); try discriminate Hty; try reflexivity.
    all: now apply set_of_distinct.
  - intros reader writer. unfold _sequence_type_check, _sequence_type.
    destruct (class reader), (class writer); reflexivity.
Qed.

Lemma reading_across_generators_witness :
  exists w',
    generate_sequence (list_generator 100) "json" 60 None 1 an_instant no_files
    = (Ok tt, w')
    /\ fst (get_sequence (tuple_generator 60) w')
       = if negb (_sequence_type_check (tuple_generator 60)
                    (PStr (_sequence_type (list_generator 100))))
         then Raise (InvalidTypeError "File contains invalid sequence type.")
         else if max_length (tuple_generator 60)
                 <? Z.of_nat (List.length (py_range 0 60 1))
              then Raise (InvalidSequenceLength
                            ("Items quantity should be less than "
                             ++ str_of_int (max_length (tuple_generator 60)) ++ "."))
              else Ok (native (class (tuple_generator 60)) (py_range 0 60 1)).
Proof.
  apply (proj1 reading_across_generators (list_generator 100) (tuple_generator 60)
           "json" 60 None 1 an_instant no_files).
  - right. reflexivity.
  - lia.
  - cbn. lia.
  - vm_compute. reflexivity.
  - intros _. vm_compute. discriminate.
  - left. reflexivity.
Defined.

(** X6. A range call can succeed and leave a record that cannot be read
    back. When the range is empty ([start = stop], as in
    [generate_sequence(fmt, 0)]), in either format, or when the format is
    JSON and the greatest value is 0 (as in [generate_sequence('json', -3,
    1)]), the call returns and the file has text, but both validators take
    an empty sequence, and the JSON validator a [max] of 0, for a missing
    field: the decoder returns [None] and [get_sequence] of every generator
    raises [InvalidValueError]. *)
Theorem unreadable_records (self reader : generator) (data_format : string)
    (start : Z) (stop : option Z) (step : Z) (now : datetime) (w : world) :
  supported data_format ->
  0 < step ->
  range_start start stop <= range_stop start stop ->
  range_count (range_start start stop) (range_stop start stop) step
  < max_length self ->
  no_reusable_record self data_format "range" (range_start start stop)
    (range_max (range_start start stop) (range_stop start stop) step) step w ->
  range_start start stop = range_stop start stop
  \/ (data_format = "json"
      /\ range_max (range_start start stop) (range_stop start stop) step = 0) ->
  exists w',
    generate_sequence self data_format start stop step now w = (Ok tt, w')
    /\ blank (target data_format) w' = false
    /\ persisted data_format w' = Ok None
    /\ fst (get_sequence reader w')
       = Raise (InvalidValueError "Invalid decoded data structure.").
Proof.
  intros H Hs Hle Hcount Hmiss Hcase.
  destruct (computed_range_unreadable self data_format start stop step now w H Hs Hle
              Hcount Hmiss Hcase) as (w' & Hrun & Hb' & Ho & Hp).
  exists w'. repeat split; try assumption.
  now apply (get_sequence_absent reader data_format).
Qed.

Lemma unreadable_records_witness :
  exists w',
    generate_sequence (list_generator 100) "json" (-3) (Some 1) 1 an_instant no_files
    = (Ok tt, w')
    /\ blank (target "json") w' = false
    /\ persisted "json" w' = Ok None
    /\ fst (get_sequence (list_generator 100) w')
       = Raise (InvalidValueError "Invalid decoded data structure.").
Proof.
  apply (unreadable_records (list_generator 100) (list_generator 100) "json" (-3)
           (Some 1) 1 an_instant no_files).
  - right. reflexivity.
  - lia.
  - cbn. lia.
  - vm_compute. reflexivity.
  - left. reflexivity.
  - right. split; reflexivity.
Defined.



(** ** Arguments a range call rejects *)

(** X8. With an explicit [stop], a negative step, then [start > stop],
    raise [InvalidValueError]; a step of 0 passes both tests and raises
    [ZeroDivisionError] at the modulo. These errors come from
    [__max_in_range], before the target file is opened: the target is left
    exactly as it was (it is not created), nothing is printed, and the file
    of the other format has already been removed. *)
Theorem range_errors_precede_open (self : generator) (data_format : string)
    (start stop step : Z) (now : datetime) (w : world) :
  supported data_format ->
  step <= 0 \/ stop < start ->
  let w' := snd (remove_unsupported_file data_format w) in
  generate_sequence self data_format start (Some stop) step now w
  = (Raise (if step <? 0
            then InvalidValueError "Step should be greater than zero."
            else if stop <? start
                 then InvalidValueError "Stop should be greater than start."
                 else ZeroDivisionError), w')
  /\ file_at (target data_format) w' = file_at (target data_format) w
  /\ file_at (other (target data_format)) w' = None
  /\ stdout w' = stdout w.
Proof.
  intros H Hcase w'. split; [|split; [|split]].
  - rewrite (generate_sequence_eq _ _ _ _ _ _ _ H). unfold max_in_range.
    destruct (step <? 0) eqn:E1; [reflexivity|].
    destruct (stop <? start) eqn:E2; [reflexivity|].
    apply Z.ltb_ge in E1, E2.
    replace (step =? 0) with true by (symmetry; apply Z.eqb_eq; lia).
    reflexivity.
  - apply removal_keeps_target.
  - now apply removal_removes_other.
  - unfold w', remove_unsupported_file, bind, path_exists, os_remove, ret.
    destruct w as [m [j|] [x|] out];
      destruct (data_format =? "xml")%string; destruct (data_format =? "json")%string;
      reflexivity.
Qed.

Lemma range_errors_precede_open_witness :
  generate_sequence (list_generator 100) "xml" 5 (Some 9) 0 an_instant only_json
  = (Raise (if 0 <? 0
            then InvalidValueError "Step should be greater than zero."
            else if 9 <? 5
                 then InvalidValueError "Stop should be greater than start."
                 else ZeroDivisionError),
     snd (remove_unsupported_file "xml" only_json))
  /\ file_at (target "xml") (snd (remove_unsupported_file "xml" only_json))
     = file_at (target "xml") only_json
  /\ file_at (other (target "xml")) (snd (remove_unsupported_file "xml" only_json))
     = None
  /\ stdout (snd (remove_unsupported_file "xml" only_json)) = stdout only_json.
Proof.
  apply (range_errors_precede_open (list_generator 100) "xml" 5 9 0 an_instant
           only_json).
  - left. reflexivity.
  - left. lia.
Defined.

Lemma max_in_range_default (n step : Z) :
  0 <= n -> 0 <= step -> max_in_range n None step = max_in_range 0 (Some n) step.
Proof.
  intros Hn Hs. unfold max_in_range.
  replace (step <? 0) with false by (symmetry; apply Z.ltb_ge; lia).
  replace (n <? 0) with false by (symmetry; apply Z.ltb_ge; lia).
  reflexivity.
Qed.

(** X9. The call with one bound. For [n >= 0] and a step that is not
    negative, [generate_sequence(fmt, n, step=step)] does exactly what
    [generate_sequence(fmt, 0, n, step)] does, in every world. For a
    negative [n], a positive step, a supported format and a target file
    without text, both raise the same [InvalidValueError], at different
    moments: with the explicit bounds before the file is opened, with the
    single bound after, from [_custom_range], so that a target file that
    was missing has been created, empty, when the exception arrives. *)
Theorem single_bound_call :
  (forall self data_format n step now w,
      0 <= n -> 0 <= step ->
      generate_sequence self data_format n None step now w
      = generate_sequence self data_format 0 (Some n) step now w)
  /\ (forall self data_format n step now w,
        supported data_format ->
        blank (target data_format) w = true ->
        n < 0 -> 0 < step ->
        generate_sequence self data_format n None step now w
        = (Raise (InvalidValueError "Stop should be greater than start."),
           opened data_format now w)
        /\ generate_sequence self data_format 0 (Some n) step now w
           = (Raise (InvalidValueError "Stop should be greater than start."),
              snd (remove_unsupported_file data_format w))
        /\ file_at (target data_format) (opened data_format now w)
           = Some {| ctime := created_at data_format now w; content := Empty |}
        /\ file_at (target data_format) (snd (remove_unsupported_file data_format w))
           = file_at (target data_format) w).
Proof.
  split.
  - intros self data_format n step now w Hn Hs.
    unfold generate_sequence. now rewrite (max_in_range_default n step Hn Hs).
  - intros self data_format n step now w H Hb Hn Hs. split; [|split; [|split]].
    + rewrite (generate_sequence_eq _ _ _ _ _ _ _ H).
      unfold max_in_range at 1.
      replace (step =? 0) with false by (symmetry; apply Z.eqb_neq; lia).
      cbv zeta. cbn [range_start range_stop].
      rewrite (stored_sequence_blank _ _ _ _ _ _ _ _ _ (blank_opened _ now _ H Hb)
                 eq_refl).
      cbn [fst snd stored_or]. unfold _create_sequence, _custom_range.
      replace (step <? 0) with false by (symmetry; apply Z.ltb_ge; lia).
      replace (n <? 0) with true by (symmetry; apply Z.ltb_lt; lia).
      reflexivity.
    + rewrite (generate_sequence_eq _ _ _ _ _ _ _ H). unfold max_in_range.
      replace (step <? 0) with false by (symmetry; apply Z.ltb_ge; lia).
      replace (n <? 0) with true by (symmetry; apply Z.ltb_lt; lia).
      reflexivity.
    + now apply blank_opened.
    + apply removal_keeps_target.
Qed.

Lemma single_bound_call_witness :
  generate_sequence (tuple_generator 100) "json" 60 None 1 an_instant both_files
  = generate_sequence (tuple_generator 100) "json" 0 (Some 60) 1 an_instant both_files
  /\ (generate_sequence (list_generator 100) "xml" (-4) None 1 an_instant no_files
      = (Raise (InvalidValueError "Stop should be greater than start."),
         opened "xml" an_instant no_files)
      /\ generate_sequence (list_generator 100) "xml" 0 (Some (-4)) 1 an_instant
           no_files
         = (Raise (InvalidValueError "Stop should be greater than start."),
            snd (remove_unsupported_file "xml" no_files))
      /\ file_at (target "xml") (opened "xml" an_instant no_files)
         = Some {| ctime := created_at "xml" an_instant no_files; content := Empty |}
      /\ file_at (target "xml") (snd (remove_unsupported_file "xml" no_files))
         = file_at (target "xml") no_files).
Proof.
  split.
  - apply (proj1 single_bound_call (tuple_generator 100) "json" 60 1 an_instant
             both_files); lia.
  - apply (proj2 single_bound_call (list_generator 100) "xml" (-4) 1 an_instant
             no_files).
    + left. reflexivity.
    + reflexivity.
    + lia.
    + lia.
Defined.

(** X10. A format other than ['xml'] and ['json'] (the comparison is exact:
    ['XML'] is another format) makes [generate_sequence] raise
    [InvalidValueError] whatever the other arguments, and
    [generate_fibonacci] too, unless the length is at or above the limit:
    its length guard comes first and raises [InvalidSequenceLength]. In
    each case no file is removed, created or written and nothing is
    printed. *)
Theorem unsupported_format_is_rejected (self : generator) (data_format : string)
    (now : datetime) (w : world) :
  data_format <> "xml" -> data_format <> "json" ->
  (forall start stop step,
      generate_sequence self data_format start stop step now w
      = (Raise (InvalidValueError "Only json and xml data formats are acceptable."), w))
  /\ (forall first second length,
        generate_fibonacci self data_format first second length now w
        = (Raise (if length <? max_length self
                  then InvalidValueError "Only json and xml data formats are acceptable."
                  else InvalidSequenceLength
                         ("Items quantity should be less than "
                          ++ str_of_int (max_length self) ++ ".")), w)).
Proof.
  intros Hx Hj.
  apply String.eqb_neq in Hx, Hj.
  split.
  - intros start stop step.
    unfold generate_sequence, remove_unsupported_file, get_serializer, bind, lift,
      path_exists, ret.
    rewrite Hx, Hj, !andb_false_r. reflexivity.
  - intros first second length.
    unfold generate_fibonacci, remove_unsupported_file, get_serializer, check_seq_length,
      bind, lift, path_exists, ret.
    rewrite Hx, Hj, !andb_false_r. cbv beta iota.
    destruct (length <? max_length self); reflexivity.
Qed.

Lemma unsupported_format_is_rejected_witness :
  (forall start stop step,
      generate_sequence (list_generator 100) "XML" start stop step an_instant both_files
      = (Raise (InvalidValueError "Only json and xml data formats are acceptable."),
         both_files))
  /\ (forall first second length,
        generate_fibonacci (list_generator 100) "XML" first second length an_instant
          both_files
        = (Raise (if length <? max_length (list_generator 100)
                  then InvalidValueError "Only json and xml data formats are acceptable."
                  else InvalidSequenceLength
                         ("Items quantity should be less than "
                          ++ str_of_int (max_length (list_generator 100)) ++ ".")),
           both_files)).
Proof.
  apply (unsupported_format_is_rejected (list_generator 100) "XML" an_instant
           both_files); discriminate.
Defined.

(** ** A second range call *)

(** The lookup of a generation call, in terms of what the file holds. *)
Lemma lookup_outcome (self : generator) (data_format data_type : string)
    (min_el max_el step : Z) (now : datetime) (w : world) (data : option pyval) :
  supported data_format ->
  blank (target data_format) w = false ->
  persisted data_format w = Ok data ->
  fst (stored_sequence self (serializer_of data_format) (target data_format)
         data_type min_el max_el step (opened data_format now w))
  = match check_equal_sequences self data_type data min_el max_el step with
    | Raise e => Raise e
    | Ok false => Ok None
    | Ok true =>
        match data with
        | Some d => (seq <- py_getitem d "sequence" ;; Ok (Some seq))%result
        | None => Ok None
        end
    end.
Proof.
  intros H Hb Hp.
  pose proof (opened_target data_format now w H) as Hopen.
  unfold stored_sequence, bind, nonempty, read, lift, ret.
  rewrite Hopen. cbn [content]. unfold blank in Hb.
  assert (Hne : match body_at (target data_format) w with Empty => false | _ => true end
                = true) by (destruct (body_at (target data_format) w); congruence).
  rewrite Hne. cbv beta iota. rewrite Hopen. cbn [content].
  unfold persisted in Hp.
  rewrite (decode_any_world _ _ _ (opened data_format now w)) in Hp.
  destruct (decode (serializer_of data_format) (body_at (target data_format) w)
              (opened data_format now w)) as [r w3].
  cbn [fst] in Hp. subst r.
  destruct (check_equal_sequences self data_type data min_el max_el step) as [[]|];
    try reflexivity.
  destruct data as [d|]; [|reflexivity].
  now destruct (py_getitem d "sequence").
Qed.

Lemma container_compatible (writer reader : generator) (l : list Z) :
  _sequence_type_check reader (PStr (_sequence_type writer)) = true ->
  container (class writer) l = container (class reader) l.
Proof.
  unfold _sequence_type_check, _sequence_type, container.
  destruct (class reader), (class writer); intros Hty; try discriminate Hty;
    reflexivity.
Qed.

(** X11. Reuse never changes the result of a range call. Let a range call
    (any generator, positive step, [start <= stop]) have written its
    record into a target that held no reusable record, and let a second
    range call, by any generator and for any such request, return. Then
    the file holds the values of the range the second call asked for, in
    the container of its class, with its own type name, author, [min] and
    [max], whether the call computed them or took the stored sequence: the
    checker accepts a stored range only when it has the same first value,
    last value and step, and with them the same values. *)
Theorem second_range_call_writes_its_range (writer reader : generator)
    (data_format : string) (start0 : Z) (stop0 : option Z) (step0 : Z)
    (start : Z) (stop : option Z) (step : Z) (now later : datetime) (w w1 w2 : world) :
  supported data_format ->
  0 < step0 ->
  range_start start0 stop0 <= range_stop start0 stop0 ->
  no_reusable_record writer data_format "range" (range_start start0 stop0)
    (range_max (range_start start0 stop0) (range_stop start0 stop0) step0) step0 w ->
  generate_sequence writer data_format start0 stop0 step0 now w = (Ok tt, w1) ->
  0 < step ->
  range_start start stop <= range_stop start stop ->
  generate_sequence reader data_format start stop step later w1 = (Ok tt, w2) ->
  exists d,
    encode (serializer_of data_format)
      (container (class reader)
         (py_range (range_start start stop) (range_stop start stop) step))
      (_sequence_type reader) "range" (strftime (created_at data_format later w1))
      (repr reader) (range_start start stop)
      (range_max (range_start start stop) (range_stop start stop) step) later
    = Ok d
    /\ body_at (target data_format) w2 = Text d.
Proof.
  intros H Hs0 Hle0 Hmiss Hrun1 Hs Hle Hrun2.
  destruct (computed_range_persisted writer data_format start0 stop0 step0 now w w1 H
              Hs0 Hle0 Hmiss Hrun1) as [Hb1 Hp].
  set (a0 := range_start start0 stop0) in *. set (b0 := range_stop start0 stop0) in *.
  set (a := range_start start stop) in *. set (b := range_stop start stop) in *.
  rewrite (generate_sequence_eq _ _ _ _ _ _ _ H) in Hrun2.
  rewrite (max_in_range_run _ _ _ Hs Hle) in Hrun2. cbv zeta in Hrun2.
  fold a b in Hrun2. fold (range_max a b step) in Hrun2.
  pose proof (stored_sequence_same_files reader data_format "range" a
                (range_max a b step) step (opened data_format later w1)) as Hsame.
  assert (Hstored :
            forall stored,
              fst (stored_sequence reader (serializer_of data_format)
                     (target data_format) "range" a (range_max a b step) step
                     (opened data_format later w1)) = Ok stored ->
              stored_or stored (_create_sequence reader a b step)
              = Ok (container (class reader) (py_range a b step))
              \/ exists e, stored_or stored (_create_sequence reader a b step) = Raise e).
  { intros stored Hlook.
    assert (Hcreate : _create_sequence reader a b step
                      = Ok (container (class reader) (py_range a b step))
                      \/ exists e, _create_sequence reader a b step = Raise e).
    { rewrite (create_sequence_closed reader a b step Hs Hle).
      destruct (range_count a b step <? max_length reader); eauto. }
    destruct Hp as [Hp | [Hlt0 Hp]].
    - rewrite (lookup_outcome reader data_format "range" _ _ _ later w1 None H Hb1 Hp)
        in Hlook.
      change (check_equal_sequences reader "range" None a (range_max a b step) step)
        with (Ok false : result bool) in Hlook.
      injection Hlook as <-. exact Hcreate.
    - rewrite (lookup_outcome reader data_format "range" _ _ _ later w1 _ H Hb1 Hp)
        in Hlook.
      rewrite check_equal_sequences_record in Hlook.
      cbn [String.eqb Ascii.eqb Bool.eqb andb] in Hlook.
      destruct (range_count a0 b0 step0 =? 1) eqn:Hone; [discriminate|].
      destruct (_sequence_type_check reader (PStr (_sequence_type writer))) eqn:Hty;
        cbn [andb] in Hlook; [|injection Hlook as <-; exact Hcreate].
      destruct (range_max a0 b0 step0 =? range_max a b step) eqn:Hmx;
        cbn [andb] in Hlook; [|injection Hlook as <-; exact Hcreate].
      destruct (a0 =? a) eqn:Hmn;
        cbn [andb] in Hlook; [|injection Hlook as <-; exact Hcreate].
      destruct ((range_max a0 b0 step0 - a0) / (range_count a0 b0 step0 - 1) =? step)
        eqn:Hst; [|injection Hlook as <-; exact Hcreate].
      cbn [py_getitem record_value lookup String.eqb Ascii.eqb Bool.eqb rbind]
        in Hlook.
      injection Hlook as <-. left. cbn [stored_or]. f_equal.
      rewrite (container_compatible writer reader _ Hty). f_equal.
      apply Z.eqb_eq in Hmx, Hmn, Hst. apply Z.eqb_neq in Hone.
      pose proof (range_count_positive a0 b0 step0 Hs0 Hlt0) as Hpos.
      rewrite (range_max_closed a0 b0 step0 Hs0 Hlt0) in Hst.
      replace (a0 + (range_count a0 b0 step0 - 1) * step0 - a0)
        with (step0 * (range_count a0 b0 step0 - 1)) in Hst by lia.
      rewrite Z.div_mul in Hst by lia.
      symmetry. apply py_range_determined; auto. }
  destruct (fst (stored_sequence reader (serializer_of data_format)
                   (target data_format) "range" a (range_max a b step) step
                   (opened data_format later w1))) as [stored|e] eqn:Hlook;
    [|discriminate].
  destruct (Hstored stored eq_refl) as [Hseq | [e Hseq]]; rewrite Hseq in Hrun2;
    [|discriminate].
  destruct (encode (serializer_of data_format)
              (container (class reader) (py_range a b step)) (_sequence_type reader)
              "range" (strftime (created_at data_format later w1)) (repr reader) a
              (range_max a b step) later) as [d|e] eqn:Hd; [|discriminate].
  exists d. split; [reflexivity|].
  injection Hrun2 as <-.
  now destruct (written_body data_format d later w1 _ H Hsame) as (Hbody & _).
Qed.

Lemma second_range_call_writes_its_range_witness :
  let w1 :=
    snd (generate_sequence (list_generator 100) "json" 0 (Some 50) 1 an_instant
           no_files) in
  let w2 :=
    snd (generate_sequence (tuple_generator 10) "json" 50 None 1 a_later_instant w1) in
  exists d,
    encode (serializer_of "json")
      (container (class (tuple_generator 10)) (py_range 0 50 1))
      (_sequence_type (tuple_generator 10)) "range"
      (strftime (created_at "json" a_later_instant w1))
      (repr (tuple_generator 10)) 0 (range_max 0 50 1) a_later_instant
    = Ok d
    /\ body_at (target "json") w2 = Text d.
Proof.
  intros w1 w2.
  apply (second_range_call_writes_its_range (list_generator 100) (tuple_generator 10)
           "json" 0 (Some 50) 1 50 None 1 an_instant a_later_instant no_files w1 w2).
  - right. reflexivity.
  - lia.
  - cbn. lia.
  - left. reflexivity.
  - vm_compute. reflexivity.
  - lia.
  - cbn. lia.
  - vm_compute. reflexivity.
Defined.

(** ** Fibonacci calls *)

Lemma fibonacci_first (first second n : Z) : n <= 1 -> fibonacci first second n = first.
Proof.
  intros Hn. unfold fibonacci.
  now replace (Z.to_nat (n - 1)) with 0%nat by lia.
Qed.

Lemma fibonacci_step (first second n : Z) :
  1 <= n ->
  fibonacci first second (n + 2)
  = fibonacci first second n + fibonacci first second (n + 1).
Proof.
  intros Hn. unfold fibonacci.
  replace (Z.to_nat (n + 2 - 1)) with (S (S (Z.to_nat (n - 1)))) by lia.
  replace (Z.to_nat (n + 1 - 1)) with (S (Z.to_nat (n - 1))) by lia.
  rewrite !Nat.iter_succ. cbn [fst snd]. reflexivity.
Qed.

Lemma fib_sequence_length (first second length : Z) :
  List.length (fib_sequence first second length) = Z.to_nat (Z.max 2 length).
Proof.
  unfold fib_sequence, fib_indices.
  cbn [app List.length]. rewrite !length_map, length_seq. lia.
Qed.

Lemma fib_sequence_nth (first second length : Z) (k : nat) :
  (k < Z.to_nat (Z.max 2 length))%nat ->
  nth_error (fib_sequence first second length) k
  = Some (fibonacci first second (Z.of_nat k + 1)).
Proof.
  intros Hk. unfold fib_sequence, fib_indices.
  destruct k as [|[|k]]; [reflexivity|reflexivity|].
  cbn [app nth_error]. rewrite map_map, nth_error_map, nth_error_seq.
  replace (k <? Z.to_nat (length - 2))%nat with true
    by (symmetry; apply Nat.ltb_lt; lia).
  cbn [option_map]. do 2 f_equal. lia.
Qed.

(** X12. [__fibonacci(first, second, n)] is the [n]-th term of the
    recurrence seeded with [first] and [second]: [first] for every
    [n <= 1] (zero and negative [n] included), [second] for [n = 2], and
    each later term is the sum of the two before it. The list a
    Fibonacci call computes holds the terms 1 to [length] in order, and
    never fewer than the two seeds: it has [max(2, length)] elements. *)
Theorem fibonacci_terms (first second : Z) :
  (forall n, n <= 1 -> fibonacci first second n = first)
  /\ fibonacci first second 2 = second
  /\ (forall n, 1 <= n ->
        fibonacci first second (n + 2)
        = fibonacci first second n + fibonacci first second (n + 1))
  /\ (forall length,
        List.length (fib_sequence first second length) = Z.to_nat (Z.max 2 length)
        /\ forall k, (k < Z.to_nat (Z.max 2 length))%nat ->
             nth_error (fib_sequence first second length) k
             = Some (fibonacci first second (Z.of_nat k + 1))).
Proof.
  split; [|split; [|split]].
  - intros n. apply fibonacci_first.
  - reflexivity.
  - intros n. apply fibonacci_step.
  - intros length. split; [apply fib_sequence_length|].
    intros k. apply fib_sequence_nth.
Qed.

Lemma fibonacci_terms_witness :
  fibonacci 2 3 (-4) = 2
  /\ fibonacci 2 3 (3 + 2) = fibonacci 2 3 3 + fibonacci 2 3 (3 + 1)
  /\ nth_error (fib_sequence 2 3 5) 4 = Some (fibonacci 2 3 (Z.of_nat 4 + 1)).
Proof.
  split; [|split].
  - apply (proj1 (fibonacci_terms 2 3) (-4)). lia.
  - apply (proj1 (proj2 (proj2 (fibonacci_terms 2 3))) 3). lia.
  - apply (proj2 (proj2 (proj2 (proj2 (fibonacci_terms 2 3))) 5) 4%nat). cbn. lia.
Defined.

(** X13. A Fibonacci call by a list or tuple generator, with seeds
    [1 <= first <= second], a length from 2 up and below the limit, and no
    reusable record in the target, succeeds and leaves the record of the
    first [length] terms: type name of the class, [seq_type]
    ['fibonacci'], [len] the length, [min] the first seed and [max] the
    last term. [get_sequence] of a list or tuple generator whose limit is
    not below the length then returns the terms, as a list or as a
    tuple. *)
Theorem fibonacci_call_reads_back (writer reader : generator) (data_format : string)
    (first second length : Z) (now : datetime) (w : world) :
  class writer = ListGenerator \/ class writer = TupleGenerator ->
  class reader = ListGenerator \/ class reader = TupleGenerator ->
  supported data_format ->
  1 <= first -> first <= second -> 2 <= length ->
  length < max_length writer -> length <= max_length reader ->
  no_reusable_record writer data_format "fibonacci" first
    (fibonacci first second (length - 1)) 0 w ->
  exists w',
    generate_fibonacci writer data_format first second length now w = (Ok tt, w')
    /\ persisted data_format w'
       = Ok (Some (record_value
                     (PList (map PInt (fib_sequence first second length)))
                     (_sequence_type writer) "fibonacci"
                     (strftime (created_at data_format now w)) (strftime now)
                     (repr writer) length first (fibonacci first second length)))
    /\ fst (get_sequence reader w')
       = Ok (native (class reader) (fib_sequence first second length)).
Proof.
  intros Hw Hr H H1 H2 Hlen Hlimit Hread Hmiss.
  destruct (computed_fibonacci_record writer data_format first second length now w
              Hw H H1 H2 Hlen Hlimit Hmiss) as (w' & Hrun & Hp).
  replace (len_of (PList (map PInt (fib_sequence first second length)))) with length
    in Hp by (unfold len_of; cbn [py_len]; rewrite length_map, fib_sequence_length; lia).
  exists w'. split; [exact Hrun|]. split; [exact Hp|].
  assert (Hb' : blank (target data_format) w' = false).
  { pose proof (persisted_has_text data_format w' _ Hp) as Hne.
    unfold blank. now destruct (body_at (target data_format) w'). }
  assert (Ho : file_at (other (target data_format)) w' = None).
  { pose proof (generate_fibonacci_ends_in writer data_format first second length now w
                  H) as He.
    rewrite Hrun in He. exact (ends_in_other_removed _ _ _ _ H He). }
  rewrite get_sequence_fst,
    (get_sequence_outcome reader data_format w' _ _ _ _ _ _ _ _ _ H Hb' Ho Hp).
  replace (_sequence_type_check reader (PStr (_sequence_type writer))) with true
    by (unfold _sequence_type_check, _sequence_type;
        destruct Hw as [-> | ->], Hr as [-> | ->]; reflexivity).
  cbn [negb].
  replace (max_length reader <? length) with false by (symmetry; apply Z.ltb_ge; lia).
  destruct Hr as [-> | ->]; reflexivity.
Qed.

Lemma fibonacci_call_reads_back_witness :
  exists w',
    generate_fibonacci (list_generator 100) "xml" 2 3 5 a_later_instant only_json
    = (Ok tt, w')
    /\ persisted "xml" w'
       = Ok (Some (record_value (PList (map PInt (fib_sequence 2 3 5)))
                     (_sequence_type (list_generator 100)) "fibonacci"
                     (strftime (created_at "xml" a_later_instant only_json))
                     (strftime a_later_instant) (repr (list_generator 100)) 5 2
                     (fibonacci 2 3 5)))
    /\ fst (get_sequence (tuple_generator 5) w')
       = Ok (native (class (tuple_generator 5)) (fib_sequence 2 3 5)).
Proof.
  apply (fibonacci_call_reads_back (list_generator 100) (tuple_generator 5) "xml" 2 3 5
           a_later_instant only_json).
  - left. reflexivity.
  - right. reflexivity.
  - left. reflexivity.
  - lia.
  - lia.
  - lia.
  - cbn. lia.
  - cbn. lia.
  - left. reflexivity.
Defined.

(** X14. A length below 2 is not honoured. A Fibonacci call by a list or
    tuple generator with [length <= 2] (1, 0 and negative lengths
    included), below the limit and with no reusable record in the target,
    writes the two seeds, with [min] the first seed and [max] the greater
    of the two: a generator of limit 1, which can write no range but the
    empty one, writes two elements this way. *)
Theorem fibonacci_short_length (self : generator) (data_format : string)
    (first second length : Z) (now : datetime) (w : world) :
  class self = ListGenerator \/ class self = TupleGenerator ->
  supported data_format ->
  length <= 2 -> length < max_length self ->
  no_reusable_record self data_format "fibonacci" first
    (fibonacci first second (length - 1)) 0 w ->
  exists d w',
    encode (serializer_of data_format) (PList [PInt first; PInt second])
      (_sequence_type self) "fibonacci" (strftime (created_at data_format now w))
      (repr self) first (Z.max first second) now = Ok d
    /\ generate_fibonacci self data_format first second length now w = (Ok tt, w')
    /\ body_at (target data_format) w' = Text d.
Proof.
  intros Hcls H Hlen Hlimit Hmiss.
  destruct (generate_fibonacci_computed self data_format first second length now w
              H Hlimit Hmiss) as (w3 & Hsame & Hrun).
  assert (Hseq : fib_sequence first second length = [first; second]).
  { unfold fib_sequence, fib_indices.
    now replace (Z.to_nat (length - 2)) with 0%nat by lia. }
  assert (Hgen : _generate_fibonacci self (fib_sequence first second length)
                 = Ok (PList [PInt first; PInt second]))
    by (rewrite Hseq; unfold _generate_fibonacci; destruct Hcls as [-> | ->];
        reflexivity).
  pose proof (int_of_max_ints first second []) as Hmax. cbn [map fold_left] in Hmax.
  rewrite Hgen, Hmax in Hrun.
  destruct (encode_container data_format (PList [PInt first; PInt second])
              (_sequence_type self) "fibonacci"
              (strftime (created_at data_format now w)) (repr self) first
              (Z.max first second) now eq_refl) as [d Hd].
  rewrite Hd in Hrun. exists d. eexists. split; [exact Hd|]. split; [exact Hrun|].
  now destruct (written_body data_format d now w w3 H Hsame) as (Hbody & _ & _).
Qed.

Lemma fibonacci_short_length_witness :
  exists d w',
    encode (serializer_of "json") (PList [PInt 5; PInt 1])
      (_sequence_type (list_generator 1)) "fibonacci"
      (strftime (created_at "json" an_instant no_files))
      (repr (list_generator 1)) 5 (Z.max 5 1) an_instant = Ok d
    /\ generate_fibonacci (list_generator 1) "json" 5 1 0 an_instant no_files
       = (Ok tt, w')
    /\ body_at (target "json") w' = Text d.
Proof.
  apply (fibonacci_short_length (list_generator 1) "json" 5 1 0 an_instant no_files).
  - left. reflexivity.
  - right. reflexivity.
  - lia.
  - cbn. lia.
  - left. reflexivity.
Defined.

(** ** Which file is read, and text that is not a document *)

Lemma read_back_any_world (self : generator) (data_format : string) (w w' : world) :
  supported data_format ->
  file_at (target data_format) w' = file_at (target data_format) w ->
  fst (BaseGenerator.read_back self data_format w')
  = fst (BaseGenerator.read_back self data_format w).
Proof.
  intros H Hf.
  assert (Hs : get_serializer data_format = Ok (serializer_of data_format))
    by (supported_cases H; reflexivity).
  assert (Hp : get_path data_format = Ok (target data_format))
    by (supported_cases H; reflexivity).
  unfold BaseGenerator.read_back. rewrite Hs, Hp.
  unfold bind, lift, read, raise. rewrite Hf.
  destruct (file_at (target data_format) w) as [f|]; [|reflexivity].
  pose proof (decode_any_world data_format (content f) w' w) as Hd.
  destruct (decode (serializer_of data_format) (content f) w') as [r1 w1].
  destruct (decode (serializer_of data_format) (content f) w) as [r2 w2].
  cbn [fst] in Hd. subst r2.
  destruct r1 as [[data|]|e]; try reflexivity.
  destruct (py_getitem data "metadata") as [meta|]; [|reflexivity].
  destruct (py_getitem meta "type") as [ty|]; [|reflexivity].
  destruct (negb (_sequence_type_check self ty)); [reflexivity|].
  destruct (py_getitem meta "len") as [len|]; [|reflexivity].
  destruct (py_gt len (max_length self)) as [[]|]; reflexivity.
Qed.

Lemma get_sequence_of_xml (self : generator) (w : world) :
  blank XML_PATH w = false ->
  BaseGenerator.get_sequence self w = BaseGenerator.read_back self "xml" w.
Proof.
  intros Hb.
  unfold BaseGenerator.get_sequence, exists_nonempty, bind, path_exists, nonempty, ret.
  unfold blank, body_at in Hb. destruct w as [m j x out].
  cbn [file_at json_file xml_file] in *.
  destruct x as [[c b]|]; [|discriminate].
  cbn [content] in *. destruct b; [discriminate| |]; reflexivity.
Qed.

Lemma get_sequence_of_json (self : generator) (w : world) :
  blank XML_PATH w = true -> blank JSON_PATH w = false ->
  BaseGenerator.get_sequence self w = BaseGenerator.read_back self "json" w.
Proof.
  intros Hx Hj.
  unfold BaseGenerator.get_sequence, exists_nonempty, bind, path_exists, nonempty, ret.
  unfold blank, body_at in Hx, Hj. destruct w as [m j x out].
  cbn [file_at json_file xml_file] in *.
  destruct j as [[cj bj]|]; [|discriminate].
  cbn [content] in *.
  destruct x as [[cx bx]|]; cbn [content] in *.
  - destruct bx; try discriminate. destruct bj; [discriminate| |]; reflexivity.
  - destruct bj; [discriminate| |]; reflexivity.
Qed.

(** X15. [get_sequence] reads [data.xml] whenever that file has text, and
    [data.json] only when [data.xml] is missing or empty. What it returns
    or raises depends on the file it reads alone: with text in [data.xml],
    neither the presence nor the content of [data.json] changes the result,
    and what was printed before never does. *)
Theorem xml_is_read_first (self : generator) :
  (forall w w',
      blank XML_PATH w = false -> xml_file w' = xml_file w ->
      fst (get_sequence self w') = fst (get_sequence self w))
  /\ (forall w w',
        blank XML_PATH w = true -> blank XML_PATH w' = true ->
        blank JSON_PATH w = false -> json_file w' = json_file w ->
        fst (get_sequence self w') = fst (get_sequence self w)).
Proof.
  split.
  - intros w w' Hb Hx.
    assert (Hb' : blank XML_PATH w' = false)
      by (unfold blank, body_at in *; cbn [file_at] in *; now rewrite Hx).
    rewrite !get_sequence_fst, (get_sequence_of_xml self w Hb),
      (get_sequence_of_xml self w' Hb').
    now rewrite (read_back_any_world self "xml" w w' (or_introl eq_refl) Hx).
  - intros w w' Hx Hx' Hb Hj.
    assert (Hb' : blank JSON_PATH w' = false)
      by (unfold blank, body_at in *; cbn [file_at] in *; now rewrite Hj).
    rewrite !get_sequence_fst, (get_sequence_of_json self w Hx Hb),
      (get_sequence_of_json self w' Hx' Hb').
    now rewrite (read_back_any_world self "json" w w' (or_intror eq_refl) Hj).
Qed.

Lemma xml_is_read_first_witness :
  fst (get_sequence (tuple_generator 100) both_files)
  = fst (get_sequence (tuple_generator 100) xml_and_empty_json)
  /\ fst (get_sequence (tuple_generator 100)
            {| getctime_reports := Creation; json_file := Some a_json_file;
               xml_file := Some (empty_file a_later_instant); stdout := [] |})
     = fst (get_sequence (tuple_generator 100) only_json).
Proof.
  split.
  - apply (proj1 (xml_is_read_first (tuple_generator 100)) xml_and_empty_json
             both_files); reflexivity.
  - apply (proj2 (xml_is_read_first (tuple_generator 100)) only_json
             {| getctime_reports := Creation; json_file := Some a_json_file;
                xml_file := Some (empty_file a_later_instant); stdout := [] |});
      reflexivity.
Defined.





(** ** The codecs on a mapping and on a document *)

Lemma dict_els_of_keys (entries : list (string * pyval)) :
  map dict_el entries
  = map (fun k => SubElement "el" [("key", k)] k) (map fst entries).
Proof.
  now rewrite map_map.
Qed.

Lemma xml_encode_keys (e1 e2 : list (string * pyval))
    (s_type seq_type cr_time author : string) (min_el max_el : Z) (now : datetime) :
  map fst e1 = map fst e2 ->
  XMLSerializer.encode (PDict e1) s_type seq_type cr_time author min_el max_el now
  = XMLSerializer.encode (PDict e2) s_type seq_type cr_time author min_el max_el now.
Proof.
  intros Hk. rewrite !xml_encode_dict, !dict_els_of_keys, Hk.
  now rewrite <- (length_map fst e1), <- (length_map fst e2), Hk.
Qed.

(** X17. The XML encoder writes the keys of a mapping, as the attribute and
    as the text of each element, and never its values: two mappings with
    the same keys in the same order give the same text. Decoding reads
    each value back from the text of the key, so a mapping whose keys are
    the decimal texts of distinct integers comes back as the mapping from
    each key to the integer it spells, whatever its values were, in a
    record whose seq_type, date_created and author are plain texts (not
    empty, and of tab, line feed and the ASCII characters from the space
    up, which the parser reads as they were written). The JSON encoder
    keeps the mapping as it is. *)
Theorem xml_encoding_keeps_keys_only :
  (forall e1 e2 s_type seq_type cr_time author min_el max_el now,
      map fst e1 = map fst e2 ->
      XMLSerializer.encode (PDict e1) s_type seq_type cr_time author min_el max_el now
      = XMLSerializer.encode (PDict e2) s_type seq_type cr_time author min_el max_el
          now)
  /\ (forall entries l seq_type cr_time author min_el max_el now w,
        map fst entries = map str_of_int l ->
        NoDup l -> l <> [] ->
        plain seq_type = true -> plain cr_time = true -> plain author = true ->
        round_trip XMLSerializer (PDict entries) "dict" seq_type cr_time author
          min_el max_el now w
        = Ok (Some (record_value (PDict (map (fun z => (str_of_int z, PInt z)) l))
                      "dict" seq_type cr_time (strftime now) author
                      (Z.of_nat (List.length l)) min_el max_el)))
  /\ (forall e1 e2 s_type seq_type cr_time author min_el max_el now,
        JSONSerializer.encode (PDict e1) s_type seq_type cr_time author min_el max_el
          now
        = JSONSerializer.encode (PDict e2) s_type seq_type cr_time author min_el max_el
            now ->
        e1 = e2).
Proof.
  split; [|split].
  - intros. now apply xml_encode_keys.
  - intros entries l seq_type cr_time author min_el max_el now w Hk Hnd Hne Hst Hcr Hau.
    fold (keyed l).
    assert (Hkeys : map fst entries = map fst (keyed l))
      by (unfold keyed; rewrite map_map; cbn [fst]; exact Hk).
    assert (Hrt : round_trip XMLSerializer (PDict entries) "dict" seq_type cr_time
                    author min_el max_el now w
                  = round_trip XMLSerializer (PDict (keyed l)) "dict" seq_type cr_time
                      author min_el max_el now w).
    { unfold round_trip. cbn [encode XMLSerializer].
      now rewrite (xml_encode_keys entries (keyed l) _ _ _ _ _ _ _ Hkeys). }
    rewrite Hrt.
    pose proof (container_valid (dict_generator 1) l Hnd) as Hv.
    pose proof (container_truthy DictGenerator l Hne) as Ht.
    rewrite (xml_round_trip (PDict (keyed l)) "dict" seq_type cr_time author min_el
               max_el now w Hv Ht eq_refl Hst Hcr Hau).
    unfold len_of, keyed. cbn [py_len]. now rewrite length_map.
  - intros e1 e2 s_type seq_type cr_time author min_el max_el now.
    cbn. now intros [= ->].
Qed.

Lemma xml_encoding_keeps_keys_only_witness :
  XMLSerializer.encode (PDict [("7", PInt 1); ("9", PStr "nine")]) "dict" "range"
    "03.11.2026 09:05" "DictGenerator" 7 9 an_instant
  = XMLSerializer.encode (PDict [("7", PInt 7); ("9", PInt 9)]) "dict" "range"
      "03.11.2026 09:05" "DictGenerator" 7 9 an_instant
  /\ round_trip XMLSerializer (PDict [("7", PInt 1); ("9", PStr "nine")]) "dict"
       "range" "03.11.2026 09:05" "DictGenerator" 7 9 an_instant no_files
     = Ok (Some (record_value
                   (PDict (map (fun z => (str_of_int z, PInt z)) [7; 9]))
                   "dict" "range" "03.11.2026 09:05" (strftime an_instant)
                   "DictGenerator" (Z.of_nat (List.length [7; 9])) 7 9)).
Proof.
  split.
  - apply (proj1 xml_encoding_keeps_keys_only). reflexivity.
  - apply (proj1 (proj2 xml_encoding_keeps_keys_only)
             [("7", PInt 1); ("9", PStr "nine")] [7; 9]).
    + reflexivity.
    + repeat constructor; cbn; intuition lia.
    + discriminate.
    + reflexivity.
    + reflexivity.
    + reflexivity.
Defined.

Lemma list_of_els_ints (els : list xml) (l : list pyval) :
  XMLSerializer.list_of_els els = Ok l -> forallb is_int l = true.
Proof.
  unfold XMLSerializer.list_of_els. revert l.
  induction els as [|i els IH]; intros l; cbn [rmap].
  - now intros [= <-].
  - destruct (int_of_text (text_of i)) as [v|]; [|discriminate]. cbn [rbind].
    destruct (rmap _ els) as [bs|]; [|discriminate]. cbn [rbind].
    intros [= <-]. cbn [forallb is_int andb]. now apply IH.
Qed.

Lemma dict_set_ints (k : string) (z : Z) (acc : list (string * pyval)) :
  forallb (fun kv => is_int (snd kv)) acc = true ->
  forallb (fun kv => is_int (snd kv)) (dict_set k (PInt z) acc) = true.
Proof.
  induction acc as [|[k' v'] acc IH]; intros H; [reflexivity|].
  cbn [dict_set]. cbn [forallb snd] in H. apply andb_prop in H as [Hv Hacc].
  destruct (k' =? k)%string; cbn [forallb snd is_int andb]; [exact Hacc|].
  rewrite Hv. now apply IH.
Qed.

Lemma dict_of_els_ints (els : list xml) (acc d : list (string * pyval)) :
  forallb (fun kv => is_int (snd kv)) acc = true ->
  XMLSerializer.dict_of_els els acc = Ok d ->
  forallb (fun kv => is_int (snd kv)) d = true.
Proof.
  revert acc. induction els as [|i els IH]; intros acc Hacc;
    cbn [XMLSerializer.dict_of_els].
  - now intros [= <-].
  - destruct (assoc "key" (attrib_of i)) as [k|]; [|discriminate].
    destruct (int_of_text (text_of i)) as [v|]; [|discriminate]. cbn [rbind].
    apply IH. now apply dict_set_ints.
Qed.

(** X18. Whatever text it is given, a record the XML decoder returns is
    well formed: its sequence is a list of integers, or a mapping whose
    values are integers; [len] is the number of elements of that sequence,
    counted again by the decoder and not read from the text; [el_type] is
    ['int']; [min] and [max] are integers. Returning a record, the decoder
    printed nothing. *)
Theorem xml_decoded_record_shape (file : body) (w w' : world) (record : pyval) :
  XMLSerializer.decode file w = (Ok (Some record), w') ->
  w' = w
  /\ exists sequence n mn mx,
      py_getitem record "sequence" = Ok sequence
      /\ match sequence with
         | PList items => forallb is_int items = true
         | PDict entries => forallb (fun kv => is_int (snd kv)) entries = true
         | _ => False
         end
      /\ py_len sequence = Ok n
      /\ metadata record "len" = Ok (PInt n)
      /\ metadata record "el_type" = Ok (PStr "int")
      /\ metadata record "min" = Ok (PInt mn)
      /\ metadata record "max" = Ok (PInt mx).
Proof.
  unfold XMLSerializer.decode.
  destruct file as [|raw|[root|data]]; try discriminate.
  destruct (reparse root) as [read|]; [|discriminate].
  unfold bind, lift, ret.
  destruct (XMLSerializer._validate_data read) as [[]|]; try discriminate.
  unfold XMLSerializer.record_of.
  destruct (dot_text (XMLSerializer.field "type" read)) as [sq_type|];
    [|discriminate].
  cbn [rbind].
  set (els := findall2 "sequence" "el" read).
  assert (Hseq :
            forall seq,
              (if text_is sq_type "dict"
               then (d <- XMLSerializer.dict_of_els els [] ;; Ok (PDict d))%result
               else (l <- XMLSerializer.list_of_els els ;; Ok (PList l))%result)
              = Ok seq ->
              match seq with
              | PList items => forallb is_int items = true
              | PDict entries => forallb (fun kv => is_int (snd kv)) entries = true
              | _ => False
              end).
  { intros seq. destruct (text_is sq_type "dict").
    - destruct (XMLSerializer.dict_of_els els []) as [d|] eqn:Hd; [|discriminate].
      intros [= <-]. now apply (dict_of_els_ints els [] d).
    - destruct (XMLSerializer.list_of_els els) as [l|] eqn:Hl; [|discriminate].
      intros [= <-]. now apply (list_of_els_ints els l). }
  destruct (if text_is sq_type "dict" then _ else _) as [seq|]; [|discriminate].
  specialize (Hseq seq eq_refl). cbn [rbind].
  destruct (dot_text (XMLSerializer.field "seq_type" read)); [|discriminate].
  cbn [rbind].
  destruct (py_len seq) as [n|] eqn:Hn; [|discriminate]. cbn [rbind].
  destruct (dot_text (XMLSerializer.field "date_created" read));
    [|discriminate].
  cbn [rbind].
  destruct (dot_text (XMLSerializer.field "date_modified" read));
    [|discriminate].
  cbn [rbind].
  destruct (dot_text (XMLSerializer.field "author" read)); [|discriminate].
  cbn [rbind].
  destruct (dot_text (XMLSerializer.field "min" read)) as [min_text|];
    [|discriminate].
  cbn [rbind].
  destruct (int_of_text min_text) as [mn|]; [|discriminate]. cbn [rbind].
  destruct (dot_text (XMLSerializer.field "max" read)) as [max_text|];
    [|discriminate].
  cbn [rbind].
  destruct (int_of_text max_text) as [mx|]; [|discriminate]. cbn [rbind].
  intros [= <- <-]. split; [reflexivity|].
  exists seq, n, mn, mx. repeat split; try reflexivity; assumption.
Qed.

Lemma xml_decoded_record_shape_witness :
  both_files = both_files
  /\ exists sequence n mn mx,
      py_getitem
        (record_value (PList [PInt 1; PInt 2]) "list" "range" "03.11.2026 09:05"
           "03.11.2026 09:05" "ListGenerator" 2 1 2) "sequence" = Ok sequence
      /\ match sequence with
         | PList items => forallb is_int items = true
         | PDict entries => forallb (fun kv => is_int (snd kv)) entries = true
         | _ => False
         end
      /\ py_len sequence = Ok n
      /\ metadata
           (record_value (PList [PInt 1; PInt 2]) "list" "range" "03.11.2026 09:05"
              "03.11.2026 09:05" "ListGenerator" 2 1 2) "len" = Ok (PInt n)
      /\ metadata
           (record_value (PList [PInt 1; PInt 2]) "list" "range" "03.11.2026 09:05"
              "03.11.2026 09:05" "ListGenerator" 2 1 2) "el_type" = Ok (PStr "int")
      /\ metadata
           (record_value (PList [PInt 1; PInt 2]) "list" "range" "03.11.2026 09:05"
              "03.11.2026 09:05" "ListGenerator" 2 1 2) "min" = Ok (PInt mn)
      /\ metadata
           (record_value (PList [PInt 1; PInt 2]) "list" "range" "03.11.2026 09:05"
              "03.11.2026 09:05" "ListGenerator" 2 1 2) "max" = Ok (PInt mx).
Proof.
  apply (xml_decoded_record_shape (content an_xml_file) both_files both_files).
  vm_compute. reflexivity.
Defined.

(** X19. On a JSON object whose [metadata] is an object, is missing or is
    false (null, 0, an empty string or list), the JSON decoder never
    raises and prints nothing: it returns the object itself, unchanged,
    or [None]. *)
Theorem json_decode_of_object (entries : list (string * pyval)) (w : world) :
  match lookup "metadata" entries with
  | None | Some (PDict _) => True
  | Some v => truthy v = false
  end ->
  exists r,
    JSONSerializer.decode (Text (JsonDocument (PDict entries))) w = (Ok r, w)
    /\ (r = None \/ r = Some (PDict entries)).
Proof.
  intros Hmeta.
  cbv [JSONSerializer.decode bind lift ret].
  assert (Hv : exists ok, JSONSerializer._validate_data (PDict entries) = Ok ok).
  { unfold JSONSerializer._validate_data, JSONSerializer.meta_truthy,
      JSONSerializer.get_truthy.
    cbn [py_get rbind all_of].
    destruct (truthy match lookup "sequence" entries with Some x => x | None => PNone end);
      [|eauto].
    destruct (lookup "metadata" entries) as [meta|]; cbn [truthy]; [|eauto].
    destruct meta as [| | | | |m]; try (rewrite Hmeta; eauto).
    destruct (truthy (PDict m)); [|eauto].
    cbn [py_get py_has_key rbind].
    repeat match goal with
    | |- context [if ?b then _ else _] => destruct b; eauto
    end. }
  destruct Hv as [[] ->]; eexists; split; try reflexivity; auto.
Qed.

Lemma json_decode_of_object_witness :
  exists r,
    JSONSerializer.decode
      (Text (JsonDocument (PDict [("sequence", PList [PInt 1]); ("metadata", PInt 0)])))
      no_files = (Ok r, no_files)
    /\ (r = None
        \/ r = Some (PDict [("sequence", PList [PInt 1]); ("metadata", PInt 0)])).
Proof.
  apply (json_decode_of_object [("sequence", PList [PInt 1]); ("metadata", PInt 0)]
           no_files).
  reflexivity.
Defined.

(** ** The shape [get_sequence] gives to a stored list *)

Lemma distinct_kept (l seen : list Z) :
  exists kept,
    distinct (map PInt seen) (map PInt l) = map PInt kept
    /\ NoDup kept
    /\ forall x, In x kept <-> In x l /\ ~ In x seen.
Proof.
  revert seen. induction l as [|y l IH]; intros seen.
  - exists []. repeat split; try constructor; cbn; intuition.
  - cbn [map distinct].
    assert (Hy : existsb (same_key (PInt y)) (map PInt seen) = true <-> In y seen).
    { clear. induction seen as [|z seen IH]; cbn [map existsb same_key as_int].
      - split; [discriminate|intros []].
      - rewrite orb_true_iff, IH, Z.eqb_eq. cbn [In]. intuition. }
    destruct (existsb (same_key (PInt y)) (map PInt seen)) eqn:E.
    + destruct (IH seen) as (kept & Hk & Hnd & Hin).
      exists kept. split; [exact Hk|]. split; [exact Hnd|].
      intros x. rewrite Hin. cbn [In].
      assert (In y seen) by now apply Hy. intuition congruence.
    + destruct (IH (y :: seen)) as (kept & Hk & Hnd & Hin).
      exists (y :: kept). cbn [map]. split; [now rewrite <- Hk|].
      assert (Hny : ~ In y seen) by (rewrite <- Hy; congruence).
      split.
      * constructor; [|exact Hnd]. rewrite Hin. cbn [In]. intuition.
      * intros x. cbn [In]. rewrite Hin. cbn [In].
        destruct (Z.eq_dec y x) as [->|Hne]; intuition.
Qed.

(** X20. [get_sequence] on any stored record whose sequence is a list of
    integers, of a type the reader accepts and with a stored [len] within
    the reader's limit: the list generator returns the list as stored, the
    tuple generator the same items in the same order as a tuple, and the
    set generator a set that holds each stored value once. The length that
    is checked is the [len] the decoder reports: in a JSON file that is
    the number written in the file, which the sequence may exceed. *)
Theorem stored_list_in_each_shape (reader : generator) (data_format : string)
    (w : world) (items : list Z) (s_type seq_type cr_time mod_date author : string)
    (len min_el max_el : Z) :
  supported data_format ->
  blank (target data_format) w = false ->
  file_at (other (target data_format)) w = None ->
  persisted data_format w
  = Ok (Some (record_value (PList (map PInt items)) s_type seq_type cr_time mod_date
                author len min_el max_el)) ->
  _sequence_type_check reader (PStr s_type) = true ->
  len <= max_length reader ->
  match class reader with
  | ListGenerator | DictGenerator =>
      fst (get_sequence reader w) = Ok (Plain (PList (map PInt items)))
  | TupleGenerator => fst (get_sequence reader w) = Ok (Tuple (map PInt items))
  | SetGenerator =>
      exists kept,
        fst (get_sequence reader w) = Ok (PySet (map PInt kept))
        /\ NoDup kept
        /\ forall x, In x kept <-> In x items
  end.
Proof.
  intros H Hb Ho Hp Hty Hlen.
  pose proof (get_sequence_outcome reader data_format w _ _ _ _ _ _ _ _ _ H Hb Ho Hp)
    as Hbase.
  rewrite Hty in Hbase. cbn [negb] in Hbase.
  replace (max_length reader <? len) with false in Hbase
    by (symmetry; apply Z.ltb_ge; lia).
  pose proof (get_sequence_fst reader w) as Hfst. rewrite Hbase in Hfst.
  destruct (class reader); try exact Hfst.
  destruct (distinct_kept items []) as (kept & Hk & Hnd & Hin).
  exists kept. split; [|split; [exact Hnd|]].
  - rewrite Hfst. unfold py_set, py_iter, rbind.
    replace (forallb hashable (map PInt items)) with true
      by (symmetry; clear; induction items; [reflexivity|assumption]).
    cbn [map] in Hk. now rewrite Hk.
  - intros x. rewrite Hin. cbn [In]. intuition.
Qed.

Lemma stored_list_in_each_shape_witness :
  exists kept,
    fst (get_sequence (set_generator 2) json_with_duplicates)
    = Ok (PySet (map PInt kept))
    /\ NoDup kept
    /\ forall x, In x kept <-> In x [4; 7; 4; 9].
Proof.
  apply (stored_list_in_each_shape (set_generator 2) "json" json_with_duplicates
           [4; 7; 4; 9] "set" "range" "03.11.2026 09:05" "03.11.2026 09:05"
           "SetGenerator" 2 4 9).
  - right. reflexivity.
  - reflexivity.
  - reflexivity.
  - vm_compute. reflexivity.
  - reflexivity.
  - cbn. lia.
Defined.
